(** * Mi Band heart-rate monitor: chunk codec, auth handshake and telemetry

    A shallow embedding of [band.c] (with the record of [band.h] and the
    characteristic identifiers of [uuid.h]) and the properties of its
    specification that can be settled on it.

    Conventions of the embedding:
    - a [uint8_t] is a [Z] in [0, 256); every conversion to [uint8_t] that the
      C code performs is written [u8];
    - a byte buffer is a [list Z]; the [value_length] of a notification is
      the length of its list, the [data_length] of [write_chunked_value] is
      an argument of its own; a read past the end of a buffer has no defined
      value, so every function that reads returns [option], [None] standing
      for such a read;
    - [printf], [gattlib_write_char_by_uuid] and
      [gattlib_notification_start] are recorded, in program order, as a list
      of [event]s;
    - the elliptic-curve and block-cipher primitives of the linked libraries
      are parameters of the handshake section;
    - a [double] is an IEEE binary64 number of [SpecFloat], with its
      operations rounded to nearest even. *)

From Stdlib Require Import ZArith QArith_base Lia SpecFloat.
From stdpp Require Import base tactics option list strings.

Local Open Scope Z_scope.

(** ** Bytes and buffers *)

Definition u8 (z : Z) : Z := z mod 256.

Definition is_byte (b : Z) : Prop := 0 <= b < 256.

(** [buf[i] = v] on a buffer that is long enough (the C arrays written by
    index below are always allocated with the size the writes need). *)
Definition store (i : Z) (v : Z) (buf : list Z) : list Z :=
  <[Z.to_nat i := v]> buf.

(** [memcpy(dst + off, src, n)] with [src] holding exactly the [n] bytes. *)
Fixpoint memcpy (off : nat) (src : list Z) (dst : list Z) : list Z :=
  match src with
  | [] => dst
  | b :: src' => memcpy (S off) src' (<[off := b]> dst)
  end.

(** [n] bytes read through the pointer [buf + off]. *)
Definition read_bytes (buf : list Z) (off : Z) (n : nat) : option (list Z) :=
  if (0 <=? off) && (off + Z.of_nat n <=? Z.of_nat (length buf))
  then Some (take n (drop (Z.to_nat off) buf))
  else None.

(** [buf[i]] *)
Definition read (buf : list Z) (i : Z) : option Z :=
  if 0 <=? i then buf !! Z.to_nat i else None.

(** ** [write_chunked_value] *)

Module Chunk.

Definition mMTU : Z := 23.

(** One pass through the body of the [while] loop: the chunk handed to
    [gattlib_write_char_by_uuid] and the number of payload bytes in it.
    The variable-length array [chunk] starts out as zeros here (in C its
    contents are indeterminate; every byte is written before it is sent). *)
Definition chunk_of (type handle : Z) (data : list Z) (data_length : Z)
    (remaining count header_size : Z) : option (list Z * Z) :=
  let MAX_CHUNKLENGTH := mMTU - 3 - header_size in
  let copybytes :=
    if remaining <? MAX_CHUNKLENGTH then remaining else MAX_CHUNKLENGTH in
  let chunk := replicate (Z.to_nat (copybytes + header_size)) 0 in
  let flags := 0 in
  let '(flags, chunk) :=
    if count =? 0 then
      (Z.lor flags 0x01,
       store 10 (Z.land (Z.shiftr type 8) 0xff)
         (store 9 (Z.land type 0xff)
            (store 8 (Z.land (Z.shiftr data_length 24) 0xff)
               (store 7 (Z.land (Z.shiftr data_length 16) 0xff)
                  (store 6 (Z.land (Z.shiftr data_length 8) 0xff)
                     (store 5 (Z.land data_length 0xff) chunk))))))
    else (flags, chunk) in
  let flags :=
    if remaining <=? MAX_CHUNKLENGTH then Z.lor flags 0x06 else flags in
  let chunk := store 0 0x03 chunk in
  let chunk := store 1 flags chunk in
  let chunk := store 2 0 chunk in
  let chunk := store 3 handle chunk in
  let chunk := store 4 (u8 count) chunk in
  slice ← read_bytes data (data_length - remaining) (Z.to_nat copybytes);
  Some (memcpy (Z.to_nat header_size) slice chunk, copybytes).

(** The [while (remaining > 0)] loop.  [fuel] bounds the number of passes;
    with [fuel] exhausted the result is [None], as it is for a read past the
    end of [data]. *)
Fixpoint write_loop (fuel : nat) (type handle : Z) (data : list Z)
    (data_length remaining count header_size : Z) : option (list (list Z)) :=
  if 0 <? remaining then
    match fuel with
    | O => None
    | S fuel' =>
        '(chunk, copybytes) ←
          chunk_of type handle data data_length remaining count header_size;
        rest ← write_loop fuel' type handle data data_length
                 (remaining - copybytes) (count + 1) 5;
        Some (chunk :: rest)
    end
  else Some [].

(** [write_chunked_value(connection, char_uuid, type, handle, data,
    data_length)]: the chunks written to the characteristic, in order.
    Every pass consumes at least one byte, so [data_length] passes are
    enough. *)
Definition write_chunked_value (type handle : Z) (data : list Z)
    (data_length : Z) : option (list (list Z)) :=
  write_loop (Z.to_nat data_length) type handle data data_length
    data_length 0 11.

End Chunk.

(** ** Characteristic identifiers ([uuid.h]) *)

Definition CHARACTERISTIC_HEART_RATE_MEASURE : string := "0x2a37".
Definition CHARACTERISTIC_HEART_RATE_CONTROL : string := "0x2a39".
Definition CHARACTERISTIC_ALERT : string := "0x2a46".
Definition CHARACTERISTIC_CHUNKED_TRANSFER_WRITE : string :=
  "00000016-0000-3512-2118-0009af100700".
Definition CHARACTERISTIC_CHUNKED_TRANSFER_READ : string :=
  "00000017-0000-3512-2118-0009af100700".

(** ** The device record ([band.h]) and what the program does to the world *)

(** The fields of [BLEDevice] that the notification handler touches.  A row
    of [hrHist] is [None] while its two cells are allocated but not yet
    written.  [initial_timestamp] is the global of [band.c], kept with the
    device so that it is passed along with the rest of the state. *)
Record BLEDevice := mkBLEDevice {
  hrHist : list (option (Z * Z));
  authKey : list Z;
  privateKey : list Z;
  publicKey : list Z;
  secretKey : list Z;
  lastSequenceNumber : Z;
  pointer : Z;
  expectedBytes : Z;
  handle : Z;
  hrCount : Z;
  histSize : Z;
  initial_timestamp : Z
}.

Inductive event : Type :=
  | Printf (msg : string)
  | gattlib_write_char_by_uuid (uuid : string) (buffer : list Z)
  | gattlib_notification_start (uuid : string)
  | gnuplot (rows : list (option (Z * Z))).

Definition set_reassembly (d : BLEDevice) (last ptr expected : Z) : BLEDevice :=
  mkBLEDevice (hrHist d) (authKey d) (privateKey d) (publicKey d)
    (secretKey d) last ptr expected (handle d) (hrCount d) (histSize d)
    (initial_timestamp d).

Definition set_secretKey (d : BLEDevice) (k : list Z) : BLEDevice :=
  mkBLEDevice (hrHist d) (authKey d) (privateKey d) (publicKey d)
    k (lastSequenceNumber d) (pointer d) (expectedBytes d) (handle d)
    (hrCount d) (histSize d) (initial_timestamp d).

Definition set_keypair (d : BLEDevice) (pub prv : list Z) : BLEDevice :=
  mkBLEDevice (hrHist d) (authKey d) prv pub
    (secretKey d) (lastSequenceNumber d) (pointer d) (expectedBytes d)
    (handle d) (hrCount d) (histSize d) (initial_timestamp d).

Definition set_history (d : BLEDevice) (hist : list (option (Z * Z)))
    (count size : Z) : BLEDevice :=
  mkBLEDevice hist (authKey d) (privateKey d) (publicKey d)
    (secretKey d) (lastSequenceNumber d) (pointer d) (expectedBytes d)
    (handle d) count size (initial_timestamp d).

Definition set_initial_timestamp (d : BLEDevice) (t : Z) : BLEDevice :=
  mkBLEDevice (hrHist d) (authKey d) (privateKey d) (publicKey d)
    (secretKey d) (lastSequenceNumber d) (pointer d) (expectedBytes d)
    (handle d) (hrCount d) (histSize d) t.

(** [ble_device_create], after a successful connection: the key buffers are
    freshly allocated (their contents are whatever [prv], [pub] and
    [secret] are), [auth] is what [prepare_auth_key] read. *)
Definition ble_device_create (auth prv pub secret : list Z) : BLEDevice :=
  mkBLEDevice (replicate 1000 None) auth prv pub secret 0 0 0 0 0 1000 0.

(** ** The notification handler and the handshake *)

(** Conversion to [int32_t]. *)
Definition int32 (z : Z) : Z := (z + 2^31) mod 2^32 - 2^31.

(** [double] arithmetic is IEEE 754 binary64, round to nearest even. *)
Definition double : Type := spec_float.
Definition double_of_int (z : Z) : double := binary_normalize 53 1024 z 0 false.
Definition double_add : double -> double -> double := SFadd 53 1024.
Definition double_sub : double -> double -> double := SFsub 53 1024.
Definition double_div : double -> double -> double := SFdiv 53 1024.
Definition double_lt : double -> double -> bool := SFltb.

(** [a && b] on conditions that read the frame: [b] is evaluated only when
    [a] holds. *)
Definition and_then (a b : option bool) : option bool :=
  x ← a; if x : bool then b else Some false.

Definition byte_is (value : list Z) (i c : Z) : option bool :=
  b ← read value i; Some (b =? c).

(** [value[9] == 0x82 && value[10] == 0x00 && value[11] == 0x10 &&
    value[12] == sub && value[13] == 0x01] *)
Definition signature_is (value : list Z) (sub : Z) : option bool :=
  and_then (byte_is value 9 0x82)
    (and_then (byte_is value 10 0x00)
       (and_then (byte_is value 11 0x10)
          (and_then (byte_is value 12 sub) (byte_is value 13 0x01)))).

(** The [for] loop that fills [finalSharedSessionAES]. *)
Fixpoint session_key_loop (n : nat) (i : Z) (secret auth : list Z)
    (out : list Z) : option (list Z) :=
  match n with
  | O => Some out
  | S n' =>
      s ← read secret (i + 8);
      a ← read auth i;
      session_key_loop n' (i + 1) secret auth (store i (Z.lxor s a) out)
  end.

Definition send_alert : list event :=
  [ Printf "Sending call notification to the band";
    gattlib_write_char_by_uuid CHARACTERISTIC_ALERT [0x03; 0x01; 0x0a; 0x0a; 0x0a] ].

Definition ping_heart_rate : list event :=
  [ gattlib_write_char_by_uuid CHARACTERISTIC_HEART_RATE_CONTROL [0x15; 0x01; 0x01];
    gattlib_write_char_by_uuid CHARACTERISTIC_HEART_RATE_CONTROL [0x14; 0x00; 0x01] ].

Definition plot_heart_rate (d : BLEDevice) : list event :=
  [ gnuplot (take (Z.to_nat (hrCount d)) (hrHist d)) ].

(** The two cells of row [i] of [hrHist]; a row that was never written has
    no defined contents. *)
Definition read_row (hist : list (option (Z * Z))) (i : Z) : option (Z * Z) :=
  if 0 <=? i then mjoin (hist !! Z.to_nat i) else None.

(** [device->hrHist[i][0] = t; device->hrHist[i][1] = v;] through the row
    pointer [hrHist[i]], which must lie inside the array. *)
Definition write_row (hist : list (option (Z * Z))) (i : Z) (t v : Z)
    : option (list (option (Z * Z))) :=
  if (0 <=? i) && (i <? Z.of_nat (length hist))
  then Some (<[Z.to_nat i := Some (t, v)]> hist)
  else None.

(** [sum += device->hrHist[i][1]] for [i] from [0] below [hrCount]. *)
Fixpoint sum_loop (n : nat) (i : Z) (hist : list (option (Z * Z)))
    (sum : double) : option double :=
  match n with
  | O => Some sum
  | S n' =>
      row ← read_row hist i;
      sum_loop n' (i + 1) hist (double_add sum (double_of_int row.2))
  end.

Module Band.
Section Handler.

(** *** Primitives of the linked libraries *)

(** [ECC_PUB_KEY_SIZE] of [ecdh.h]. *)
Variable ECC_PUB_KEY_SIZE : nat.

(** [ecdh_generate_keys(public_key, private_key)]: from the contents of the
    two buffers, the return code and their new contents. *)
Variable ecdh_generate_keys : list Z -> list Z -> Z * (list Z * list Z).

(** [ecdh_shared_secret(private_key, others_pub, output)]: from the private
    key, the [ECC_PUB_KEY_SIZE] bytes of the other side's public key and the
    old contents of [output], the return code and the new contents of
    [output]. *)
Variable ecdh_shared_secret : list Z -> list Z -> list Z -> Z * list Z.

(** [AES_set_encrypt_key(key, 128, &aes_key)] followed by
    [AES_cbc_encrypt(in, out, length, &aes_key, iv, AES_ENCRYPT)]: from the
    16 key bytes, the initialisation vector and the [length] input bytes, the
    bytes written to [out]. *)
Variable AES_cbc_encrypt : list Z -> list Z -> list Z -> list Z.

(** Return code of [gattlib_notification_start] for a characteristic, and
    whether [RAND_bytes] reports success and [realloc] returns a block. *)
Variable notification_start_ret : string -> Z.
Variable RAND_bytes_ret : Z.
Variable realloc_ok : Z -> bool.

Definition GATTLIB_SUCCESS : Z := 0.
Definition AES_BLOCK_SIZE : nat := 16.

(** [encrypt_aes_cbc(key, in, out, length)] with [in] the pointer
    [buf + off]: the bytes left in [out]. *)
Definition encrypt_aes_cbc (key : list Z) (buf : list Z) (off : Z)
    (length : nat) : option (list Z) :=
  let iv := replicate AES_BLOCK_SIZE 0 in
  k ← read_bytes key 0 16;
  input ← read_bytes buf off length;
  Some (AES_cbc_encrypt k iv input).

(** [write_chunked_value] on a characteristic: one write per chunk. *)
Definition write_chunked (uuid : string) (type handle : Z) (data : list Z)
    (data_length : Z) : option (list event) :=
  match Chunk.write_chunked_value type handle data data_length with
  | Some chunks => Some (map (gattlib_write_char_by_uuid uuid) chunks)
  | None => None
  end.

Definition prepare_pub_key (d : BLEDevice)
    : BLEDevice * list Z * list event :=
  let ev1 :=
    if RAND_bytes_ret =? 1 then []
    else [Printf "Error generating random bytes"] in
  let '(ret, (pub, prv)) := ecdh_generate_keys (publicKey d) (privateKey d) in
  let ev2 :=
    if ret =? 1 then [] else [Printf "Error generating public key"] in
  let d := set_keypair d pub prv in
  let prefix := [0x04; 0x02; 0x00; 0x02] in
  let final_array := prefix ++ take ECC_PUB_KEY_SIZE (publicKey d) in
  (d, final_array, ev1 ++ ev2).

Definition characteristic_enable_notifications_succeeded (d : BLEDevice)
    (uuid : string) : option (BLEDevice * list event) :=
  if String.eqb uuid CHARACTERISTIC_CHUNKED_TRANSFER_WRITE then
    let '(d, auth, ev) := prepare_pub_key d in
    w ← write_chunked uuid 0x82 (handle d) auth 52;
    Some (d, [Printf "Sending 1st Auth Part"] ++ ev ++ w)
  else Some (d, []).

Definition start_hr_measure (now : Z) (d : BLEDevice)
    : BLEDevice * list event :=
  let ret2 := notification_start_ret CHARACTERISTIC_HEART_RATE_MEASURE in
  (set_initial_timestamp d now,
   [gattlib_notification_start CHARACTERISTIC_HEART_RATE_MEASURE]
   ++ (if ret2 =? GATTLIB_SUCCESS then []
       else [Printf "Failed to start notifications for heart rate"])
   ++ [ gattlib_write_char_by_uuid CHARACTERISTIC_HEART_RATE_CONTROL [0x15; 0x01; 0x01];
        gattlib_write_char_by_uuid CHARACTERISTIC_HEART_RATE_CONTROL [0x14; 0x00; 0x01] ]).

(** *** The chunked-transfer branch of [characteristic_value_updated] *)

(** Lines from [uint8_t sequence_number = value[4]] to
    [device->lastSequenceNumber = sequence_number]: the header checks and the
    bookkeeping.  Returns the device, [header_size] and what was printed or
    written on the way. *)
Definition reassemble (now : Z) (d : BLEDevice) (value : list Z)
    : option (BLEDevice * Z * list event) :=
  let value_length := Z.of_nat (length value) in
  sequence_number ← read value 4;
  first ← and_then (Some (sequence_number =? 0)) (signature_is value 0x04);
  '(d, header_size, ev) ←
    (if first : bool then
       v5 ← read value 5;
       Some (set_reassembly d (lastSequenceNumber d) 0 (u8 (v5 - 3)), 14,
             [Printf "1st authentication part completed"])
     else if 0 <? sequence_number then
       Some (d, 5,
             if negb (sequence_number =? lastSequenceNumber d + 1)
             then [Printf "Unexpected sequence number"] else [])
     else
       accepted ← signature_is value 0x05;
       if accepted : bool then
         let '(d, ev) := start_hr_measure now d in
         Some (d, 0, Printf "Successfully authenticated" :: ev)
       else Some (d, 0, [Printf "Unhandled characteristic change"]));
  let bytes_to_copy := u8 (value_length - header_size) in
  Some (set_reassembly d sequence_number (u8 (pointer d + bytes_to_copy))
          (expectedBytes d),
        header_size, ev).

(** The body of [if (device->pointer == device->expectedBytes)]. *)
Definition second_auth_part (d : BLEDevice) (value : list Z)
    (header_size : Z) : option (BLEDevice * list event) :=
  let remoteRandom := header_size in
  let remotePublic := header_size + 16 in
  others_pub ← read_bytes value remotePublic ECC_PUB_KEY_SIZE;
  let '(ret, secret) :=
    ecdh_shared_secret (privateKey d) others_pub (secretKey d) in
  let d := set_secretKey d secret in
  let ev1 := if ret =? 1 then [] else [Printf "Error in key"] in
  finalSharedSessionAES ←
    session_key_loop 16 0 (secretKey d) (authKey d) (replicate 16 0);
  out1 ← encrypt_aes_cbc (authKey d) value remoteRandom 16;
  out2 ← encrypt_aes_cbc finalSharedSessionAES value remoteRandom 16;
  let command := store 0 0x05 (replicate 33 0) in
  o1 ← read_bytes out1 0 16;
  let command := memcpy 1 o1 command in
  o2 ← read_bytes out2 0 16;
  let command := memcpy 17 o2 command in
  w ← write_chunked CHARACTERISTIC_CHUNKED_TRANSFER_WRITE 0x82
        (u8 (handle d + 1)) command 33;
  Some (d, ev1 ++ [Printf "Sending 2nd Auth Part"] ++ w).

Definition chunked_transfer (now : Z) (d : BLEDevice) (value : list Z)
    : option (BLEDevice * list event) :=
  let value_length := Z.of_nat (length value) in
  v0 ← (if 1 <? value_length then read value 0 else Some 0);
  if (1 <? value_length) && (v0 =? 0x03) then
    '(d, header_size, ev) ← reassemble now d value;
    if pointer d =? expectedBytes d then
      '(d, ev2) ← second_auth_part d value header_size;
      Some (d, ev ++ ev2)
    else Some (d, ev)
  else Some (d, []).

(** *** The heart-rate branch of [characteristic_value_updated] *)

(** [if (device->hrCount == device->histSize)]: the buffer is doubled; the
    new rows are allocated and not yet written.  When [realloc] fails the
    loop that allocates the new rows goes through the null [tempArray]. *)
Definition grow_history (d : BLEDevice) : option (BLEDevice * list event) :=
  if hrCount d =? histSize d then
    let size := histSize d * 2 in
    if realloc_ok size then
      Some (set_history d
              (hrHist d ++ replicate (Z.to_nat (size - size / 2)) None)
              (hrCount d) size, [])
    else if size / 2 <? size then None
    else
      if realloc_ok 1000 then
        Some (set_history d (replicate 1000 None) 0 1000,
              Printf "Error while allocating memory! " :: plot_heart_rate d)
      else None
  else Some (d, []).

Definition heart_rate (now : Z) (d : BLEDevice) (value : list Z)
    : option (BLEDevice * list event) :=
  let d := set_history d (hrHist d) (hrCount d + 1) (histSize d) in
  '(d, ev) ← grow_history d;
  v0 ← read value 0;
  let result := Z.lor (Z.shiftl 0 8) v0 in
  v1 ← read value 1;
  let result := Z.lor (Z.shiftl result 8) v1 in
  hist ← write_row (hrHist d) (hrCount d - 1)
            (int32 (now - initial_timestamp d)) result;
  let d := set_history d hist (hrCount d) (histSize d) in
  sum ← sum_loop (Z.to_nat (hrCount d)) 0 (hrHist d) (double_of_int 0);
  let mean := double_div sum (double_of_int (hrCount d)) in
  let alert :=
    (60 <? hrCount d)
    && double_lt (double_of_int result) (double_sub mean (double_of_int 10)) in
  Some (d, ev ++ [Printf "Heart Rate Value"]
             ++ (if alert then send_alert else [])).

(** *** [characteristic_value_updated] *)

Definition characteristic_value_updated (now : Z) (uuid : string)
    (value : list Z) (d : BLEDevice) : option (BLEDevice * list event) :=
  '(d, ev1) ←
    (if String.eqb uuid CHARACTERISTIC_CHUNKED_TRANSFER_READ
     then chunked_transfer now d value else Some (d, []));
  '(d, ev2) ←
    (if String.eqb uuid CHARACTERISTIC_HEART_RATE_MEASURE
     then heart_rate now d value else Some (d, []));
  Some (d, ev1 ++ ev2).

(** A run of the handler over the notifications of one characteristic. *)
Fixpoint notifications (now : Z) (uuid : string) (values : list (list Z))
    (d : BLEDevice) : option (BLEDevice * list event) :=
  match values with
  | [] => Some (d, [])
  | value :: rest =>
      '(d, ev) ← characteristic_value_updated now uuid value d;
      '(d, ev') ← notifications now uuid rest d;
      Some (d, ev ++ ev')
  end.

End Handler.
End Band.

(** ** The frames as the protocol describes them

    Closed forms that the chunks written by [write_chunked_value] and the
    bookkeeping of the handler are compared with below. *)

Module ChunkSpec.
Import Chunk.

(** The extended header of chunk 0. *)
Definition first_header (type handle data_length flags : Z) : list Z :=
  [ 0x03; flags; 0; handle; 0;
    Z.land data_length 0xff;
    Z.land (Z.shiftr data_length 8) 0xff;
    Z.land (Z.shiftr data_length 16) 0xff;
    Z.land (Z.shiftr data_length 24) 0xff;
    Z.land type 0xff;
    Z.land (Z.shiftr type 8) 0xff ].

(** The short header of chunk [count > 0]. *)
Definition short_header (handle flags count : Z) : list Z :=
  [ 0x03; flags; 0; handle; u8 count ].

Definition header_of (type handle data_length flags count : Z) : list Z :=
  if count =? 0 then first_header type handle data_length flags
  else short_header handle flags count.

Definition flags_of (remaining count header_size : Z) : Z :=
  Z.lor (if count =? 0 then 0x01 else 0)
        (if remaining <=? mMTU - 3 - header_size then 0x06 else 0).

Definition copybytes_of (remaining header_size : Z) : Z :=
  Z.min remaining (mMTU - 3 - header_size).

Definition header_size_of (count : Z) : Z := if count =? 0 then 11 else 5.

(** The chunks as the protocol describes them: chunk 0 carries the extended
    header and the first 9 bytes, chunk [1 + j] the short header and the 15
    bytes from offset [9 + 15 j] on (fewer at the end of the data). *)
Definition cont_chunk (handle : Z) (data : list Z) (data_length : Z)
    (off count : Z) : list Z :=
  short_header handle (if data_length - off <=? 15 then 0x06 else 0) count
  ++ take (Z.to_nat (Z.min (data_length - off) 15)) (drop (Z.to_nat off) data).

Definition first_chunk (type handle : Z) (data : list Z) (data_length : Z)
    : list Z :=
  first_header type handle data_length
    (Z.lor 0x01 (if data_length <=? 9 then 0x06 else 0))
  ++ take (Z.to_nat (Z.min data_length 9)) data.

Definition chunks_spec (type handle : Z) (data : list Z) (data_length : Z)
    : list (list Z) :=
  if data_length =? 0 then []
  else first_chunk type handle data data_length
       :: map (λ j, cont_chunk handle data data_length (9 + 15 * j) (1 + j))
            (seqZ 0 ((data_length + 5) / 15)).

(** The payload bytes of a run of chunks: what follows the 11-byte header
    in chunk 0 and the 5-byte header in every later chunk. *)
Definition payload_slices (chunks : list (list Z)) : list Z :=
  match chunks with
  | [] => []
  | first :: rest => drop 11 first ++ concat (map (drop 5) rest)
  end.

(** The 33 bytes of the answer to the key-exchange message: the command
    byte, the nonce under the pre-shared key, the nonce under the session
    key, which is bytes 8 to 23 of the shared secret xor the pre-shared
    key. *)
Definition session_key (auth secret : list Z) : list Z :=
  zip_with Z.lxor (take 16 (drop 8 secret)) auth.

Definition challenge (AES_cbc_encrypt : list Z -> list Z -> list Z -> list Z)
    (auth secret nonce : list Z) : list Z :=
  0x05 :: AES_cbc_encrypt auth (replicate 16 0) nonce
       ++ AES_cbc_encrypt (session_key auth secret) (replicate 16 0) nonce.

(** A 32-bit length, least significant byte first. *)
Definition le32 (n : Z) : list Z :=
  [ Z.land n 0xff; Z.land (Z.shiftr n 8) 0xff;
    Z.land (Z.shiftr n 16) 0xff; Z.land (Z.shiftr n 24) 0xff ].

End ChunkSpec.

(** ** Binary64 numbers in canonical form

    Vocabulary for the facts about [double] arithmetic: the number of bits of
    a mantissa, and the 53-bit representation of [u * 2 ^ e]. *)

Module DoubleSpec.

(** Number of binary digits. *)
Definition dig (p : positive) : Z := Z.pos (digits2_pos p).

(** The binary64 number of value [u * 2 ^ e], for [u] of at most 53 bits. *)
Definition canon (s : bool) (u : positive) (e : Z) : spec_float :=
  S754_finite s (Z.to_pos (Z.pos u * 2 ^ (53 - dig u))) (e - (53 - dig u)).

(** The last stage of [binary_round_aux]: a mantissa of 53 bits is kept, the
    mantissa [2^53] is renormalised. *)
Definition last_stage (s : bool) (m1 e1 : Z) : spec_float :=
  let '(mrs, e) := shr_fexp 53 1024 m1 e1 loc_Exact in
  match shr_m mrs with
  | 0 => S754_zero s
  | Z.pos m => if e <=? 1024 - 53 then S754_finite s m e else S754_infinity s
  | Z.neg _ => S754_nan
  end.

End DoubleSpec.

(** ** The recorded samples and their mean

    Vocabulary for the alert rule: the values recorded so far, their
    arithmetic mean as a rational number, and the histories that the handler
    builds from a freshly created device. *)

Module TelemetrySpec.

(** The [value] cell of a row. *)
Definition value_of (row : option (Z * Z)) : Z := from_option snd 0 row.

(** The values of the first [hrCount] rows, oldest first. *)
Definition recorded (d : BLEDevice) : list Z :=
  value_of <$> take (Z.to_nat (hrCount d)) (hrHist d).

Definition total (values : list Z) : Z := foldr Z.add 0 values.

Definition mean (values : list Z) : Q :=
  Qdiv (inject_Z (total values)) (inject_Z (Z.of_nat (length values))).

(** [v] is more than 10 below the mean of [values]. *)
Definition below_mean (v : Z) (values : list Z) : Prop :=
  Qlt (inject_Z v) (Qminus (mean values) (inject_Z 10)).

(** The write that [send_alert] performs. *)
Definition alert : event :=
  gattlib_write_char_by_uuid CHARACTERISTIC_ALERT [0x03; 0x01; 0x0a; 0x0a; 0x0a].

(** A row that holds a sample of two bytes. *)
Definition row_ok (row : option (Z * Z)) : bool :=
  match row with
  | Some (_, v) => (0 <=? v) && (v <? 65536)
  | None => false
  end.

(** The history between two notifications: [histSize] rows are allocated,
    the first [hrCount] of them are written and there is room for one
    more. *)
Definition history_ok (d : BLEDevice) : bool :=
  (0 <=? hrCount d) && (hrCount d <? histSize d)
  && (histSize d =? Z.of_nat (length (hrHist d)))
  && forallb row_ok (take (Z.to_nat (hrCount d)) (hrHist d)).

(** The value that the handler reads from the first two bytes of a
    notification. *)
Definition sample_of (v0 v1 : Z) : Z := v0 * 256 + v1.

End TelemetrySpec.

(** ** Sample primitives, devices and frames

    Stand-ins for the linked primitives, used where a statement is evaluated
    on concrete input: a key agreement that copies the other side's public
    key to its output, one that fails and leaves its output untouched, and a
    cipher that xors every input byte with the xor of the key bytes. *)

Module Sample.

Definition ecdh_copy (prv others_pub output : list Z) : Z * list Z :=
  (1, others_pub).

Definition ecdh_fail (prv others_pub output : list Z) : Z * list Z :=
  (0, output).

Definition xor_cipher (key iv input : list Z) : list Z :=
  map (Z.lxor (foldr Z.lxor 0 key)) input.

Definition generate_keys (pub prv : list Z) : Z * (list Z * list Z) :=
  (1, (pub, prv)).

Definition bytes_from (start len : nat) : list Z := Z.of_nat <$> seq start len.

(** A freshly created device: pre-shared key 100..115, untouched key
    buffers of the sizes of the default curve (24, 48 and 48 bytes). *)
Definition device : BLEDevice :=
  ble_device_create (bytes_from 100 16) (replicate 24 1) (replicate 48 2)
    (replicate 48 7).

(** The key-exchange message in one frame: nonce 0..15, public key
    50..97. *)
Definition key_exchange_frame : list Z :=
  [0x03; 0x07; 0; 0; 0; 67; 0; 0; 0; 0x82; 0x00; 0x10; 0x04; 0x01]
  ++ bytes_from 0 16 ++ bytes_from 50 48.

(** A key-exchange message of total length 35 (body 0..31) in two frames
    that carry 16 and 19 of its bytes. *)
Definition split_frame_1 : list Z :=
  [0x03; 0x01; 0; 0; 0; 35; 0; 0; 0; 0x82; 0x00; 0x10; 0x04; 0x01]
  ++ bytes_from 0 13.

Definition split_frame_2 : list Z :=
  [0x03; 0x06; 0; 0; 1] ++ bytes_from 13 19.

(** The second of these frames numbered 2 instead of 1. *)
Definition split_gap_frame : list Z :=
  [0x03; 0x06; 0; 0; 2] ++ bytes_from 13 19.

(** A first frame with the key-exchange signature and a given
    [total_length] field. *)
Definition first_frame (flags reserved handle total_length : Z)
    (body : list Z) : list Z :=
  [0x03; flags; reserved; handle; 0]
  ++ ChunkSpec.le32 total_length
  ++ [0x82; 0x00; 0x10; 0x04; 0x01] ++ body.

(** A device that has recorded [values], all at time 0. *)
Definition device_with (values : list Z) : BLEDevice :=
  set_history device
    (((fun v => Some (0, v)) <$> values)
       ++ replicate (1000 - length values) None)
    (Z.of_nat (length values)) 1000.

Definition realloc_always (size : Z) : bool := true.

End Sample.

(** ** Reading the pre-shared key ([prepare_auth_key]) *)

Module AuthKey.

(** What a call ends in: it returns a value, or the process is ended by
    [exit].  Either way [out] is what was printed on the way. *)
Inductive result (A : Type) : Type :=
  | Return (a : A) (out : list event)
  | Exit (status : Z) (out : list event).
Arguments Return {A} a out.
Arguments Exit {A} status out.

(** Characters are their codes; a C string ends at the first 0. *)
Definition NUL : Z := 0.
Definition LF : Z := 10.

(** The characters [fgets] stores: up to and including the first newline,
    [n] at most. *)
Fixpoint fgets_chars (n : nat) (file : list Z) : list Z :=
  match n, file with
  | S n', c :: rest => if c =? LF then [c] else c :: fgets_chars n' rest
  | _, _ => []
  end.

(** [fgets(buf, size, file)] on a file positioned at its start: the cells
    of [buf] that are written (the characters and the terminator), or [None]
    for the null pointer returned at end of file. *)
Definition fgets (size : nat) (file : list Z) : option (list Z) :=
  match file with
  | [] => None
  | _ => Some (fgets_chars (size - 1) file ++ [NUL])
  end.

(** The characters of the C string that starts at [buf]. *)
Fixpoint c_string (buf : list Z) : list Z :=
  match buf with
  | [] => []
  | c :: rest => if c =? NUL then [] else c :: c_string rest
  end.

Definition strlen (buf : list Z) : nat := length (c_string buf).

(** [strcspn(buf, reject)] for a one-character [reject]. *)
Fixpoint strcspn (buf : list Z) (reject : Z) : nat :=
  match buf with
  | [] => O
  | c :: rest =>
      if (c =? NUL) || (c =? reject) then O else S (strcspn rest reject)
  end.

Section Parse.

(** [sscanf(s, "%2hhx", &b)] on the C string [s]: the byte stored in [b],
    or [None] when nothing is converted and [b] is left as it was. *)
Variable sscanf_2hhx : list Z -> option Z.

(** The [for] loop over [i < strlen(auth_key) / 2]; [keyArray[i]] has to
    lie inside the block. *)
Fixpoint parse_loop (n : nat) (i : nat) (auth_key : list Z)
    (keyArray : list Z) : option (list Z) :=
  match n with
  | O => Some keyArray
  | S n' =>
      if bool_decide (i < length keyArray)%nat then
        let keyArray :=
          match sscanf_2hhx (c_string (drop (2 * i) auth_key)) with
          | Some b => <[i := b]> keyArray
          | None => keyArray
          end in
        parse_loop n' (S i) auth_key keyArray
      else None
  end.

(** [prepare_auth_key()], with [file] the contents of [AUTH_KEY_FILE]
    ([None] when it cannot be opened) and [block] the contents of the 16
    bytes that [malloc] hands out. *)
Definition prepare_auth_key (file : option (list Z)) (block : list Z)
    : option (result (list Z)) :=
  match file with
  | None => Some (Exit 1 [Printf "Error: Could not open file "])
  | Some contents =>
      match fgets 33 contents with
      | None =>
          Some (Exit 1 [Printf "Error: Could not read auth key from file "])
      | Some auth_key =>
          let auth_key := <[strcspn auth_key LF := NUL]> auth_key in
          keyArray ← parse_loop (strlen auth_key / 2)%nat 0 auth_key block;
          Some (Return keyArray [])
      end
  end.

End Parse.

(** The value of a hexadecimal digit. *)
Definition hex_value (c : Z) : option Z :=
  if (48 <=? c) && (c <=? 57) then Some (c - 48)
  else if (97 <=? c) && (c <=? 102) then Some (c - 87)
  else if (65 <=? c) && (c <=? 70) then Some (c - 55)
  else None.

(** The two lower-case hexadecimal digits of a byte, and the text of a run
    of bytes. *)
Definition hex_digit (n : Z) : Z := if n <? 10 then 48 + n else 87 + n.

Definition hex_byte (b : Z) : list Z :=
  [hex_digit (b / 16); hex_digit (b mod 16)].

Definition hex_string (bytes : list Z) : list Z := bytes ≫= hex_byte.

(** A character that ends neither the string nor the line. *)
Definition plain (c : Z) : Prop := c ≠ NUL ∧ c ≠ LF.

End AuthKey.

(** ** The session ([enable_notifications_chunked] and [main.c]) *)

Module Session.
Import AuthKey.

(** What the main loop dispatches before the interrupt that ends it: the
    10-second timer ([notification_query]), or a notification, handed to
    [characteristic_value_updated] with the time at which it arrives. *)
Inductive source : Type :=
  | timeout
  | notification (now : Z) (uuid : string) (value : list Z).

Section Run.

Variable ECC_PUB_KEY_SIZE : nat.
Variable ecdh_generate_keys : list Z -> list Z -> Z * (list Z * list Z).
Variable ecdh_shared_secret : list Z -> list Z -> list Z -> Z * list Z.
Variable AES_cbc_encrypt : list Z -> list Z -> list Z -> list Z.
Variable notification_start_ret : string -> Z.
Variable RAND_bytes_ret : Z.
Variable realloc_ok : Z -> bool.
Variable sscanf_2hhx : list Z -> option Z.

Local Abbreviation characteristic_value_updated :=
  (Band.characteristic_value_updated ECC_PUB_KEY_SIZE ecdh_shared_secret
     AES_cbc_encrypt notification_start_ret realloc_ok).

(** [enable_notifications_chunked]: the handler is registered, then
    notifications are started on the read characteristic. *)
Definition enable_notifications_chunked (d : BLEDevice)
    : option (BLEDevice * list event) :=
  let ret := notification_start_ret CHARACTERISTIC_CHUNKED_TRANSFER_READ in
  if ret =? Band.GATTLIB_SUCCESS then
    '(d, ev) ←
      Band.characteristic_enable_notifications_succeeded ECC_PUB_KEY_SIZE
        ecdh_generate_keys RAND_bytes_ret d
        CHARACTERISTIC_CHUNKED_TRANSFER_WRITE;
    Some (d, gattlib_notification_start CHARACTERISTIC_CHUNKED_TRANSFER_READ
             :: ev)
  else
    Some (d, [ gattlib_notification_start CHARACTERISTIC_CHUNKED_TRANSFER_READ;
               Printf "Failed to start notifications for char_chunked" ]).

(** [notification_query]: the timer callback; it asks to be called
    again. *)
Definition notification_query (d : BLEDevice) : list event :=
  ping_heart_rate.

(** [g_main_loop_run(loop)] with the callbacks of this program. *)
Fixpoint g_main_loop_run (sources : list source) (d : BLEDevice)
    : option (BLEDevice * list event) :=
  match sources with
  | [] => Some (d, [])
  | timeout :: rest =>
      '(d', ev') ← g_main_loop_run rest d;
      Some (d', notification_query d ++ ev')
  | notification now uuid value :: rest =>
      '(d, ev) ← characteristic_value_updated now uuid value d;
      '(d', ev') ← g_main_loop_run rest d;
      Some (d', ev ++ ev')
  end.

(** [handle_sigint(SIGINT)] *)
Definition handle_sigint : list event :=
  [Printf "Keyboard interrupt received. Quitting..."].

(** [ble_device_create], from [gattlib_connect] on: [None] for the null
    pointer returned when the connection fails.  The key buffers are fresh
    blocks with contents [prv], [pub] and [secret]; the characteristics that
    the program writes to are taken to be among those discovered. *)
Definition ble_device_create (connected : bool) (file : option (list Z))
    (block prv pub secret : list Z) : option (result (option BLEDevice)) :=
  if connected then
    r ← prepare_auth_key sscanf_2hhx file block;
    match r with
    | Return auth out =>
        Some (Return (Some (ble_device_create auth prv pub secret)) out)
    | Exit status out => Some (Exit status out)
    end
  else Some (Return None [Printf "Failed to connect to the device."]).

(** [main]: the exit status of the process and what was printed and
    written.  [sources] is what the main loop dispatches before the
    interrupt. *)
Definition main (connected : bool) (file : option (list Z))
    (block prv pub secret : list Z) (sources : list source)
    : option (Z * list event) :=
  r ← ble_device_create connected file block prv pub secret;
  match r with
  | Exit status out => Some (status, out)
  | Return None out =>
      Some (1, out ++ [Printf "Failed to connect to the device."])
  | Return (Some device) out =>
      '(device, ev1) ← enable_notifications_chunked device;
      '(device, ev2) ← g_main_loop_run sources device;
      Some (0, out ++ ev1 ++ ev2 ++ handle_sigint ++ plot_heart_rate device)
  end.

End Run.

End Session.

(** ** Vocabulary for the statements about the handler and the session *)

Module HandlerSpec.

(** The fields that no notification changes. *)
Definition same_keys (d d' : BLEDevice) : Prop :=
  authKey d' = authKey d ∧ privateKey d' = privateKey d
  ∧ publicKey d' = publicKey d ∧ handle d' = handle d.

(** The fields of the heart-rate branch, and those of the chunked-transfer
    branch. *)
Definition same_history (d d' : BLEDevice) : Prop :=
  hrHist d' = hrHist d ∧ hrCount d' = hrCount d ∧ histSize d' = histSize d.

Definition same_transfer (d d' : BLEDevice) : Prop :=
  lastSequenceNumber d' = lastSequenceNumber d
  ∧ pointer d' = pointer d ∧ expectedBytes d' = expectedBytes d
  ∧ secretKey d' = secretKey d
  ∧ initial_timestamp d' = initial_timestamp d.

(** The frame that reports a successful authentication. *)
Definition success_frame (value : list Z) : Prop :=
  read value 4 = Some 0 ∧ signature_is value 0x05 = Some true.

Definition only_prints (ev : list event) : Prop :=
  ∀ e, e ∈ ev -> ∃ msg, e = Printf msg.

(** Output that is printed or written to the write side of the chunked
    transfer. *)
Definition only_handshake (ev : list event) : Prop :=
  ∀ e, e ∈ ev ->
    (∃ msg, e = Printf msg)
    ∨ ∃ b, e = gattlib_write_char_by_uuid
                 CHARACTERISTIC_CHUNKED_TRANSFER_WRITE b.

End HandlerSpec.

Module SessionSpec.
Import Session TelemetrySpec.

(** The row that a source adds to the history when the start time is
    [t0]: one for a heart-rate notification, none otherwise. *)
Definition sample_row (t0 : Z) (s : source) : list (option (Z * Z)) :=
  match s with
  | notification now uuid (v0 :: v1 :: _) =>
      if String.eqb uuid CHARACTERISTIC_HEART_RATE_MEASURE
      then [Some (int32 (now - t0), sample_of v0 v1)] else []
  | _ => []
  end.

Definition rows (t0 : Z) (sources : list source) : list (option (Z * Z)) :=
  sources ≫= sample_row t0.

(** The heart-rate values among the notifications of a run, in order. *)
Definition samples (sources : list source) : list Z :=
  value_of <$> rows 0 sources.

(** A timer tick, or a heart-rate notification of two or more bytes. *)
Definition heart_rate_source (s : source) : Prop :=
  match s with
  | timeout => True
  | notification _ uuid value =>
      uuid = CHARACTERISTIC_HEART_RATE_MEASURE
      ∧ (2 <= length value)%nat ∧ Forall is_byte value
  end.


End SessionSpec.

(** ** Sample key files and runs *)

Module Scenario.
Import AuthKey Session.

(** A conversion that knows hexadecimal digits only (no sign, no prefix,
    no leading blanks). *)
Definition sscanf_2hhx (s : list Z) : option Z :=
  match s with
  | h :: l :: _ =>
      match hex_value h, hex_value l with
      | Some x, Some y => Some (16 * x + y)
      | Some x, None => Some x
      | None, _ => None
      end
  | [h] => hex_value h
  | [] => None
  end.


Definition short_key_file : list Z :=
  hex_string (Sample.bytes_from 100 3) ++ [LF].

(** Two heart-rate notifications with a timer tick in between. *)
Definition stream : list source :=
  [ notification 1000 CHARACTERISTIC_HEART_RATE_MEASURE [0; 70];
    timeout;
    notification 1010 CHARACTERISTIC_HEART_RATE_MEASURE [0; 72] ].

(** The frame that reports a successful authentication. *)
Definition success_frame : list Z :=
  [0x03; 0x07; 0; 0; 0; 3; 0; 0; 0; 0x82; 0x00; 0x10; 0x05; 0x01].

(** A whole session: the key exchange, the success report, then the
    stream. *)
Definition session : list source :=
  notification 0 CHARACTERISTIC_CHUNKED_TRANSFER_READ Sample.key_exchange_frame
  :: notification 5 CHARACTERISTIC_CHUNKED_TRANSFER_READ success_frame
  :: stream.

End Scenario.

(** * Properties *)

(** ** Buffers *)

Lemma memcpy_app (src pre junk : list Z) :
  (length src <= length junk)%nat ->
  memcpy (length pre) src (pre ++ junk) = pre ++ src ++ drop (length src) junk.
Proof.
  revert pre junk.
  induction src as [|b src IH]; intros pre junk Hlen; simpl.
  - by rewrite drop_0.
  - destruct junk as [|j junk]; simpl in Hlen; [lia|].
    replace (<[length pre:=b]> (pre ++ j :: junk)) with ((pre ++ [b]) ++ junk).
    + replace (S (length pre)) with (length (pre ++ [b]))
        by (rewrite length_app; simpl; lia).
      rewrite IH by lia. by rewrite <- app_assoc.
    + rewrite <- app_assoc. simpl.
      rewrite insert_app_r_alt by lia.
      by rewrite Nat.sub_diag.
Qed.

Lemma memcpy_fill (src pre : list Z) :
  memcpy (length pre) src (pre ++ replicate (length src) 0) = pre ++ src.
Proof.
  rewrite memcpy_app by (rewrite length_replicate; lia).
  rewrite drop_ge by (rewrite length_replicate; lia).
  by rewrite app_nil_r.
Qed.

Lemma read_bytes_Some (buf : list Z) (off : Z) (n : nat) :
  0 <= off -> off + Z.of_nat n <= Z.of_nat (length buf) ->
  read_bytes buf off n = Some (take n (drop (Z.to_nat off) buf)).
Proof.
  intros H0 H1. unfold read_bytes.
  destruct (Z.leb_spec 0 off); [|lia].
  destruct (Z.leb_spec (off + Z.of_nat n) (Z.of_nat (length buf))); [done|lia].
Qed.

Lemma read_bytes_length (buf : list Z) (off : Z) (n : nat) (bs : list Z) :
  read_bytes buf off n = Some bs -> length bs = n.
Proof.
  unfold read_bytes.
  destruct (Z.leb_spec 0 off); simpl; [|done].
  destruct (Z.leb_spec (off + Z.of_nat n) (Z.of_nat (length buf))); [|done].
  intros [= <-]. rewrite length_take, length_drop. lia.
Qed.

Lemma read_bytes_None (buf : list Z) (off : Z) (n : nat) :
  Z.of_nat (length buf) < off + Z.of_nat n -> read_bytes buf off n = None.
Proof.
  intros H. unfold read_bytes.
  destruct (Z.leb_spec (off + Z.of_nat n) (Z.of_nat (length buf))); [lia|].
  by rewrite andb_false_r.
Qed.

(** ** The chunks written by [write_chunked_value] *)

Module ChunkFacts.
Import Chunk ChunkSpec.

Lemma chunk_of_eq type handle data data_length remaining count :
  0 < remaining <= data_length ->
  data_length <= Z.of_nat (length data) ->
  let hs := header_size_of count in
  chunk_of type handle data data_length remaining count hs =
    Some (header_of type handle data_length (flags_of remaining count hs) count
            ++ take (Z.to_nat (copybytes_of remaining hs))
                 (drop (Z.to_nat (data_length - remaining)) data),
          copybytes_of remaining hs).
Proof.
  intros Hrem Hlen hs. unfold chunk_of.
  fold (if remaining <? mMTU - 3 - hs then remaining else mMTU - 3 - hs).
  replace (if remaining <? mMTU - 3 - hs then remaining else mMTU - 3 - hs)
    with (copybytes_of remaining hs)
    by (unfold copybytes_of; destruct (Z.ltb_spec remaining (mMTU - 3 - hs)); lia).
  assert (Hc : 0 < copybytes_of remaining hs <= remaining).
  { unfold copybytes_of, hs, header_size_of, mMTU.
    destruct (count =? 0); lia. }
  set (c := copybytes_of remaining hs) in *.
  rewrite read_bytes_Some by lia. simpl.
  set (slice := take (Z.to_nat c) (drop (Z.to_nat (data_length - remaining)) data)).
  assert (Hslice : length slice = Z.to_nat c).
  { unfold slice. rewrite length_take, length_drop. lia. }
  unfold header_of, flags_of, hs, header_size_of.
  destruct (Z.eqb_spec count 0) as [->|Hcount].
  - replace (Z.to_nat (c + 11)) with (11 + Z.to_nat c)%nat by lia.
    rewrite <- Hslice, replicate_add.
    destruct (remaining <=? mMTU - 3 - 11);
      apply (f_equal (λ l, Some (l, c)));
      exact (memcpy_fill slice (first_header type handle data_length _)).
  - replace (Z.to_nat (c + 5)) with (5 + Z.to_nat c)%nat by lia.
    rewrite <- Hslice, replicate_add.
    destruct (remaining <=? mMTU - 3 - 5);
      apply (f_equal (λ l, Some (l, c)));
      exact (memcpy_fill slice (short_header handle _ count)).
Qed.

Section Loop.
Variables (type handle : Z) (data : list Z) (data_length : Z).
Hypothesis data_length_ok : data_length <= Z.of_nat (length data).

Lemma cont_loop (fuel : nat) : ∀ remaining count,
  1 <= count ->
  0 <= remaining <= data_length ->
  (Z.to_nat remaining <= fuel)%nat ->
  write_loop fuel type handle data data_length remaining count 5 =
    Some (map (λ j, cont_chunk handle data data_length
                      (data_length - remaining + 15 * j) (count + j))
            (seqZ 0 ((remaining + 14) / 15))).
Proof.
  induction fuel as [|fuel IH]; intros remaining count Hcount Hrem Hfuel.
  - assert (remaining = 0) as -> by lia. reflexivity.
  - simpl. destruct (Z.ltb_spec 0 remaining) as [Hpos|Hzero].
    2: { assert (remaining = 0) as -> by lia. reflexivity. }
    pose proof (chunk_of_eq type handle data data_length remaining count
                  ltac:(lia) data_length_ok) as Hchunk.
    unfold header_size_of in Hchunk.
    destruct (Z.eqb_spec count 0) as [?|_]; [lia|].
    simpl in Hchunk. rewrite Hchunk. clear Hchunk. simpl.
    unfold copybytes_of, mMTU.
    replace (23 - 3 - 5) with 15 by lia.
    rewrite IH by lia. simpl. f_equal.
    assert (Hdiv : (remaining + 14) / 15 = 1 + (remaining - Z.min remaining 15 + 14) / 15).
    { destruct (Z.le_gt_cases remaining 15).
      - rewrite Z.min_l by lia.
        replace (remaining - remaining + 14) with 14 by lia.
        change (14 / 15) with 0.
        assert (remaining + 14 = 1 * 15 + (remaining - 1)) as -> by lia.
        rewrite Z.div_add_l by lia. rewrite Z.div_small by lia. lia.
      - rewrite Z.min_r by lia.
        replace (remaining + 14) with (1 * 15 + (remaining - 15 + 14)) by lia.
        rewrite Z.div_add_l by lia. lia. }
    rewrite Hdiv.
    assert (Hk : 0 <= (remaining - Z.min remaining 15 + 14) / 15)
      by (apply Z.div_pos; lia).
    assert (Hsmall : remaining <= 15 ->
              (remaining - Z.min remaining 15 + 14) / 15 = 0).
    { intros ?. rewrite Z.min_l by lia.
      replace (remaining - remaining + 14) with 14 by lia. reflexivity. }
    clear Hdiv. revert Hk Hsmall.
    generalize ((remaining - Z.min remaining 15 + 14) / 15). intros k Hk Hsmall.
    rewrite (seqZ_cons 0 (1 + k)) by lia. simpl.
    replace (Z.pred (1 + k)) with k by lia.
    change (Z.succ 0) with (1 + 0).
    rewrite <- fmap_add_seqZ.
    f_equal.
    + unfold cont_chunk, flags_of, header_of, mMTU.
      destruct (Z.eqb_spec count 0) as [?|_]; [lia|].
      replace (data_length - remaining + 15 * 0) with (data_length - remaining) by lia.
      replace (data_length - (data_length - remaining)) with remaining by lia.
      replace (count + 0) with count by lia.
      reflexivity.
    + rewrite <- list_fmap_compose. apply list_fmap_ext.
      intros i j Hj. simpl.
      apply lookup_seqZ in Hj as [-> Hi].
      destruct (Z.le_gt_cases remaining 15).
      * exfalso. rewrite Hsmall in Hi by lia. lia.
      * rewrite Z.min_r by lia. f_equal; lia.
Qed.

Lemma write_chunked_value_spec :
  0 <= data_length ->
  write_chunked_value type handle data data_length =
    Some (chunks_spec type handle data data_length).
Proof.
  intros Hnonneg. unfold write_chunked_value, chunks_spec.
  destruct (Z.eqb_spec data_length 0) as [->|Hne]; [reflexivity|].
  destruct (Z.to_nat data_length) as [|fuel] eqn:Hfuel; [lia|].
  simpl. destruct (Z.ltb_spec 0 data_length); [|lia].
  pose proof (chunk_of_eq type handle data data_length data_length 0
                ltac:(lia) data_length_ok) as Hchunk.
  change (header_size_of 0) with 11 in Hchunk.
  cbv zeta in Hchunk. rewrite Hchunk. clear Hchunk. simpl.
  unfold copybytes_of, mMTU. replace (23 - 3 - 11) with 9 by lia.
  rewrite cont_loop by lia. simpl. f_equal. f_equal.
  - unfold first_chunk, flags_of, mMTU. simpl.
    replace (data_length - data_length) with 0 by lia.
    reflexivity.
  - assert (Hn : (data_length - Z.min data_length 9 + 14) / 15
                 = (data_length + 5) / 15).
    { destruct (Z.le_gt_cases data_length 9).
      - rewrite Z.min_l by lia.
        replace (data_length - data_length + 14) with 14 by lia.
        rewrite (Z.div_small (data_length + 5)) by lia. reflexivity.
      - rewrite Z.min_r by lia. f_equal. lia. }
    rewrite Hn. apply list_fmap_ext. intros i j Hj. simpl.
    apply lookup_seqZ in Hj as [-> Hi].
    destruct (Z.le_gt_cases data_length 9).
    + rewrite Z.div_small in Hi by lia. lia.
    + rewrite Z.min_r by lia. f_equal; lia.
Qed.

End Loop.

End ChunkFacts.

Module ChunkStructure.
Import Chunk ChunkSpec ChunkFacts.

Lemma chunks_spec_length type handle data data_length :
  0 < data_length ->
  length (chunks_spec type handle data data_length)
  = S (Z.to_nat ((data_length + 5) / 15)).
Proof.
  intros Hpos. unfold chunks_spec.
  destruct (Z.eqb_spec data_length 0); [lia|].
  simpl. by rewrite length_map, length_seqZ.
Qed.

Lemma chunks_spec_lookup_cont type handle data data_length (j : nat) chunk :
  chunks_spec type handle data data_length !! S j = Some chunk ->
  0 < data_length
  ∧ Z.of_nat j < (data_length + 5) / 15
  ∧ chunk = cont_chunk handle data data_length
              (9 + 15 * Z.of_nat j) (1 + Z.of_nat j).
Proof.
  unfold chunks_spec.
  destruct (Z.eqb_spec data_length 0) as [->|Hne]; [done|].
  simpl. rewrite list_lookup_fmap.
  destruct (seqZ 0 ((data_length + 5) / 15) !! j) as [i|] eqn:Hi; [|done].
  simpl. intros [= <-]. apply lookup_seqZ in Hi as [-> Hj].
  assert (Hpos : 0 < (data_length + 5) / 15 → 0 < data_length).
  { intros Hn. destruct (Z.le_gt_cases data_length 0); [|done].
    exfalso. assert ((data_length + 5) / 15 < 1); [|lia].
    apply Z.div_lt_upper_bound; lia. }
  revert Hj Hpos. generalize ((data_length + 5) / 15). intros N Hj Hpos.
  split; [lia|]. split; [lia|]. f_equal; lia.
Qed.

Lemma cont_chunk_length handle data data_length off count :
  0 <= off -> off < data_length -> data_length <= Z.of_nat (length data) ->
  Z.of_nat (length (cont_chunk handle data data_length off count))
  = 5 + Z.min (data_length - off) 15.
Proof.
  intros. unfold cont_chunk.
  rewrite length_app, length_take, length_drop. simpl. lia.
Qed.

Lemma first_chunk_length type handle data data_length :
  0 <= data_length -> data_length <= Z.of_nat (length data) ->
  Z.of_nat (length (first_chunk type handle data data_length))
  = 11 + Z.min data_length 9.
Proof.
  intros. unfold first_chunk. rewrite length_app, length_take. simpl. lia.
Qed.

Lemma cont_slices handle data data_length (base c0 : Z) (n : nat) : ∀ m,
  0 <= base -> 0 <= m ->
  concat (map (λ j, drop 5 (cont_chunk handle data data_length
                              (base + 15 * j) (c0 + j)))
            (seqZ m (Z.of_nat n)))
  = take (Z.to_nat (Z.min (data_length - (base + 15 * m)) (15 * Z.of_nat n)))
      (drop (Z.to_nat (base + 15 * m)) data).
Proof.
  induction n as [|n IH]; intros m Hbase Hm.
  - simpl. replace (Z.to_nat _) with 0%nat by lia. done.
  - rewrite (seqZ_cons m (Z.of_nat (S n))) by lia.
    replace (Z.pred (Z.of_nat (S n))) with (Z.of_nat n) by lia.
    simpl. rewrite IH by lia.
    set (off := base + 15 * m).
    replace (base + 15 * Z.succ m) with (off + 15) by lia.
    rewrite drop_0.
    destruct (Z.le_gt_cases (data_length - off) 15) as [Hle|Hgt].
    + rewrite (Z.min_l (data_length - off) 15) by lia.
      replace (Z.to_nat (Z.min (data_length - (off + 15)) (15 * Z.of_nat n)))
        with 0%nat by lia.
      rewrite take_0, app_nil_r. f_equal. lia.
    + rewrite (Z.min_r (data_length - off) 15) by lia.
      replace (Z.to_nat (off + 15)) with (Z.to_nat off + 15)%nat by lia.
      rewrite <- drop_drop.
      replace (Z.to_nat (Z.min (data_length - off) (15 * Z.of_nat (S n))))
        with (Z.to_nat 15 + Z.to_nat (Z.min (data_length - (off + 15)) (15 * Z.of_nat n)))%nat
        by lia.
      by rewrite take_take_drop.
Qed.

Lemma chunks_spec_slices type handle data data_length :
  0 <= data_length -> data_length <= Z.of_nat (length data) ->
  payload_slices (chunks_spec type handle data data_length)
  = take (Z.to_nat data_length) data.
Proof.
  intros Hnonneg Hlen. unfold chunks_spec.
  destruct (Z.eqb_spec data_length 0) as [->|Hne]; [done|].
  unfold payload_slices. rewrite <- list_fmap_compose.
  assert (HN : 0 <= (data_length + 5) / 15) by (apply Z.div_pos; lia).
  rewrite <- (Z2Nat.id _ HN).
  rewrite (cont_slices handle data data_length 9 1 _ 0) by lia.
  rewrite (Z2Nat.id _ HN).
  unfold first_chunk. simpl drop at 1.
  replace (9 + 15 * 0) with 9 by lia.
  destruct (Z.le_gt_cases data_length 9) as [Hle|Hgt].
  - rewrite Z.min_l by lia.
    replace (Z.to_nat (Z.min (data_length - 9) _)) with 0%nat by lia.
    by rewrite drop_0, take_0, app_nil_r.
  - rewrite (Z.min_r data_length 9) by lia.
    assert (data_length - 9 <= 15 * ((data_length + 5) / 15)).
    { pose proof (Z.mod_pos_bound (data_length + 5) 15 ltac:(lia)).
      pose proof (Z.div_mod (data_length + 5) 15 ltac:(lia)). lia. }
    rewrite Z.min_l by lia.
    rewrite drop_0, take_take_drop. f_equal. lia.
Qed.

End ChunkStructure.

(** ** The reassembly bookkeeping *)

Section ReassemblyFacts.

Variable ECC_PUB_KEY_SIZE : nat.
Variable ecdh_shared_secret : list Z -> list Z -> list Z -> Z * list Z.
Variable AES_cbc_encrypt : list Z -> list Z -> list Z -> list Z.
Variable notification_start_ret : string -> Z.

Local Abbreviation reassemble := (Band.reassemble notification_start_ret).
Local Abbreviation second_auth_part :=
  (Band.second_auth_part ECC_PUB_KEY_SIZE ecdh_shared_secret AES_cbc_encrypt).
Local Abbreviation chunked_transfer :=
  (Band.chunked_transfer ECC_PUB_KEY_SIZE ecdh_shared_secret AES_cbc_encrypt
     notification_start_ret).

(** A continuation frame: only [value[4]] is looked at. *)
Lemma reassemble_continuation now d value seq :
  read value 4 = Some seq -> 0 < seq ->
  reassemble now d value =
    Some (set_reassembly d seq
            (u8 (pointer d + u8 (Z.of_nat (length value) - 5)))
            (expectedBytes d),
          5,
          if negb (seq =? lastSequenceNumber d + 1)
          then [Printf "Unexpected sequence number"] else []).
Proof.
  intros Hseq Hpos. unfold Band.reassemble. rewrite Hseq. simpl.
  destruct (Z.eqb_spec seq 0) as [?|_]; [lia|]. simpl.
  destruct (Z.ltb_spec 0 seq) as [_|?]; [|lia]. reflexivity.
Qed.

(** A first frame that carries the key-exchange signature. *)
Lemma reassemble_first now d value v5 :
  read value 4 = Some 0 -> signature_is value 0x04 = Some true ->
  read value 5 = Some v5 ->
  reassemble now d value =
    Some (set_reassembly d 0
            (u8 (0 + u8 (Z.of_nat (length value) - 14)))
            (u8 (v5 - 3)),
          14, [Printf "1st authentication part completed"]).
Proof.
  intros Hseq Hsig H5. unfold Band.reassemble. rewrite Hseq. simpl.
  rewrite Hsig. simpl. rewrite H5. reflexivity.
Qed.

Lemma chunked_transfer_eq now d value d' hs ev :
  (1 < length value)%nat -> read value 0 = Some 0x03 ->
  reassemble now d value = Some (d', hs, ev) ->
  chunked_transfer now d value =
    if pointer d' =? expectedBytes d' then
      match second_auth_part d' value hs with
      | Some (d'', ev2) => Some (d'', ev ++ ev2)
      | None => None
      end
    else Some (d', ev).
Proof.
  intros Hlen H0 Hre. unfold Band.chunked_transfer.
  destruct (Z.ltb_spec 1 (Z.of_nat (length value))) as [_|?]; [|lia].
  rewrite H0. simpl. rewrite Hre. simpl.
  destruct (pointer d' =? expectedBytes d'); [|done].
  destruct (second_auth_part d' value hs) as [[d'' ev2]|]; done.
Qed.

Lemma second_auth_part_keeps_counters d value hs d' ev :
  second_auth_part d value hs = Some (d', ev) ->
  lastSequenceNumber d' = lastSequenceNumber d
  ∧ pointer d' = pointer d
  ∧ expectedBytes d' = expectedBytes d
  ∧ handle d' = handle d.
Proof.
  unfold Band.second_auth_part. intros H.
  destruct (read_bytes value (hs + 16) ECC_PUB_KEY_SIZE) as [pub|]; [|done].
  simpl in H.
  destruct (ecdh_shared_secret (privateKey d) pub (secretKey d)) as [ret secret].
  repeat (match type of H with
          | (mbind _ ?x = Some _) => destruct x; simpl in H; [|done]
          | (match ?x with _ => _ end = Some _) => destruct x; simpl in H; [|done]
          end).
  by injection H as <- _.
Qed.

End ReassemblyFacts.

(** ** Encoding: theorems *)

Module ChunkTheorems.
Import Chunk ChunkSpec ChunkFacts ChunkStructure.

(** Flag byte of chunk [k] of the closed form: bit 0 exactly on chunk 0,
    bits 1 and 2 exactly on the last chunk. *)
Lemma chunks_spec_flags type handle data data_length (k : nat) chunk :
  0 < data_length -> data_length <= Z.of_nat (length data) ->
  chunks_spec type handle data data_length !! k = Some chunk ->
  ∃ flags, chunk !! 1%nat = Some flags
    ∧ Z.testbit flags 0 = bool_decide (k = 0%nat)
    ∧ Z.land flags 0x06 =
        (if bool_decide
              (S k = length (chunks_spec type handle data data_length))
         then 0x06 else 0).
Proof.
  intros Hpos Hlen Hk.
  rewrite chunks_spec_length by done.
  pose proof (Z.div_mod (data_length + 5) 15 ltac:(lia)) as Hdm.
  pose proof (Z.mod_pos_bound (data_length + 5) 15 ltac:(lia)) as Hmod.
  assert (HN : 0 <= (data_length + 5) / 15) by (apply Z.div_pos; lia).
  destruct k as [|j].
  - unfold chunks_spec in Hk.
    destruct (Z.eqb_spec data_length 0); [lia|].
    simpl in Hk. injection Hk as <-.
    exists (Z.lor 1 (if data_length <=? 9 then 6 else 0)).
    split; [done|]. split.
    + by destruct (data_length <=? 9).
    + revert Hdm Hmod HN. generalize ((data_length + 5) / 15).
      generalize ((data_length + 5) mod 15). intros r N Hdm Hmod HN.
      destruct (Z.leb_spec data_length 9); case_bool_decide; try done; lia.
  - apply chunks_spec_lookup_cont in Hk as (_ & Hj & ->).
    exists (if data_length - (9 + 15 * Z.of_nat j) <=? 15 then 6 else 0).
    split; [done|]. split.
    + by destruct (data_length - (9 + 15 * Z.of_nat j) <=? 15).
    + revert Hdm Hmod HN Hj. generalize ((data_length + 5) / 15).
      generalize ((data_length + 5) mod 15). intros r N Hdm Hmod HN Hj.
      destruct (Z.leb_spec (data_length - (9 + 15 * Z.of_nat j)) 15);
        case_bool_decide; try done; lia.
Qed.

(** C5, as the code has it: [write_chunked_value] returns for every buffer
    and every length within it; for a zero-length payload the loop body is
    never entered and no chunk at all is written; a payload of 1 to 9 bytes
    is written as exactly one chunk, with the 11-byte header and flag byte
    7 (first and last). *)
Theorem C5_encode_total_and_empty type handle data data_length :
  0 <= data_length -> data_length <= Z.of_nat (length data) ->
  ∃ chunks,
    write_chunked_value type handle data data_length = Some chunks
    ∧ (data_length = 0 -> chunks = [])
    ∧ (0 < data_length -> chunks ≠ [])
    ∧ (0 < data_length <= 9 ->
       chunks = [ first_header type handle data_length 0x07
                  ++ take (Z.to_nat data_length) data ]).
Proof.
  intros Hnonneg Hlen.
  exists (chunks_spec type handle data data_length).
  split; [by apply write_chunked_value_spec|].
  unfold chunks_spec.
  destruct (Z.eqb_spec data_length 0) as [->|Hne].
  - split; [done|]. split; intros; lia.
  - split; [lia|]. split; [done|]. intros Hsmall.
    rewrite (Z.div_small (data_length + 5)) by lia. simpl.
    unfold first_chunk.
    destruct (Z.leb_spec data_length 9); [|lia].
    rewrite Z.min_l by lia. reflexivity.
Qed.

Lemma C5_encode_total_and_empty_witness :
  ∃ chunks,
    write_chunked_value 0x82 1 [0x10; 0x04; 0x01] 3 = Some chunks
    ∧ (3 = 0 -> chunks = [])
    ∧ (0 < 3 -> chunks ≠ [])
    ∧ (0 < 3 <= 9 ->
       chunks = [ first_header 0x82 1 3 0x07
                  ++ take (Z.to_nat 3) [0x10; 0x04; 0x01] ]).
Proof.
  apply (C5_encode_total_and_empty 0x82 1 [0x10; 0x04; 0x01] 3); simpl; lia.
Defined.

(** C5 as stated fails: for the zero-length payload there is no chunk whose
    single write could be the one frame. *)
Lemma C5_empty_payload_writes_nothing :
  ¬ ∃ chunk, write_chunked_value 0x82 0 [] 0 = Some [chunk].
Proof. intros [chunk H]. vm_compute in H. discriminate. Qed.

(** C6: with [max_frame_payload = mMTU - 3 - 11 = 9], a payload of exactly 9
    bytes is written as one chunk with flag byte 7 (bit 0 and bits 1-2 set);
    a payload of 10 bytes as two chunks, chunk 0 with flag byte 1 and nine
    payload bytes, chunk 1 with flag byte 6, the 5-byte header and the last
    byte; in every run bit 0 is set on chunk 0 only and bits 1-2 on the last
    chunk only; every later chunk starts with the 5-byte header (marker,
    flags, 0, handle, index) and carries at most 9 + 6 = 15 payload bytes,
    and 15 are carried when the payload has 24 bytes. *)
Theorem C6_header_sizing type handle data :
  let max_frame_payload := mMTU - 3 - 11 in
  (length data = Z.to_nat max_frame_payload ->
   write_chunked_value type handle data max_frame_payload
   = Some [ first_header type handle max_frame_payload 0x07 ++ data ])
  ∧ (length data = Z.to_nat (max_frame_payload + 1) ->
     write_chunked_value type handle data (max_frame_payload + 1)
     = Some [ first_header type handle (max_frame_payload + 1) 0x01
                ++ take 9 data;
              short_header handle 0x06 1 ++ drop 9 data ])
  ∧ (length data = Z.to_nat (max_frame_payload + 15) ->
     write_chunked_value type handle data (max_frame_payload + 15)
     = Some [ first_header type handle (max_frame_payload + 15) 0x01
                ++ take 9 data;
              short_header handle 0x06 1 ++ drop 9 data ])
  ∧ (∀ data_length chunks (k : nat) chunk,
       0 < data_length -> data_length <= Z.of_nat (length data) ->
       write_chunked_value type handle data data_length = Some chunks ->
       chunks !! k = Some chunk ->
       ∃ flags, chunk !! 1%nat = Some flags
         ∧ Z.testbit flags 0 = bool_decide (k = 0%nat)
         ∧ Z.land flags 0x06
           = (if bool_decide (S k = length chunks) then 0x06 else 0)
         ∧ (k ≠ 0%nat ->
            take 5 chunk = short_header handle flags (Z.of_nat k)
            ∧ Z.of_nat (length (drop 5 chunk)) <= max_frame_payload + 6)).
Proof.
  intros max_frame_payload. unfold max_frame_payload, mMTU.
  replace (23 - 3 - 11) with 9 by lia.
  split; [|split; [|split]].
  - intros Hlen. rewrite write_chunked_value_spec by lia.
    do 9 (destruct data as [|? data]; [done|]).
    destruct data; [|done]. reflexivity.
  - intros Hlen. rewrite write_chunked_value_spec by lia.
    do 10 (destruct data as [|? data]; [done|]).
    destruct data; [|done]. reflexivity.
  - intros Hlen. rewrite write_chunked_value_spec by lia.
    do 24 (destruct data as [|? data]; [done|]).
    destruct data; [|done]. reflexivity.
  - intros data_length chunks k chunk Hpos Hlen Hw Hk.
    rewrite write_chunked_value_spec in Hw by lia. injection Hw as <-.
    destruct (chunks_spec_flags _ _ _ _ _ _ Hpos Hlen Hk)
      as (flags & Hf & Hbit0 & Hlast).
    exists flags. split; [done|]. split; [done|]. split; [done|].
    intros Hne. destruct k as [|j]; [done|].
    apply chunks_spec_lookup_cont in Hk as (_ & Hj & ->).
    unfold cont_chunk in *. simpl in Hf. injection Hf as <-.
    split.
    + simpl. rewrite take_0. unfold short_header.
      replace (1 + Z.of_nat j) with (Z.of_nat (S j)) by lia. done.
    + simpl. rewrite drop_0, length_take. lia.
Qed.

Lemma C6_header_sizing_witness :
  write_chunked_value 0x82 0 [1; 2; 3; 4; 5; 6; 7; 8; 9] 9
  = Some [ first_header 0x82 0 9 0x07 ++ [1; 2; 3; 4; 5; 6; 7; 8; 9] ]
  ∧ write_chunked_value 0x82 0 [1; 2; 3; 4; 5; 6; 7; 8; 9; 10] 10
    = Some [ first_header 0x82 0 10 0x01 ++ [1; 2; 3; 4; 5; 6; 7; 8; 9];
             short_header 0 0x06 1 ++ [10] ]
  ∧ ∃ flags,
      [3; 6; 0; 0; 1; 10] !! 1%nat = Some flags
      ∧ Z.testbit flags 0 = false
      ∧ Z.land flags 0x06 = 0x06
      ∧ (1%nat ≠ 0%nat ->
         take 5 [3; 6; 0; 0; 1; 10] = short_header 0 flags 1
         ∧ Z.of_nat (length (drop 5 [3; 6; 0; 0; 1; 10])) <= 15).
Proof.
  split; [|split].
  - apply (C6_header_sizing 0x82 0 [1; 2; 3; 4; 5; 6; 7; 8; 9]). reflexivity.
  - apply (C6_header_sizing 0x82 0 [1; 2; 3; 4; 5; 6; 7; 8; 9; 10]).
    reflexivity.
  - destruct (C6_header_sizing 0x82 0 [1; 2; 3; 4; 5; 6; 7; 8; 9; 10])
      as (_ & _ & _ & Hall).
    apply (Hall 10
             [ [3; 1; 0; 0; 0; 10; 0; 0; 0; 130; 0; 1; 2; 3; 4; 5; 6; 7; 8; 9];
               [3; 6; 0; 0; 1; 10] ] 1%nat);
      [lia | simpl; lia | reflexivity | reflexivity].
Defined.

End ChunkTheorems.

(** ** The answer to the key-exchange message *)

Ltac bind_step := cbn beta iota zeta delta [mbind option_bind].

Module Handshake.
Import Chunk ChunkSpec ChunkFacts ChunkStructure.

(** What the [for] loop leaves in [finalSharedSessionAES]. *)
Lemma session_key_loop_xor (secret auth : list Z) :
  (24 <= length secret)%nat -> (16 <= length auth)%nat ->
  session_key_loop 16 0 secret auth (replicate 16 0)
  = Some (zip_with Z.lxor (take 16 (drop 8 secret)) (take 16 auth)).
Proof.
  intros Hs Ha.
  do 24 (destruct secret as [|? secret]; [simpl in Hs; lia|]).
  do 16 (destruct auth as [|? auth]; [simpl in Ha; lia|]).
  reflexivity.
Qed.

(** What the two [memcpy] calls leave in [command]. *)
Lemma command_layout (o1 o2 : list Z) :
  length o1 = 16%nat -> length o2 = 16%nat ->
  memcpy 17 o2 (memcpy 1 o1 (store 0 0x05 (replicate 33 0)))
  = 0x05 :: o1 ++ o2.
Proof.
  intros H1 H2.
  change (memcpy 17 o2 (memcpy (length [5]) o1 ([5] ++ replicate 32 0))
          = 5 :: o1 ++ o2).
  rewrite (memcpy_app o1 [5] (replicate 32 0))
    by (rewrite length_replicate; lia).
  rewrite H1. change (drop 16 (replicate 32 0)) with (replicate 16 0).
  pose proof (memcpy_fill o2 ([5] ++ o1)) as Hfill.
  rewrite length_app, H1, H2, <- app_assoc in Hfill.
  exact Hfill.
Qed.

Lemma chunks_spec_handle type handle data data_length chunk :
  chunk ∈ chunks_spec type handle data data_length ->
  chunk !! 3%nat = Some handle.
Proof.
  unfold chunks_spec. destruct (data_length =? 0); [by intros ?%elem_of_nil|].
  intros [->|Hin]%elem_of_cons; [done|].
  apply list_elem_of_fmap in Hin as (j & -> & _). done.
Qed.

Section WithPrimitives.

Variable ECC_PUB_KEY_SIZE : nat.
Variable ecdh_shared_secret : list Z -> list Z -> list Z -> Z * list Z.
Variable AES_cbc_encrypt : list Z -> list Z -> list Z -> list Z.

(** The cipher writes as many bytes as it reads. *)
Hypothesis AES_cbc_encrypt_length : ∀ key iv input,
  length (AES_cbc_encrypt key iv input) = length input.

Local Abbreviation second_auth_part :=
  (Band.second_auth_part ECC_PUB_KEY_SIZE ecdh_shared_secret AES_cbc_encrypt).

Local Abbreviation challenge := (challenge AES_cbc_encrypt).

Lemma challenge_length auth secret nonce :
  length nonce = 16%nat -> length (challenge auth secret nonce) = 33%nat.
Proof.
  intros Hn. unfold ChunkSpec.challenge. simpl.
  rewrite length_app, !AES_cbc_encrypt_length, Hn. done.
Qed.

Lemma second_auth_part_eq d value hs nonce others_pub ret secret :
  length (authKey d) = 16%nat ->
  read_bytes value hs 16 = Some nonce ->
  read_bytes value (hs + 16) ECC_PUB_KEY_SIZE = Some others_pub ->
  ecdh_shared_secret (privateKey d) others_pub (secretKey d) = (ret, secret) ->
  (24 <= length secret)%nat ->
  second_auth_part d value hs =
    Some (set_secretKey d secret,
          (if ret =? 1 then [] else [Printf "Error in key"])
          ++ [Printf "Sending 2nd Auth Part"]
          ++ map (gattlib_write_char_by_uuid CHARACTERISTIC_CHUNKED_TRANSFER_WRITE)
               (chunks_spec 0x82 (u8 (handle d + 1))
                  (challenge (authKey d) secret nonce) 33)).
Proof.
  intros Hauth Hnonce Hpub Hecdh Hsecret.
  pose proof (read_bytes_length _ _ _ _ Hnonce) as Hn.
  assert (Hkey : length (session_key (authKey d) secret) = 16%nat).
  { unfold session_key.
    rewrite length_zip_with, !length_take, length_drop. lia. }
  unfold session_key in Hkey.
  unfold Band.second_auth_part. rewrite Hpub. bind_step.
  rewrite Hecdh. bind_step.
  cbn [authKey secretKey handle set_secretKey].
  rewrite session_key_loop_xor by (simpl; lia). bind_step.
  rewrite (take_ge (authKey d)) by lia.
  unfold Band.encrypt_aes_cbc.
  rewrite (read_bytes_Some (authKey d) 0 16) by (simpl; lia). bind_step.
  rewrite Hnonce. bind_step.
  rewrite (read_bytes_Some (zip_with _ _ _) 0 16) by (simpl; lia). bind_step.
  rewrite !(read_bytes_Some (AES_cbc_encrypt _ _ _) 0 16)
    by (rewrite ?AES_cbc_encrypt_length; simpl; lia).
  bind_step. change (Z.to_nat 0) with 0%nat. rewrite !drop_0.
  rewrite !(take_ge (AES_cbc_encrypt _ _ _))
    by (rewrite AES_cbc_encrypt_length; lia).
  rewrite (take_ge (authKey d)) by lia.
  rewrite (take_ge (zip_with _ _ _)) by lia.
  rewrite command_layout by (rewrite AES_cbc_encrypt_length; lia).
  unfold Band.write_chunked.
  change (5 :: AES_cbc_encrypt (authKey d) _ nonce ++ _)
    with (challenge (authKey d) secret nonce).
  pose proof (challenge_length (authKey d) secret nonce Hn) as Hc.
  rewrite write_chunked_value_spec by lia. done.
Qed.

End WithPrimitives.

End Handshake.

(** ** The handle byte of what is written *)

Module HandleByte.
Import Chunk.

Lemma memcpy_lookup_lt (src : list Z) : ∀ (off : nat) (dst : list Z) (i : nat),
  (i < off)%nat -> memcpy off src dst !! i = dst !! i.
Proof.
  induction src as [|b src IH]; intros off dst i Hi; simpl; [done|].
  rewrite IH by lia. apply list_lookup_insert_ne. lia.
Qed.

Lemma store_length i v buf : length (store i v buf) = length buf.
Proof. apply length_insert. Qed.

Lemma chunk_of_handle type handle data data_length remaining count hs chunk c :
  0 < remaining -> 5 <= hs <= 11 ->
  chunk_of type handle data data_length remaining count hs = Some (chunk, c) ->
  chunk !! 3%nat = Some handle.
Proof.
  intros Hrem Hhs. unfold chunk_of.
  set (copybytes := if remaining <? mMTU - 3 - hs then remaining
                    else mMTU - 3 - hs).
  assert (Hc : 0 < copybytes).
  { unfold copybytes, mMTU. destruct (remaining <? 23 - 3 - hs); lia. }
  set (blank := replicate (Z.to_nat (copybytes + hs)) 0).
  assert (Hblank : (5 < length blank)%nat).
  { unfold blank. rewrite length_replicate. lia. }
  destruct (count =? 0);
    (destruct (read_bytes data (data_length - remaining) (Z.to_nat copybytes))
       as [slice|]; [|done]);
    bind_step; intros [= <- _];
    (rewrite memcpy_lookup_lt by lia; unfold store at 1;
     rewrite list_lookup_insert_ne by (simpl; lia);
     apply list_lookup_insert_eq;
     rewrite !store_length; lia).
Qed.

Lemma write_loop_handle type handle data data_length (fuel : nat) :
  ∀ remaining count hs chunks,
  5 <= hs <= 11 ->
  write_loop fuel type handle data data_length remaining count hs
  = Some chunks ->
  Forall (λ chunk, chunk !! 3%nat = Some handle) chunks.
Proof.
  induction fuel as [|fuel IH]; intros remaining count hs chunks Hhs; simpl.
  - destruct (0 <? remaining); [done|]. intros [= <-]. constructor.
  - destruct (Z.ltb_spec 0 remaining); [|intros [= <-]; constructor].
    destruct (chunk_of type handle data data_length remaining count hs)
      as [[chunk c]|] eqn:Hchunk; [|done].
    bind_step.
    destruct (write_loop fuel type handle data data_length (remaining - c)
                (count + 1) 5) as [rest|] eqn:Hrest; [|done].
    bind_step. intros [= <-]. constructor.
    + by eapply chunk_of_handle.
    + eapply IH; [|done]. lia.
Qed.

Lemma write_chunked_handle uuid type handle data data_length ev e :
  Band.write_chunked uuid type handle data data_length = Some ev ->
  e ∈ ev ->
  ∃ buffer, e = gattlib_write_char_by_uuid uuid buffer
            ∧ buffer !! 3%nat = Some handle.
Proof.
  unfold Band.write_chunked, write_chunked_value.
  destruct (write_loop _ _ _ _ _ _ _ _) as [chunks|] eqn:Hloop; [|done].
  intros [= <-] Hin. apply list_elem_of_fmap in Hin as (buffer & -> & Hin).
  exists buffer. split; [done|].
  apply write_loop_handle in Hloop; [|lia].
  by eapply Forall_forall in Hloop.
Qed.


End HandleByte.

(** ** Handshake: theorems *)

Module HandshakeTheorems.
Import Chunk ChunkSpec ChunkFacts ChunkStructure Handshake HandleByte.




(** C4 on the code: when [ecdh_shared_secret] returns something other than 1
    the branch prints "Error in key" and carries on; the session key is
    derived from whatever the call left in [secretKey], and the challenge
    built from it is written out (three chunks). *)
Theorem C4_failed_key_agreement_still_answers
    (ECC_PUB_KEY_SIZE : nat)
    (ecdh_shared_secret : list Z -> list Z -> list Z -> Z * list Z)
    (AES_cbc_encrypt : list Z -> list Z -> list Z -> list Z)
    (d : BLEDevice) (value : list Z) (header_size : Z)
    (nonce others_pub secret : list Z) (ret : Z) :
  (∀ key iv input, length (AES_cbc_encrypt key iv input) = length input) ->
  length (authKey d) = 16%nat ->
  read_bytes value header_size 16 = Some nonce ->
  read_bytes value (header_size + 16) ECC_PUB_KEY_SIZE = Some others_pub ->
  ecdh_shared_secret (privateKey d) others_pub (secretKey d) = (ret, secret) ->
  (24 <= length secret)%nat ->
  ret ≠ 1 ->
  ∃ c0 c1 c2,
    Band.second_auth_part ECC_PUB_KEY_SIZE ecdh_shared_secret
      AES_cbc_encrypt d value header_size
    = Some (set_secretKey d secret,
            [ Printf "Error in key"; Printf "Sending 2nd Auth Part";
              gattlib_write_char_by_uuid CHARACTERISTIC_CHUNKED_TRANSFER_WRITE c0;
              gattlib_write_char_by_uuid CHARACTERISTIC_CHUNKED_TRANSFER_WRITE c1;
              gattlib_write_char_by_uuid CHARACTERISTIC_CHUNKED_TRANSFER_WRITE c2 ])
    ∧ payload_slices [c0; c1; c2]
      = challenge AES_cbc_encrypt (authKey d) secret nonce.
Proof.
  intros Haes Hauth Hnonce Hpub Hecdh Hsecret Hret.
  pose proof (read_bytes_length _ _ _ _ Hnonce) as Hn.
  pose proof (challenge_length _ Haes (authKey d) secret nonce Hn) as Hc.
  rewrite (second_auth_part_eq _ _ _ Haes _ _ _ _ _ _ _
             Hauth Hnonce Hpub Hecdh Hsecret).
  destruct (Z.eqb_spec ret 1) as [?|_]; [done|].
  assert (Hslices :
    payload_slices (chunks_spec 0x82 (u8 (handle d + 1))
                      (challenge AES_cbc_encrypt (authKey d) secret nonce) 33)
    = challenge AES_cbc_encrypt (authKey d) secret nonce).
  { rewrite chunks_spec_slices by lia. apply take_ge. rewrite Hc. lia. }
  revert Hslices. unfold chunks_spec.
  change (33 =? 0) with false. change ((33 + 5) / 15) with 2.
  cbn [seqZ Z.to_nat Pos.to_nat Pos.iter_op seq fmap list_fmap map Nat.add].
  intros Hslices. eexists _, _, _. split; [reflexivity|exact Hslices].
Qed.

Lemma C4_failed_key_agreement_still_answers_witness :
  ∃ c0 c1 c2,
    Band.second_auth_part 48 Sample.ecdh_fail Sample.xor_cipher
      Sample.device Sample.key_exchange_frame 14
    = Some (set_secretKey Sample.device (replicate 48 7),
            [ Printf "Error in key"; Printf "Sending 2nd Auth Part";
              gattlib_write_char_by_uuid CHARACTERISTIC_CHUNKED_TRANSFER_WRITE c0;
              gattlib_write_char_by_uuid CHARACTERISTIC_CHUNKED_TRANSFER_WRITE c1;
              gattlib_write_char_by_uuid CHARACTERISTIC_CHUNKED_TRANSFER_WRITE c2 ])
    ∧ payload_slices [c0; c1; c2]
      = challenge Sample.xor_cipher (Sample.bytes_from 100 16)
          (replicate 48 7) (Sample.bytes_from 0 16).
Proof.
  apply (C4_failed_key_agreement_still_answers 48 Sample.ecdh_fail
           Sample.xor_cipher Sample.device Sample.key_exchange_frame 14
           (Sample.bytes_from 0 16) (Sample.bytes_from 50 48)
           (replicate 48 7) 0).
  - intros key iv input. unfold Sample.xor_cipher. apply length_map.
  - reflexivity.
  - reflexivity.
  - reflexivity.
  - reflexivity.
  - simpl. lia.
  - lia.
Defined.

End HandshakeTheorems.

(** ** Reassembly: theorems *)

Module ReassemblyTheorems.
Import Chunk ChunkSpec ChunkFacts ChunkStructure Handshake.

(** C7 on the code: a continuation frame whose number is not the last
    accepted number plus one is reported ("Unexpected sequence number") and
    counted like a frame in sequence.  But the bytes of the frames before it
    were only counted, not kept: when such a frame brings the count to
    [expectedBytes] after earlier frames have carried part of a message of
    nonce and public key, the nonce and the key are read behind the header
    of this frame alone, and the read runs past its end. *)
Theorem C7_gap_frame_is_counted_not_kept
    (ECC_PUB_KEY_SIZE : nat)
    (ecdh_shared_secret : list Z -> list Z -> list Z -> Z * list Z)
    (AES_cbc_encrypt : list Z -> list Z -> list Z -> list Z)
    (notification_start_ret : string -> Z)
    (now : Z) (d : BLEDevice) (value : list Z) (seq : Z) :
  read value 0 = Some 0x03 ->
  read value 4 = Some seq ->
  0 < seq ->
  seq ≠ lastSequenceNumber d + 1 ->
  0 < pointer d ->
  pointer d + (Z.of_nat (length value) - 5) = expectedBytes d ->
  expectedBytes d <= 16 + Z.of_nat ECC_PUB_KEY_SIZE ->
  expectedBytes d < 256 ->
  let d' := set_reassembly d seq (expectedBytes d) (expectedBytes d) in
  Band.reassemble notification_start_ret now d value
  = Some (d', 5, [Printf "Unexpected sequence number"])
  ∧ Band.reassemble notification_start_ret now
      (set_reassembly d (seq - 1) (pointer d) (expectedBytes d)) value
    = Some (d', 5, [])
  ∧ pointer d' = expectedBytes d'
  ∧ read_bytes value (5 + 16) ECC_PUB_KEY_SIZE = None
  ∧ Band.chunked_transfer ECC_PUB_KEY_SIZE ecdh_shared_secret AES_cbc_encrypt
      notification_start_ret now d value
    = None.
Proof.
  intros H0 Hseq Hpos Hgap Hsome Hdone Hbody Hbyte d'.
  assert (Hlen : (4 < length value)%nat).
  { unfold read in Hseq. simpl in Hseq.
    apply lookup_lt_Some in Hseq. lia. }
  assert (Hcount : u8 (pointer d + u8 (Z.of_nat (length value) - 5))
                   = expectedBytes d).
  { unfold u8. rewrite Zplus_mod_idemp_r, Hdone.
    apply Z.mod_small. lia. }
  assert (Hre : Band.reassemble notification_start_ret now d value
                = Some (d', 5, [Printf "Unexpected sequence number"])).
  { rewrite (reassemble_continuation _ _ _ _ seq) by done.
    rewrite Hcount.
    destruct (Z.eqb_spec seq (lastSequenceNumber d + 1)); done. }
  assert (Hread : read_bytes value (5 + 16) ECC_PUB_KEY_SIZE = None)
    by (apply read_bytes_None; lia).
  split; [done|]. split.
  { rewrite (reassemble_continuation _ _ _ _ seq) by done.
    cbn [lastSequenceNumber pointer expectedBytes set_reassembly].
    rewrite Hcount.
    destruct (Z.eqb_spec seq (seq - 1 + 1)) as [_|?]; [done|lia]. }
  split; [done|]. split; [done|].
  assert (Hl1 : (1 < length value)%nat) by lia.
  rewrite (chunked_transfer_eq _ _ _ _ _ _ _ _ _ _ Hl1 H0 Hre).
  cbn [pointer expectedBytes set_reassembly]. rewrite Z.eqb_refl.
  unfold Band.second_auth_part. rewrite Hread. done.
Qed.

Lemma C7_gap_frame_is_counted_not_kept_witness :
  Band.chunked_transfer 48 Sample.ecdh_copy Sample.xor_cipher (λ _, 0) 0
    Sample.device Sample.split_frame_1
  = Some (set_reassembly Sample.device 0 13 32,
          [Printf "1st authentication part completed"])
  ∧ Band.reassemble (λ _, 0) 0 (set_reassembly Sample.device 0 13 32)
      Sample.split_gap_frame
    = Some (set_reassembly Sample.device 2 32 32, 5,
            [Printf "Unexpected sequence number"])
  ∧ Band.chunked_transfer 48 Sample.ecdh_copy Sample.xor_cipher (λ _, 0) 0
      (set_reassembly Sample.device 0 13 32) Sample.split_gap_frame
    = None.
Proof.
  split; [reflexivity|].
  destruct (C7_gap_frame_is_counted_not_kept 48 Sample.ecdh_copy
              Sample.xor_cipher (λ _, 0) 0
              (set_reassembly Sample.device 0 13 32) Sample.split_gap_frame 2)
    as (Hre & _ & _ & _ & Hrun).
  - reflexivity.
  - reflexivity.
  - lia.
  - simpl. lia.
  - simpl. lia.
  - reflexivity.
  - simpl. lia.
  - simpl. lia.
  - split; [exact Hre|exact Hrun].
Defined.

(** C8 as stated fails: after the frame that completes the key-exchange
    message the two byte counters still hold 64, not the zeros of a fresh
    device. *)
Lemma C8_counters_survive_completion :
  ∃ d' ev,
    Band.chunked_transfer 48 Sample.ecdh_copy Sample.xor_cipher (λ _, 0) 0
      Sample.device Sample.key_exchange_frame = Some (d', ev)
    ∧ Printf "Sending 2nd Auth Part" ∈ ev
    ∧ pointer d' = 64 ∧ expectedBytes d' = 64
    ∧ ¬ (pointer d' = pointer Sample.device
         ∧ expectedBytes d' = expectedBytes Sample.device).
Proof.
  eexists _, _. split; [vm_compute; reflexivity|].
  split; [apply list_elem_of_In; vm_compute; tauto|].
  split; [reflexivity|]. split; [reflexivity|].
  vm_compute. intros [[=] _].
Qed.

End ReassemblyTheorems.

(** ** Eight-bit bookkeeping *)

Module EightBit.
Import ChunkSpec.

Lemma land_255 (n : Z) : Z.land n 0xff = n mod 256.
Proof. exact (Z.land_ones n 8 ltac:(lia)). Qed.

Lemma u8_range (z : Z) : 0 <= u8 z < 256.
Proof. unfold u8. apply Z.mod_pos_bound. lia. Qed.

Lemma u8_u8_add (a b : Z) : u8 (a + u8 b) = u8 (a + b).
Proof. unfold u8. by rewrite Zplus_mod_idemp_r. Qed.

(** What the bookkeeping leaves in the three fields. *)
Lemma reassemble_counters (notification_start_ret : string -> Z)
    now d value d' hs ev :
  Band.reassemble notification_start_ret now d value = Some (d', hs, ev) ->
  (hs = 14 ∨ hs = 5 ∨ hs = 0)
  ∧ read value 4 = Some (lastSequenceNumber d')
  ∧ pointer d'
    = ((if hs =? 14 then 0 else pointer d)
       + (Z.of_nat (length value) - hs)) mod 256
  ∧ (hs ≠ 14 -> expectedBytes d' = expectedBytes d)
  ∧ (hs = 14 ->
     ∃ v5, read value 5 = Some v5 ∧ expectedBytes d' = (v5 - 3) mod 256).
Proof.
  unfold Band.reassemble.
  destruct (read value 4) as [seq|]; [|done]. bind_step.
  destruct (and_then (Some (seq =? 0)) (signature_is value 4))
    as [[|]|]; [| |done]; bind_step.
  - destruct (read value 5) as [v5|]; [|done]. bind_step.
    intros [= <- <- _].
    cbn [lastSequenceNumber pointer expectedBytes set_reassembly].
    split; [tauto|]. split; [done|]. split; [apply u8_u8_add|].
    split; [done|]. intros _. by exists v5.
  - destruct (0 <? seq).
    + bind_step. intros [= <- <- _].
      cbn [lastSequenceNumber pointer expectedBytes set_reassembly].
      split; [tauto|]. split; [done|]. split; [apply u8_u8_add|].
      split; [done|]. intros [=].
    + destruct (signature_is value 5) as [[|]|]; [| |done]; bind_step;
        intros [= <- <- _];
        cbn [lastSequenceNumber pointer expectedBytes set_reassembly
             set_initial_timestamp Band.start_hr_measure fst];
        (split; [tauto|]); (split; [done|]);
        (split; [apply u8_u8_add|]); (split; [done|]); intros [=].
Qed.

Section WithPrimitives.

Variable ECC_PUB_KEY_SIZE : nat.
Variable ecdh_shared_secret : list Z -> list Z -> list Z -> Z * list Z.
Variable AES_cbc_encrypt : list Z -> list Z -> list Z -> list Z.
Variable notification_start_ret : string -> Z.

(** Two first frames that differ in the upper three bytes of
    [total_length] only go the same way. *)
Lemma first_frame_upper_bytes now d flags reserved handle b5 b6 b7 b8
    c6 c7 c8 body :
  Band.chunked_transfer ECC_PUB_KEY_SIZE ecdh_shared_secret AES_cbc_encrypt
    notification_start_ret now d
    ([0x03; flags; reserved; handle; 0] ++ [b5; b6; b7; b8]
     ++ [0x82; 0x00; 0x10; 0x04; 0x01] ++ body)
  = Band.chunked_transfer ECC_PUB_KEY_SIZE ecdh_shared_secret AES_cbc_encrypt
      notification_start_ret now d
      ([0x03; flags; reserved; handle; 0] ++ [b5; c6; c7; c8]
       ++ [0x82; 0x00; 0x10; 0x04; 0x01] ++ body).
Proof.
  unfold Band.chunked_transfer, Band.reassemble, Band.second_auth_part,
    Band.encrypt_aes_cbc, read_bytes.
  reflexivity.
Qed.

End WithPrimitives.

End EightBit.

Module EightBitTheorems.
Import ChunkSpec EightBit.

(** C10: after every frame the byte count is the old count (0 for a first
    frame with the key-exchange signature) plus the frame's payload length,
    reduced modulo 256; the sequence number kept is the byte [value[4]]; the
    completion branch runs exactly when that residue equals [expectedBytes];
    a first frame sets [expectedBytes] to [total_length - 3] modulo 256,
    looking at the low byte of the field only, so two first frames whose
    [total_length] fields agree modulo 256 are handled identically. *)
Theorem C10_eight_bit_bookkeeping
    (ECC_PUB_KEY_SIZE : nat)
    (ecdh_shared_secret : list Z -> list Z -> list Z -> Z * list Z)
    (AES_cbc_encrypt : list Z -> list Z -> list Z -> list Z)
    (notification_start_ret : string -> Z)
    (now : Z) (d : BLEDevice) :
  (∀ value d' hs ev,
     Band.reassemble notification_start_ret now d value = Some (d', hs, ev) ->
     let count := ((if hs =? 14 then 0 else pointer d)
                   + (Z.of_nat (length value) - hs)) mod 256 in
     pointer d' = count
     ∧ 0 <= pointer d' < 256
     ∧ read value 4 = Some (lastSequenceNumber d')
     ∧ (Forall is_byte value -> 0 <= lastSequenceNumber d' < 256)
     ∧ (hs = 14 -> 0 <= expectedBytes d' < 256)
     ∧ (read value 0 = Some 0x03 ->
        Band.chunked_transfer ECC_PUB_KEY_SIZE ecdh_shared_secret
          AES_cbc_encrypt notification_start_ret now d value
        = if count =? expectedBytes d' then
            match Band.second_auth_part ECC_PUB_KEY_SIZE ecdh_shared_secret
                    AES_cbc_encrypt d' value hs with
            | Some (d'', ev2) => Some (d'', ev ++ ev2)
            | None => None
            end
          else Some (d', ev)))
  ∧ (∀ flags reserved handle total_length body,
       ∃ d' ev,
         Band.reassemble notification_start_ret now d
           (Sample.first_frame flags reserved handle total_length body)
         = Some (d', 14, ev)
         ∧ expectedBytes d' = (total_length - 3) mod 256)
  ∧ (∀ flags reserved handle total_length total_length' body,
       total_length mod 256 = total_length' mod 256 ->
       Band.chunked_transfer ECC_PUB_KEY_SIZE ecdh_shared_secret
         AES_cbc_encrypt notification_start_ret now d
         (Sample.first_frame flags reserved handle total_length body)
       = Band.chunked_transfer ECC_PUB_KEY_SIZE ecdh_shared_secret
           AES_cbc_encrypt notification_start_ret now d
           (Sample.first_frame flags reserved handle total_length' body)).
Proof.
  split; [|split].
  - intros value d' hs ev Hre count.
    destruct (reassemble_counters _ _ _ _ _ _ _ Hre)
      as (Hhs & Hseq & Hptr & Hkeep & Hfirst).
    split; [done|].
    split; [rewrite Hptr; apply Z.mod_pos_bound; lia|].
    split; [done|]. split.
    { intros Hbytes. unfold read in Hseq. simpl in Hseq.
      eapply Forall_lookup_1 in Hbytes; [|exact Hseq]. exact Hbytes. }
    split.
    { intros H14. destruct (Hfirst H14) as (v5 & _ & ->).
      apply Z.mod_pos_bound. lia. }
    intros H0.
    assert (Hlen : (1 < length value)%nat).
    { unfold read in Hseq. simpl in Hseq.
      apply lookup_lt_Some in Hseq. lia. }
    rewrite (chunked_transfer_eq _ _ _ _ _ _ _ _ _ _ Hlen H0 Hre).
    by rewrite Hptr.
  - intros flags reserved handle total_length body.
    eexists _, _. split.
    + apply reassemble_first; reflexivity.
    + cbn [expectedBytes set_reassembly]. unfold u8.
      rewrite land_255. apply Zminus_mod_idemp_l.
  - intros flags reserved handle total_length total_length' body Hmod.
    unfold Sample.first_frame, le32.
    rewrite !land_255, Hmod.
    apply first_frame_upper_bytes.
Qed.

Lemma C10_eight_bit_bookkeeping_witness :
  Band.chunked_transfer 48 Sample.ecdh_copy Sample.xor_cipher (λ _, 0) 0
    Sample.device
    (Sample.first_frame 7 0 0 67
       (Sample.bytes_from 0 16 ++ Sample.bytes_from 50 48))
  = Band.chunked_transfer 48 Sample.ecdh_copy Sample.xor_cipher (λ _, 0) 0
      Sample.device
      (Sample.first_frame 7 0 0 (67 + 256 * 5)
         (Sample.bytes_from 0 16 ++ Sample.bytes_from 50 48)).
Proof.
  apply (C10_eight_bit_bookkeeping 48 Sample.ecdh_copy Sample.xor_cipher
           (λ _, 0) 0 Sample.device).
  reflexivity.
Defined.

End EightBitTheorems.

(** ** After a completed message *)

Module Restart.
Import ChunkSpec EightBit.

(** Which frames the bookkeeping takes for what: [header_size] is 14 exactly
    for a frame with sequence number 0 and the key-exchange signature, 5
    exactly for a frame with a positive sequence number, and 0 for any
    other frame. *)
Lemma reassemble_header_size (notification_start_ret : string -> Z)
    now d value d' hs ev :
  Band.reassemble notification_start_ret now d value = Some (d', hs, ev) ->
  ∃ seq,
    read value 4 = Some seq
    ∧ (hs = 14 <-> seq = 0 ∧ signature_is value 0x04 = Some true)
    ∧ (hs = 5 <-> seq ≠ 0 ∧ 0 < seq)
    ∧ (hs = 14 ∨ hs = 5 ∨ hs = 0).
Proof.
  unfold Band.reassemble.
  destruct (read value 4) as [seq|]; [|done]. bind_step.
  intros H. exists seq. split; [done|]. revert H.
  unfold and_then at 1. bind_step.
  destruct (Z.eqb_spec seq 0) as [->|Hne].
  - destruct (signature_is value 4) as [[|]|]; [| |done]; bind_step.
    + destruct (read value 5) as [v5|]; [|done]. bind_step.
      intros [= _ <- _]. split; [done|]. split; [|tauto].
      split; [done|lia].
    + change (0 <? 0) with false. cbv iota.
      destruct (signature_is value 5) as [[|]|]; [| |done]; bind_step;
        intros [= _ <- _]; (split; [split; [done|by intros [_ [=]]]|]);
        (split; [split; [done|lia]|tauto]).
  - bind_step. destruct (Z.ltb_spec 0 seq).
    + bind_step. intros [= _ <- _].
      split; [split; [done|by intros [? _]]|]. split; [done|tauto].
    + destruct (signature_is value 5) as [[|]|]; [| |done]; bind_step;
        intros [= _ <- _]; (split; [split; [done|by intros [? _]]|]);
        (split; [split; [done|lia]|tauto]).
Qed.

End Restart.

Module CompletionTheorems.
Import Chunk ChunkSpec ChunkFacts ChunkStructure Handshake EightBit Restart.

(** C8, as the code has it: the completion branch leaves the three
    reassembly fields as they are, so the two counters are still equal when
    the next frame arrives.  What the next frame does to them depends on its
    kind alone: a first frame with the key-exchange signature, and no other
    frame, restarts the count from 0 and takes [expectedBytes] from its own
    header, whatever the old values were; a continuation frame adds its
    payload length to the old count; any other frame with sequence number 0
    (the report of a successful authentication, or an unhandled frame) adds
    its whole length to the old count; both leave [expectedBytes] as it
    was. *)
Theorem C8_counters_after_completion
    (ECC_PUB_KEY_SIZE : nat)
    (ecdh_shared_secret : list Z -> list Z -> list Z -> Z * list Z)
    (AES_cbc_encrypt : list Z -> list Z -> list Z -> list Z)
    (notification_start_ret : string -> Z)
    (now : Z) (d d' d'' : BLEDevice) (value : list Z) (hs : Z)
    (ev ev2 : list event) :
  Band.reassemble notification_start_ret now d value = Some (d', hs, ev) ->
  pointer d' = expectedBytes d' ->
  Band.second_auth_part ECC_PUB_KEY_SIZE ecdh_shared_secret AES_cbc_encrypt
    d' value hs = Some (d'', ev2) ->
  lastSequenceNumber d'' = lastSequenceNumber d'
  ∧ pointer d'' = pointer d'
  ∧ expectedBytes d'' = expectedBytes d'
  ∧ pointer d'' = expectedBytes d''
  ∧ (∀ next v5,
       read next 4 = Some 0 -> signature_is next 0x04 = Some true ->
       read next 5 = Some v5 ->
       Band.reassemble notification_start_ret now d'' next
       = Some (set_reassembly d'' 0
                 (u8 (0 + u8 (Z.of_nat (length next) - 14))) (u8 (v5 - 3)),
               14, [Printf "1st authentication part completed"]))
  ∧ (∀ next seq d3 hs3 ev3,
       read next 4 = Some seq -> 0 < seq ->
       Band.reassemble notification_start_ret now d'' next
       = Some (d3, hs3, ev3) ->
       pointer d3 = u8 (pointer d' + u8 (Z.of_nat (length next) - 5))
       ∧ expectedBytes d3 = expectedBytes d')
  ∧ (∀ next d3 hs3 ev3,
       Band.reassemble notification_start_ret now d'' next
       = Some (d3, hs3, ev3) ->
       ∃ seq,
         read next 4 = Some seq
         ∧ (hs3 = 14 <-> seq = 0 ∧ signature_is next 0x04 = Some true)
         ∧ (hs3 = 5 <-> 0 < seq)
         ∧ (hs3 = 0 <->
            ¬ 0 < seq ∧ ¬ (seq = 0 ∧ signature_is next 0x04 = Some true))
         ∧ (hs3 = 14 ->
            pointer d3 = u8 (Z.of_nat (length next) - 14))
         ∧ (hs3 ≠ 14 ->
            pointer d3 = u8 (pointer d' + (Z.of_nat (length next) - hs3))
            ∧ expectedBytes d3 = expectedBytes d')).
Proof.
  intros Hre Hdone Hauth.
  destruct (second_auth_part_keeps_counters _ _ _ _ _ _ _ _ Hauth)
    as (Hlast & Hptr & Hexp & _).
  split; [done|]. split; [done|]. split; [done|]. split; [congruence|].
  split; [|split].
  - intros next v5 H4 Hsig H5. by apply reassemble_first.
  - intros next seq d3 hs3 ev3 H4 Hpos Hnext.
    rewrite (reassemble_continuation _ _ _ _ seq) in Hnext by done.
    injection Hnext as <- _ _.
    cbn [pointer expectedBytes set_reassembly]. by rewrite Hptr, Hexp.
  - intros next d3 hs3 ev3 Hnext.
    destruct (reassemble_header_size _ _ _ _ _ _ _ Hnext)
      as (seq & Hseq & H14 & H5 & Hcases).
    destruct (reassemble_counters _ _ _ _ _ _ _ Hnext)
      as (_ & _ & Hcount & Hkeep & _).
    exists seq. split; [done|]. split; [done|].
    split; [split; [intros ?; by apply H5|intros ?; apply H5; lia]|].
    split.
    { split.
      - intros ->. split; [intros Hp; assert (0 = 5) by (apply H5; lia); lia|].
        intros Hk. assert (0 = 14) by (by apply H14). lia.
      - intros [Hn5 Hn14]. destruct Hcases as [Hc|[Hc|Hc]]; [| |done].
        + exfalso. apply Hn14. by apply H14.
        + exfalso. apply Hn5. by apply H5. }
    split.
    + intros ->. rewrite Hcount. change (14 =? 14) with true. cbv iota.
      unfold u8. f_equal.
    + intros Hne. split; [|rewrite Hkeep by done; done].
      rewrite Hcount, Hptr.
      destruct (Z.eqb_spec hs3 14); [done|]. reflexivity.
Qed.

Lemma C8_counters_after_completion_witness :
  ∃ d' d'' ev ev2 d3 ev3,
    Band.reassemble (λ _, 0) 0 Sample.device Sample.key_exchange_frame
    = Some (d', 14, ev)
    ∧ Band.second_auth_part 48 Sample.ecdh_copy Sample.xor_cipher
        d' Sample.key_exchange_frame 14 = Some (d'', ev2)
    ∧ pointer d'' = 64 ∧ expectedBytes d'' = 64
    ∧ Band.reassemble (λ _, 0) 0 d'' Scenario.success_frame
      = Some (d3, 0, ev3)
    ∧ pointer d3 = 78 ∧ expectedBytes d3 = 64.
Proof.
  eexists _, _, _, _, _, _.
  split; [vm_compute; reflexivity|].
  split; [vm_compute; reflexivity|].
  pose proof (C8_counters_after_completion 48 Sample.ecdh_copy
                Sample.xor_cipher (λ _, 0) 0 Sample.device) as H.
  specialize (H _ _ Sample.key_exchange_frame 14 _ _
                ltac:(vm_compute; reflexivity) ltac:(reflexivity)
                ltac:(vm_compute; reflexivity)).
  destruct H as (_ & Hp & He & _ & _ & _ & Hnext).
  split; [rewrite Hp; reflexivity|]. split; [rewrite He; reflexivity|].
  split; [vm_compute; reflexivity|].
  destruct (Hnext Scenario.success_frame _ 0 _ ltac:(vm_compute; reflexivity))
    as (seq & _ & _ & _ & _ & _ & Hadd).
  destruct (Hadd ltac:(lia)) as [Hp3 He3].
  split; [rewrite Hp3; reflexivity | rewrite He3; reflexivity].
Defined.

End CompletionTheorems.

(** ** The first chunk and a message split over two frames *)

Module RoundTrip.
Import Chunk ChunkSpec ChunkFacts ChunkStructure EightBit.

(** The first chunk of a payload that starts with the three signature
    bytes, as the bookkeeping sees it. *)
Lemma first_chunk_reassemble notification_start_ret now d handle body :
  let payload := 0x10 :: 0x04 :: 0x01 :: body in
  let n := Z.of_nat (length payload) in
  n <= 258 ->
  let value := first_chunk 0x82 handle payload n in
  read value 0 = Some 0x03
  ∧ (1 < length value)%nat
  ∧ ∃ d',
      Band.reassemble notification_start_ret now d value
      = Some (d', 14, [Printf "1st authentication part completed"])
      ∧ pointer d' = Z.min n 9 - 3
      ∧ expectedBytes d' = n - 3.
Proof.
  intros payload n Hn value.
  assert (H3 : 3 <= n) by (unfold n, payload; simpl; lia).
  assert (Hlen : Z.of_nat (length value) = 11 + Z.min n 9).
  { apply first_chunk_length; lia. }
  assert (Htake : take (Z.to_nat (Z.min n 9)) payload
                  = 0x10 :: 0x04 :: 0x01
                    :: take (Z.to_nat (Z.min n 9) - 3) body).
  { replace (Z.to_nat (Z.min n 9))
      with (S (S (S (Z.to_nat (Z.min n 9) - 3)))) at 1 by lia.
    reflexivity. }
  split; [done|]. split; [lia|].
  eexists. split.
  - apply reassemble_first.
    + done.
    + unfold value, first_chunk. rewrite Htake. reflexivity.
    + reflexivity.
  - cbn [pointer expectedBytes set_reassembly].
    rewrite u8_u8_add, Hlen, land_255. unfold u8.
    split.
    + rewrite Z.mod_small by lia. lia.
    + rewrite Zminus_mod_idemp_l. apply Z.mod_small. lia.
Qed.

(** C2 on the code: the key-exchange message of total length 35 (body
    0..31), delivered in two frames.  The count reaches [expectedBytes] on
    the second frame; the nonce is then read through [value + 5] of that
    frame alone, which gives body bytes 13..28 instead of 0..15, and the
    public key through [value + 21], which runs past the end of the
    24-byte frame. *)
Theorem C2_split_message_is_read_from_last_frame
    (ecdh_shared_secret : list Z -> list Z -> list Z -> Z * list Z)
    (AES_cbc_encrypt : list Z -> list Z -> list Z -> list Z)
    (notification_start_ret : string -> Z) (realloc_ok : Z -> bool)
    (now : Z) :
  let d1 := set_reassembly Sample.device 0 13 32 in
  let d2 := set_reassembly Sample.device 1 32 32 in
  Band.chunked_transfer 48 ecdh_shared_secret AES_cbc_encrypt
    notification_start_ret now Sample.device Sample.split_frame_1
  = Some (d1, [Printf "1st authentication part completed"])
  ∧ Band.reassemble notification_start_ret now d1 Sample.split_frame_2
    = Some (d2, 5, [])
  ∧ pointer d2 = expectedBytes d2
  ∧ drop 14 Sample.split_frame_1 ++ drop 5 Sample.split_frame_2
    = Sample.bytes_from 0 32
  ∧ read_bytes Sample.split_frame_2 5 16 = Some (Sample.bytes_from 13 16)
  ∧ Sample.bytes_from 13 16 ≠ take 16 (Sample.bytes_from 0 32)
  ∧ read_bytes Sample.split_frame_2 (5 + 16) 48 = None
  ∧ Band.chunked_transfer 48 ecdh_shared_secret AES_cbc_encrypt
      notification_start_ret now d1 Sample.split_frame_2 = None
  ∧ Band.notifications 48 ecdh_shared_secret AES_cbc_encrypt
      notification_start_ret realloc_ok now
      CHARACTERISTIC_CHUNKED_TRANSFER_READ
      [Sample.split_frame_1; Sample.split_frame_2] Sample.device = None.
Proof.
  intros d1 d2.
  assert (H1 : Band.chunked_transfer 48 ecdh_shared_secret AES_cbc_encrypt
                 notification_start_ret now Sample.device Sample.split_frame_1
               = Some (d1, [Printf "1st authentication part completed"]))
    by reflexivity.
  assert (H2 : Band.chunked_transfer 48 ecdh_shared_secret AES_cbc_encrypt
                 notification_start_ret now d1 Sample.split_frame_2 = None)
    by reflexivity.
  split; [exact H1|]. split; [reflexivity|]. split; [reflexivity|].
  split; [reflexivity|]. split; [reflexivity|]. split; [discriminate|].
  split; [reflexivity|]. split; [exact H2|].
  unfold Band.notifications, Band.characteristic_value_updated.
  change (String.eqb CHARACTERISTIC_CHUNKED_TRANSFER_READ
            CHARACTERISTIC_CHUNKED_TRANSFER_READ) with true.
  change (String.eqb CHARACTERISTIC_CHUNKED_TRANSFER_READ
            CHARACTERISTIC_HEART_RATE_MEASURE) with false.
  cbv iota. rewrite H1. bind_step. rewrite H2. reflexivity.
Qed.

End RoundTrip.

(** ** Encoding followed by the notification handler *)

Module RoundTripFacts.
Import Chunk ChunkSpec ChunkFacts ChunkStructure EightBit.

Section Run.

Variable ECC_PUB_KEY_SIZE : nat.
Variable ecdh_shared_secret : list Z -> list Z -> list Z -> Z * list Z.
Variable AES_cbc_encrypt : list Z -> list Z -> list Z -> list Z.
Variable notification_start_ret : string -> Z.
Variable realloc_ok : Z -> bool.
Variables (now handle : Z) (data : list Z) (n : Z).
Hypothesis n_in_data : n <= Z.of_nat (length data).
Hypothesis n_small : 3 <= n <= 258.

Local Abbreviation chunked_transfer :=
  (Band.chunked_transfer ECC_PUB_KEY_SIZE ecdh_shared_secret AES_cbc_encrypt
     notification_start_ret now).
Local Abbreviation notifications :=
  (Band.notifications ECC_PUB_KEY_SIZE ecdh_shared_secret AES_cbc_encrypt
     notification_start_ret realloc_ok now
     CHARACTERISTIC_CHUNKED_TRANSFER_READ).

(** A run of the handler over notifications of the read characteristic. *)
Lemma notifications_cons value values d :
  notifications (value :: values) d
  = match chunked_transfer d value with
    | Some (d1, ev1) =>
        match notifications values d1 with
        | Some (d2, ev2) => Some (d2, (ev1 ++ []) ++ ev2)
        | None => None
        end
    | None => None
    end.
Proof.
  cbn [Band.notifications]. unfold Band.characteristic_value_updated.
  change (String.eqb CHARACTERISTIC_CHUNKED_TRANSFER_READ
            CHARACTERISTIC_CHUNKED_TRANSFER_READ) with true.
  change (String.eqb CHARACTERISTIC_CHUNKED_TRANSFER_READ
            CHARACTERISTIC_HEART_RATE_MEASURE) with false.
  cbv iota.
  destruct (chunked_transfer d value) as [[d1 ev1]|]; [|done].
  bind_step.
  destruct (Band.notifications _ _ _ _ _ _ _ _ d1) as [[d2 ev2]|]; done.
Qed.

(** The continuation chunks [m], [m + 1], ... up to the last one, fed to a
    device that has counted the bytes before them: the count reaches
    [expectedBytes] on the last chunk, whose 20 bytes at most do not hold
    what the completion branch reads. *)
Lemma notifications_continuation (k : nat) : ∀ (m : Z) (d : BLEDevice),
  0 <= m ->
  15 * (m + Z.of_nat k) <= n + 5 ->
  n <= 9 + 15 * (m + Z.of_nat k) ->
  (0 < k)%nat ->
  pointer d = 9 + 15 * m - 3 ->
  expectedBytes d = n - 3 ->
  notifications
    (map (λ j, cont_chunk handle data n (9 + 15 * j) (1 + j))
       (seqZ m (Z.of_nat k))) d
  = None.
Proof using n_in_data n_small.
  induction k as [|k IH]; intros m d Hm Hk Hend Hpos Hptr Hexp; [lia|].
  rewrite (seqZ_cons m (Z.of_nat (S k))) by lia.
  replace (Z.pred (Z.of_nat (S k))) with (Z.of_nat k) by lia.
  cbn [map]. set (value := cont_chunk handle data n (9 + 15 * m) (1 + m)).
  assert (Hoff : 9 + 15 * m < n) by lia.
  assert (Hlen : Z.of_nat (length value) = 5 + Z.min (n - (9 + 15 * m)) 15).
  { unfold value. apply cont_chunk_length; lia. }
  assert (Hseq : read value 4 = Some (1 + m)).
  { unfold value, cont_chunk, short_header, u8. cbn.
    rewrite Z.mod_small by lia. done. }
  assert (H0 : read value 0 = Some 3) by done.
  assert (Hre := reassemble_continuation notification_start_ret now d value
                   (1 + m) Hseq ltac:(lia)).
  rewrite notifications_cons.
  assert (Hl1 : (1 < length value)%nat) by lia.
  rewrite (chunked_transfer_eq _ _ _ _ _ _ _ _ _ _ Hl1 H0 Hre).
  cbn [pointer expectedBytes set_reassembly].
  rewrite u8_u8_add, Hlen, Hptr, Hexp.
  assert (Hcount : u8 (9 + 15 * m - 3 + (5 + Z.min (n - (9 + 15 * m)) 15 - 5))
                   = Z.min n (9 + 15 * (m + 1)) - 3).
  { unfold u8. rewrite Z.mod_small by lia. lia. }
  rewrite Hcount.
  destruct (Z.le_gt_cases n (9 + 15 * (m + 1))) as [Hlast|Hmore].
  - rewrite Z.min_l by lia. rewrite Z.eqb_refl.
    unfold Band.second_auth_part. rewrite read_bytes_None by lia. done.
  - rewrite Z.min_r by lia.
    destruct (Z.eqb_spec (9 + 15 * (m + 1) - 3) (n - 3)); [lia|].
    rewrite (IH (Z.succ m)); [done|lia|lia|lia|lia| |done].
    cbn [pointer set_reassembly]. lia.
Qed.

End Run.

End RoundTripFacts.

Module RoundTripTheorems.
Import Chunk ChunkSpec ChunkFacts ChunkStructure EightBit RoundTripFacts.

(** C1 on the code: a key-exchange message (type 0x82, payload 10 04 01
    followed by the body, at most 258 bytes) is written by
    [write_chunked_value] as frames of at most 20 bytes whose payload
    slices, put end to end, are the payload.  Fed in order to the
    notification handler, these frames do not give the payload back: the
    handler only counts their bytes, and on the frame that brings the count
    to [expectedBytes] it reads the nonce and the public key behind the
    header of that frame alone, past its end. *)
Theorem C1_encoded_message_is_read_past_its_last_frame
    (ECC_PUB_KEY_SIZE : nat)
    (ecdh_shared_secret : list Z -> list Z -> list Z -> Z * list Z)
    (AES_cbc_encrypt : list Z -> list Z -> list Z -> list Z)
    (notification_start_ret : string -> Z) (realloc_ok : Z -> bool)
    (now : Z) (d : BLEDevice) (handle : Z) (body : list Z) :
  let payload := 0x10 :: 0x04 :: 0x01 :: body in
  let n := Z.of_nat (length payload) in
  n <= 258 ->
  ∃ chunks,
    write_chunked_value 0x82 handle payload n = Some chunks
    ∧ payload_slices chunks = payload
    ∧ Forall (λ chunk, Z.of_nat (length chunk) <= 20) chunks
    ∧ Band.notifications ECC_PUB_KEY_SIZE ecdh_shared_secret AES_cbc_encrypt
        notification_start_ret realloc_ok now
        CHARACTERISTIC_CHUNKED_TRANSFER_READ chunks d
      = None.
Proof.
  intros payload n Hn.
  assert (H3 : 3 <= n) by (unfold n, payload; simpl; lia).
  destruct (RoundTrip.first_chunk_reassemble notification_start_ret now d
              handle body Hn)
    as (H0 & Hlen & d' & Hre & Hptr & Hexp).
  fold payload in H0, Hlen, Hre. fold n in H0, Hlen, Hre.
  change (Z.of_nat (length (16 :: 4 :: 1 :: body))) with n in Hptr, Hexp.
  set (N := (n + 5) / 15).
  assert (HN : 0 <= N) by (apply Z.div_pos; lia).
  pose proof (Z.div_mod (n + 5) 15 ltac:(lia)) as Hdm.
  pose proof (Z.mod_pos_bound (n + 5) 15 ltac:(lia)) as Hmod.
  fold N in Hdm.
  exists (chunks_spec 0x82 handle payload n).
  assert (Hspec : chunks_spec 0x82 handle payload n
                  = first_chunk 0x82 handle payload n
                    :: map (λ j, cont_chunk handle payload n (9 + 15 * j) (1 + j))
                         (seqZ 0 N)).
  { unfold chunks_spec. destruct (Z.eqb_spec n 0); [lia|done]. }
  assert (Hfirst : Z.of_nat (length (first_chunk 0x82 handle payload n))
                   = 11 + Z.min n 9)
    by (apply first_chunk_length; lia).
  split; [apply write_chunked_value_spec; lia|].
  split; [rewrite chunks_spec_slices by lia; apply take_ge; lia|].
  split.
  { apply Forall_forall. intros chunk Hin. rewrite Hspec in Hin.
    apply elem_of_cons in Hin as [->|Hin]; [lia|].
    apply list_elem_of_fmap in Hin as (j & -> & Hj).
    apply elem_of_seqZ in Hj.
    rewrite cont_chunk_length by lia. lia. }
  rewrite Hspec, notifications_cons.
  rewrite (chunked_transfer_eq _ _ _ _ _ _ _ _ _ _ Hlen H0 Hre).
  rewrite Hptr, Hexp.
  destruct (Z.le_gt_cases n 9) as [Hsmall|Hbig].
  - rewrite Z.min_l by lia. rewrite Z.eqb_refl.
    unfold Band.second_auth_part. rewrite read_bytes_None by lia. done.
  - rewrite Z.min_r by lia.
    destruct (Z.eqb_spec (9 - 3) (n - 3)); [lia|].
    clearbody N. rewrite <- (Z2Nat.id N HN).
    rewrite (notifications_continuation ECC_PUB_KEY_SIZE ecdh_shared_secret
               AES_cbc_encrypt notification_start_ret realloc_ok now handle
               payload n ltac:(lia) ltac:(lia) (Z.to_nat N) 0 d');
      [done|lia|lia|lia|lia|lia|done].
Qed.

Lemma C1_encoded_message_is_read_past_its_last_frame_witness :
  ∃ chunks,
    write_chunked_value 0x82 0
      (0x10 :: 0x04 :: 0x01 :: Sample.bytes_from 0 16 ++ Sample.bytes_from 50 48)
      67 = Some chunks
    ∧ payload_slices chunks
      = 0x10 :: 0x04 :: 0x01 :: Sample.bytes_from 0 16 ++ Sample.bytes_from 50 48
    ∧ length chunks = 5%nat
    ∧ Band.notifications 48 Sample.ecdh_copy Sample.xor_cipher (λ _, 0)
        Sample.realloc_always 0 CHARACTERISTIC_CHUNKED_TRANSFER_READ chunks
        Sample.device
      = None.
Proof.
  destruct (C1_encoded_message_is_read_past_its_last_frame 48
              Sample.ecdh_copy Sample.xor_cipher (λ _, 0)
              Sample.realloc_always 0 Sample.device 0
              (Sample.bytes_from 0 16 ++ Sample.bytes_from 50 48))
    as (chunks & Hw & Hslices & _ & Hrun).
  - simpl. lia.
  - exists chunks.
    assert (Hfive : length chunks = 5%nat).
    { change (Z.of_nat (length (16 :: 4 :: 1 :: Sample.bytes_from 0 16
                                ++ Sample.bytes_from 50 48)))
        with 67 in Hw.
      vm_compute in Hw. injection Hw as <-. reflexivity. }
    split; [exact Hw|]. split; [exact Hslices|].
    split; [exact Hfive|exact Hrun].
Defined.

End RoundTripTheorems.

(** ** [double] arithmetic on the integers of the heart-rate branch *)

Module DoubleFacts.
Import DoubleSpec.

Lemma dig_bounds p : 2 ^ (dig p - 1) <= Z.pos p < 2 ^ dig p.
Proof.
  unfold dig. induction p as [p IH|p IH|]; cbn [digits2_pos].
  - rewrite Pos2Z.inj_succ. change (Z.pos p~1) with (2 * Z.pos p + 1).
    replace (Z.succ (Z.pos (digits2_pos p)) - 1) with (1 + (Z.pos (digits2_pos p) - 1)) by lia.
    rewrite Z.pow_succ_r, Z.pow_add_r by lia.
    change (2 ^ 1) with 2. revert IH.
    generalize (2 ^ (Z.pos (digits2_pos p) - 1)), (2 ^ Z.pos (digits2_pos p)).
    intros; lia.
  - rewrite Pos2Z.inj_succ. change (Z.pos p~0) with (2 * Z.pos p).
    replace (Z.succ (Z.pos (digits2_pos p)) - 1) with (1 + (Z.pos (digits2_pos p) - 1)) by lia.
    rewrite Z.pow_succ_r, Z.pow_add_r by lia.
    change (2 ^ 1) with 2. revert IH.
    generalize (2 ^ (Z.pos (digits2_pos p) - 1)), (2 ^ Z.pos (digits2_pos p)).
    intros; lia.
  - simpl. lia.
Qed.

Lemma dig_pos p : 1 <= dig p.
Proof. unfold dig. lia. Qed.

Lemma pow2_lt_inv a b : 0 <= b -> 2 ^ a < 2 ^ b -> a < b.
Proof.
  intros Hb H. destruct (Z.lt_ge_cases a b) as [|Hge]; [assumption|].
  exfalso. pose proof (Z.pow_le_mono_r 2 b a ltac:(lia) Hge). lia.
Qed.

Lemma dig_unique p d : 2 ^ (d - 1) <= Z.pos p < 2 ^ d -> dig p = d.
Proof.
  intros [Hlo Hhi]. pose proof (dig_bounds p) as [Hlo' Hhi'].
  pose proof (dig_pos p).
  assert (0 < d).
  { destruct (Z.lt_ge_cases 0 d) as [|Hd]; [assumption|].
    exfalso. destruct (Z.eq_dec d 0) as [->|]; [simpl in Hhi; lia|].
    rewrite Z.pow_neg_r in Hhi by lia. lia. }
  assert (dig p - 1 < d) by (apply pow2_lt_inv; lia).
  assert (d - 1 < dig p) by (apply pow2_lt_inv; lia).
  lia.
Qed.

Lemma dig_shift p q t :
  0 <= t -> Z.pos q = Z.pos p * 2 ^ t -> dig q = dig p + t.
Proof.
  intros Ht Hq. apply dig_unique. rewrite Hq.
  pose proof (dig_bounds p) as [Hlo Hhi]. pose proof (dig_pos p).
  replace (dig p + t - 1) with ((dig p - 1) + t) by lia.
  rewrite !Z.pow_add_r by lia.
  assert (0 < 2 ^ t) by (apply Z.pow_pos_nonneg; lia).
  split; nia.
Qed.

Lemma shr_1_double m :
  0 <= m ->
  shr_1 {| shr_m := 2 * m; shr_r := false; shr_s := false |}
  = {| shr_m := m; shr_r := false; shr_s := false |}.
Proof. intros Hm. destruct m; [reflexivity|reflexivity|lia]. Qed.

Lemma iter_shr_exact (n : positive) : forall m,
  0 <= m ->
  SpecFloat.iter_pos shr_1 n {| shr_m := m * 2 ^ Z.pos n; shr_r := false; shr_s := false |}
  = {| shr_m := m; shr_r := false; shr_s := false |}.
Proof.
  induction n as [n IH|n IH|]; intros m Hm; cbn [SpecFloat.iter_pos].
  - change (Z.pos n~1) with (2 * Z.pos n + 1).
    replace (m * 2 ^ (2 * Z.pos n + 1))
      with (2 * ((m * 2 ^ Z.pos n) * 2 ^ Z.pos n)).
    2: { replace (2 * Z.pos n + 1) with (Z.pos n + Z.pos n + 1) by lia.
         rewrite !Z.pow_add_r by lia. change (2 ^ 1) with 2. ring. }
    assert (0 < 2 ^ Z.pos n) by (apply Z.pow_pos_nonneg; lia).
    rewrite shr_1_double by nia. rewrite IH by nia. apply IH. lia.
  - change (Z.pos n~0) with (2 * Z.pos n).
    replace (m * 2 ^ (2 * Z.pos n)) with ((m * 2 ^ Z.pos n) * 2 ^ Z.pos n).
    2: { replace (2 * Z.pos n) with (Z.pos n + Z.pos n) by lia.
         rewrite Z.pow_add_r by lia. ring. }
    assert (0 < 2 ^ Z.pos n) by (apply Z.pow_pos_nonneg; lia).
    rewrite IH by nia. apply IH. lia.
  - change (2 ^ 1) with 2. rewrite Z.mul_comm. apply shr_1_double. lia.
Qed.

Lemma round_aux_canonical s mz e :
  dig mz = 53 -> -1074 <= e <= 971 ->
  binary_round_aux 53 1024 s (Z.pos mz) e loc_Exact = S754_finite s mz e.
Proof.
  intros Hd He. unfold binary_round_aux, shr_fexp, fexp, emin.
  cbn [Zdigits2 shr_record_of_loc]. fold (dig mz). rewrite Hd.
  replace (Z.max (53 + e - 53) (3 - 1024 - 53) - e) with 0 by lia.
  cbn [shr shr_m loc_of_shr_record round_nearest_even Zdigits2].
  fold (dig mz). rewrite Hd.
  replace (Z.max (53 + e - 53) (3 - 1024 - 53) - e) with 0 by lia.
  cbn [shr shr_m].
  destruct (Z.leb_spec e (1024 - 53)); [reflexivity|lia].
Qed.

Lemma pos_iter_xO (d : positive) (m : positive) :
  Z.pos (Pos.iter xO m d) = Z.pos m * 2 ^ Z.pos d.
Proof.
  induction d as [|d IH] using Pos.peano_ind.
  - simpl. lia.
  - rewrite Pos.iter_succ, Pos2Z.inj_succ, Z.pow_succ_r by lia.
    change (Z.pos (Pos.iter xO m d)~0) with (2 * Z.pos (Pos.iter xO m d)).
    rewrite IH. ring.
Qed.

Lemma round_aux_shift_exact s M mz e0 n :
  0 <= n -> Z.pos M = Z.pos mz * 2 ^ n -> dig mz = 53 ->
  -1074 <= e0 + n <= 971 ->
  binary_round_aux 53 1024 s (Z.pos M) e0 loc_Exact = S754_finite s mz (e0 + n).
Proof.
  intros Hn HM Hd He.
  assert (HdM : dig M = 53 + n) by (rewrite <- Hd; apply dig_shift; assumption).
  unfold binary_round_aux, shr_fexp, fexp, emin.
  cbn [Zdigits2 shr_record_of_loc]. fold (dig M). rewrite HdM.
  replace (Z.max (53 + n + e0 - 53) (3 - 1024 - 53) - e0) with n by lia.
  assert (Hshr : shr {| shr_m := Z.pos M; shr_r := false; shr_s := false |} e0 n
                 = ({| shr_m := Z.pos mz; shr_r := false; shr_s := false |},
                    e0 + n)).
  { destruct n as [|p|p]; [| |lia]; cbn [shr].
    - rewrite Z.add_0_r. assert (M = mz) as -> by (simpl in HM; lia).
      reflexivity.
    - rewrite HM, iter_shr_exact by lia. reflexivity. }
  rewrite Hshr.
  cbn [shr_m loc_of_shr_record round_nearest_even Zdigits2].
  fold (dig mz). rewrite Hd.
  replace (Z.max (53 + (e0 + n) - 53) (3 - 1024 - 53) - (e0 + n)) with 0 by lia.
  cbn [shr shr_m].
  destruct (Z.leb_spec (e0 + n) (1024 - 53)); [reflexivity|lia].
Qed.

Lemma round_exact s M e0 u t :
  0 <= t -> Z.pos M = Z.pos u * 2 ^ t -> dig u <= 53 ->
  -1074 <= e0 + t - (53 - dig u) <= 971 ->
  binary_round 53 1024 s M e0 = canon s u (e0 + t).
Proof.
  intros Ht HM Hdu He.
  pose proof (dig_pos u) as Hdpos.
  assert (HdM : dig M = dig u + t) by (apply dig_shift; assumption).
  assert (Hpow : 0 < 2 ^ (53 - dig u)) by (apply Z.pow_pos_nonneg; lia).
  set (mz := Z.to_pos (Z.pos u * 2 ^ (53 - dig u))).
  assert (Hmz : Z.pos mz = Z.pos u * 2 ^ (53 - dig u)).
  { unfold mz. rewrite Z2Pos.id; [reflexivity|]. nia. }
  assert (Hdmz : dig mz = 53).
  { rewrite (dig_shift u mz (53 - dig u)); [lia | lia | assumption]. }
  unfold canon. fold mz.
  unfold binary_round, fexp, emin. fold (dig M). rewrite HdM.
  replace (Z.max (dig u + t + e0 - 53) (3 - 1024 - 53))
    with (e0 + t - (53 - dig u)) by lia.
  unfold shl_align.
  destruct (e0 + t - (53 - dig u) - e0) as [|n|d] eqn:Hshift.
  - replace (e0 + t - (53 - dig u)) with (e0 + 0) by lia.
    apply round_aux_shift_exact; [lia | | assumption | lia].
    rewrite HM, Hmz. replace t with (53 - dig u) by lia. simpl. ring.
  - replace (e0 + t - (53 - dig u)) with (e0 + Z.pos n) by lia.
    apply round_aux_shift_exact; [lia | | assumption | lia].
    rewrite HM, Hmz. replace t with ((53 - dig u) + Z.pos n) by lia.
    rewrite Z.pow_add_r by lia. ring.
  - assert (Pos.iter xO M d = mz) as ->.
    { apply Pos2Z.inj. rewrite pos_iter_xO, HM, Hmz.
      replace (53 - dig u) with (t + Z.pos d) by lia.
      rewrite Z.pow_add_r by lia. ring. }
    apply round_aux_canonical; [assumption|lia].
Qed.

Lemma canon_self s m e :
  dig m = 53 -> canon s m e = S754_finite s m e.
Proof.
  intros Hd. unfold canon. rewrite Hd. simpl. f_equal; lia.
Qed.

(** Conversion of an integer. *)
Lemma double_of_int_pos (z : positive) :
  dig z <= 53 -> binary_normalize 53 1024 (Z.pos z) 0 false = canon false z 0.
Proof.
  intros Hd. pose proof (dig_pos z). cbn [binary_normalize].
  rewrite (round_exact false z 0 z 0); [reflexivity | lia | simpl; lia | lia | lia].
Qed.

Lemma shl_align_fst m e ez :
  ez <= e -> Z.pos (fst (shl_align m e ez)) = Z.pos m * 2 ^ (e - ez).
Proof.
  intros Hle. unfold shl_align.
  destruct (ez - e) as [|p|d] eqn:Hd; cbn [fst].
  - replace (e - ez) with 0 by lia. simpl. lia.
  - lia.
  - rewrite pos_iter_xO. f_equal. f_equal. lia.
Qed.

Lemma dig_le_53_iff (z : positive) : dig z <= 53 <-> Z.pos z < 2 ^ 53.
Proof.
  pose proof (dig_bounds z) as [Hlo Hhi]. pose proof (dig_pos z). split.
  - intros Hd.
    pose proof (Z.pow_le_mono_r 2 (dig z) 53 ltac:(lia) Hd). lia.
  - intros Hz. assert (dig z - 1 < 53); [|lia].
    apply pow2_lt_inv; lia.
Qed.

Lemma double_of_int_add (a b : Z) :
  0 <= a -> 0 <= b -> a + b < 2 ^ 53 ->
  SFadd 53 1024 (double_of_int a) (double_of_int b) = double_of_int (a + b).
Proof.
  intros Ha Hb Hsum. unfold double_of_int.
  destruct a as [|a|a]; [|clear Ha|lia].
  { destruct b as [|b|b]; [reflexivity| |lia].
    rewrite Z.add_0_l, double_of_int_pos by (apply dig_le_53_iff; lia).
    reflexivity. }
  destruct b as [|b|b]; [|clear Hb|lia].
  { rewrite Z.add_0_r, double_of_int_pos by (apply dig_le_53_iff; lia).
    reflexivity. }
  assert (Hda : dig a <= 53) by (apply dig_le_53_iff; lia).
  assert (Hdb : dig b <= 53) by (apply dig_le_53_iff; lia).
  assert (Hdab : dig (a + b) <= 53) by (apply dig_le_53_iff; lia).
  pose proof (dig_pos a). pose proof (dig_pos b). pose proof (dig_pos (a + b)).
  change (Z.pos a + Z.pos b) with (Z.pos (a + b)).
  rewrite !double_of_int_pos by assumption.
  unfold canon at 1 2. cbn [SFadd cond_Zopp].
  set (ez := Z.min (0 - (53 - dig a)) (0 - (53 - dig b))).
  assert (Hpa : 0 < 2 ^ (53 - dig a)) by (apply Z.pow_pos_nonneg; lia).
  assert (Hpb : 0 < 2 ^ (53 - dig b)) by (apply Z.pow_pos_nonneg; lia).
  rewrite !shl_align_fst by lia.
  rewrite !Z2Pos.id by nia.
  rewrite <- !Z.mul_assoc, <- !Z.pow_add_r by lia.
  replace (53 - dig a + (0 - (53 - dig a) - ez)) with (- ez) by lia.
  replace (53 - dig b + (0 - (53 - dig b) - ez)) with (- ez) by lia.
  rewrite <- Z.mul_add_distr_r.
  change (Z.pos a + Z.pos b) with (Z.pos (a + b)).
  assert (Hpz : 0 < 2 ^ (- ez)) by (apply Z.pow_pos_nonneg; lia).
  destruct (Z.pos (a + b) * 2 ^ (- ez)) as [|M|M] eqn:HM; [nia| |nia].
  cbn [binary_normalize].
  rewrite (round_exact false M ez (a + b) (- ez)); [| lia | lia | lia | lia].
  f_equal. lia.
Qed.

(** ** Rounding a quotient *)

Lemma new_location_zero b : new_location b 0 = loc_Exact.
Proof. unfold new_location. destruct (Z.even b); reflexivity. Qed.

Lemma rne_bounds m l :
  m <= round_nearest_even m l <= m + 1.
Proof. destruct l as [|[| |]]; simpl; try destruct (Z.even m); lia. Qed.

Lemma last_stage_spec s m1 e1 :
  2 ^ 52 <= m1 <= 2 ^ 53 -> -1074 <= e1 -> e1 + 1 <= 971 ->
  exists mR eR,
    last_stage s m1 e1 = S754_finite s mR eR
    /\ dig mR = 53 /\ e1 <= eR <= e1 + 1
    /\ Z.pos mR * 2 ^ (eR - e1) = m1.
Proof.
  intros Hm He1 He2.
  destruct m1 as [|p|p]; [lia| |lia].
  unfold last_stage, shr_fexp, fexp, emin. cbn [Zdigits2 shr_record_of_loc].
  fold (dig p).
  destruct (Z.eq_dec (Z.pos p) (2 ^ 53)) as [Heq|Hne].
  - assert (Hd : dig p = 54) by (apply dig_unique; rewrite Heq; simpl; lia).
    rewrite Hd.
    replace (Z.max (54 + e1 - 53) (3 - 1024 - 53) - e1) with 1 by lia.
    cbn [shr SpecFloat.iter_pos]. rewrite Heq.
    change (shr_1 {| shr_m := 2 ^ 53; shr_r := false; shr_s := false |})
      with {| shr_m := 2 ^ 52; shr_r := false; shr_s := false |}.
    cbn [shr_m]. change (2 ^ 52) with (Z.pos (2 ^ 52)).
    destruct (Z.leb_spec (e1 + 1) (1024 - 53)); [|lia].
    exists (2 ^ 52)%positive, (e1 + 1).
    split; [reflexivity|]. split; [reflexivity|]. split; [lia|].
    replace (e1 + 1 - e1) with 1 by lia. reflexivity.
  - assert (Hd : dig p = 53) by (apply dig_unique; simpl; lia).
    rewrite Hd.
    replace (Z.max (53 + e1 - 53) (3 - 1024 - 53) - e1) with 0 by lia.
    cbn [shr shr_m].
    destruct (Z.leb_spec e1 (1024 - 53)); [|lia].
    exists p, e1. split; [reflexivity|]. split; [assumption|]. split; [lia|].
    rewrite Z.sub_diag. simpl. lia.
Qed.

Lemma shr_m_of_loc m l : shr_m (shr_record_of_loc m l) = m.
Proof. destruct l as [|[| |]]; reflexivity. Qed.

Lemma loc_of_of_loc m l : loc_of_shr_record (shr_record_of_loc m l) = l.
Proof. destruct l as [|[| |]]; reflexivity. Qed.

Lemma binary_round_aux_stages s q e l :
  binary_round_aux 53 1024 s q e l
  = let '(mrs, e1) := shr_fexp 53 1024 q e l in
    last_stage s (round_nearest_even (shr_m mrs) (loc_of_shr_record mrs)) e1.
Proof. reflexivity. Qed.

(** The mantissa after the first stage and the rounding, for a quotient of
    53 or 54 bits: [n] is the number of bits dropped. *)
Lemma first_stage q r b e :
  2 ^ 52 <= q < 2 ^ 54 -> 0 <= r < b -> -1074 <= e ->
  exists m1 n,
    (let '(mrs, e1) := shr_fexp 53 1024 q e (new_location b r) in
     (round_nearest_even (shr_m mrs) (loc_of_shr_record mrs), e1))
    = (m1, e + n)
    /\ 0 <= n <= 1
    /\ 2 ^ 52 <= m1 <= 2 ^ 53
    /\ forall K', let K := 2 * K' in
         (q * b + r <= K * b -> m1 * 2 ^ n <= K)
         /\ (K * b <= q * b + r -> K <= m1 * 2 ^ n).
Proof.
  intros Hq Hr He.
  destruct q as [|qp|qp]; [lia| |lia].
  unfold shr_fexp, fexp, emin. cbn [Zdigits2]. fold (dig qp).
  destruct (Z.lt_ge_cases (Z.pos qp) (2 ^ 53)) as [Hsmall|Hbig].
  - assert (Hd : dig qp = 53) by (apply dig_unique; simpl; lia).
    rewrite Hd.
    replace (Z.max (53 + e - 53) (3 - 1024 - 53) - e) with 0 by lia.
    cbn [shr]. rewrite shr_m_of_loc, loc_of_of_loc.
    exists (round_nearest_even (Z.pos qp) (new_location b r)), 0.
    pose proof (rne_bounds (Z.pos qp) (new_location b r)) as Hrne.
    split; [f_equal; lia|]. split; [lia|]. split; [lia|].
    intros K'. remember (2 * K') as K eqn:HK. rewrite Z.pow_0_r, Z.mul_1_r. split.
    + intros HQ. destruct (Z.eq_dec r 0) as [->|Hr0].
      * rewrite new_location_zero. simpl. nia.
      * assert (Z.pos qp < K) by nia. lia.
    + intros HQ. assert (K <= Z.pos qp) by nia. lia.
  - assert (Hd : dig qp = 54) by (apply dig_unique; simpl; lia).
    rewrite Hd.
    replace (Z.max (54 + e - 53) (3 - 1024 - 53) - e) with 1 by lia.
    cbn [shr SpecFloat.iter_pos].
    destruct qp as [p|p|].
    + (* odd quotient *)
      assert (Hshr : exists st,
                shr_1 (shr_record_of_loc (Z.pos p~1) (new_location b r))
                = {| shr_m := Z.pos p; shr_r := true; shr_s := st |}).
      { destruct (new_location b r) as [|[| |]]; eexists; reflexivity. }
      destruct Hshr as [st ->]. cbn [shr_m loc_of_shr_record].
      exists (round_nearest_even (Z.pos p) (if st then loc_Inexact Gt else loc_Inexact Eq)), 1.
      pose proof (rne_bounds (Z.pos p) (if st then loc_Inexact Gt else loc_Inexact Eq)) as Hrne.
      change (Z.pos p~1) with (2 * Z.pos p + 1) in *.
      split; [destruct st; reflexivity|]. split; [lia|]. split; [simpl in *; lia|].
      intros K'. remember (2 * K') as K eqn:HK. change (2 ^ 1) with 2. split.
      * intros HQ. assert (2 * Z.pos p + 1 <= K) by nia. lia.
      * intros HQ. assert (K <= 2 * Z.pos p + 1) by nia. lia.
    + (* even quotient *)
      assert (Hshr : exists st,
                shr_1 (shr_record_of_loc (Z.pos p~0) (new_location b r))
                = {| shr_m := Z.pos p; shr_r := false; shr_s := st |}).
      { destruct (new_location b r) as [|[| |]]; eexists; reflexivity. }
      destruct Hshr as [st ->]. cbn [shr_m loc_of_shr_record].
      exists (Z.pos p), 1.
      change (Z.pos p~0) with (2 * Z.pos p) in *.
      split; [destruct st; reflexivity|]. split; [lia|]. split; [simpl in *; lia|].
      intros K'. remember (2 * K') as K eqn:HK. change (2 ^ 1) with 2. split.
      * intros HQ. assert (2 * Z.pos p <= K) by nia. lia.
      * intros HQ. assert (K <= 2 * Z.pos p) by nia. lia.
    + simpl in Hbig. lia.
Qed.

Lemma div_canon (a b : positive) (ex ey : Z) :
  dig a = 53 -> dig b = 53 -> -120 <= ex <= 0 -> -120 <= ey <= 0 ->
  let e' := ex - ey - 53 in
  exists mR eR,
    SFdiv 53 1024 (S754_finite false a ex) (S754_finite false b ey)
    = S754_finite false mR eR
    /\ dig mR = 53 /\ e' <= eR <= e' + 2
    /\ forall K', let K := 2 * K' in
         (Z.pos a * 2 ^ 53 <= K * Z.pos b -> Z.pos mR * 2 ^ (eR - e') <= K)
         /\ (K * Z.pos b <= Z.pos a * 2 ^ 53 -> K <= Z.pos mR * 2 ^ (eR - e')).
Proof.
  intros Hda Hdb Hex Hey e'.
  pose proof (dig_bounds a) as Ha. pose proof (dig_bounds b) as Hb.
  rewrite Hda in Ha. rewrite Hdb in Hb.
  change (2 ^ (53 - 1)) with (2 ^ 52) in *.
  unfold SFdiv, SFdiv_core_binary, fexp, emin. cbn [Zdigits2 xorb].
  fold (dig a) (dig b). rewrite Hda, Hdb.
  replace (Z.min (Z.max (53 + ex - (53 + ey) - 53) (3 - 1024 - 53)) (ex - ey))
    with e' by (unfold e'; lia).
  replace (ex - ey - e') with 53 by (unfold e'; lia).
  rewrite Z.shiftl_mul_pow2 by lia.
  pose proof (Z_div_mod (Z.pos a * 2 ^ 53) (Z.pos b) ltac:(lia)) as Hdiv.
  destruct (Z.div_eucl (Z.pos a * 2 ^ 53) (Z.pos b)) as [q r].
  destruct Hdiv as [Hqr Hr].
  assert (Hq : 2 ^ 52 <= q < 2 ^ 54).
  { change (2 ^ 54) with (2 * 2 ^ 53). change (2 ^ 53) with (2 * 2 ^ 52) in *.
    generalize dependent (2 ^ 52). intros. nia. }
  rewrite binary_round_aux_stages.
  destruct (first_stage q r (Z.pos b) e' Hq Hr ltac:(unfold e'; lia))
    as (m1 & n & Hstage & Hn & Hm1 & Hthr).
  destruct (shr_fexp 53 1024 q e' (new_location (Z.pos b) r)) as [mrs e1].
  injection Hstage as -> ->.
  destruct (last_stage_spec false m1 (e' + n) Hm1
              ltac:(unfold e'; lia) ltac:(unfold e'; lia))
    as (mR & eR & -> & HdR & HeR & HmR).
  exists mR, eR. split; [reflexivity|]. split; [assumption|].
  split; [lia|].
  intros K'. remember (2 * K') as K eqn:HK.
  assert (HV : Z.pos mR * 2 ^ (eR - e') = m1 * 2 ^ n).
  { replace (eR - e') with ((eR - (e' + n)) + n) by lia.
    rewrite Z.pow_add_r by lia. rewrite <- HmR. ring. }
  rewrite HV. specialize (Hthr K'). rewrite <- HK in Hthr.
  destruct Hthr as [HU HL]. split; intros HQ.
  - apply HU. lia.
  - apply HL. lia.
Qed.

Lemma compare_canon m1 e1 m2 e2 C :
  dig m1 = 53 -> dig m2 = 53 -> 0 <= e1 + C -> 0 <= e2 + C ->
  SFcompare (S754_finite false m1 e1) (S754_finite false m2 e2)
  = Some (Z.pos m1 * 2 ^ (e1 + C) ?= Z.pos m2 * 2 ^ (e2 + C)).
Proof.
  intros Hd1 Hd2 H1 H2.
  pose proof (dig_bounds m1) as Hb1. pose proof (dig_bounds m2) as Hb2.
  rewrite Hd1 in Hb1. rewrite Hd2 in Hb2.
  change (2 ^ (53 - 1)) with (2 ^ 52) in *.
  change (2 ^ 53) with (2 * 2 ^ 52) in *.
  cbn [SFcompare]. f_equal.
  destruct (Z.compare_spec e1 e2) as [Heq|Hlt|Hgt].
  - subst e2.
    assert (0 < 2 ^ (e1 + C)) by (apply Z.pow_pos_nonneg; lia).
    change (Pos.compare_cont Eq m1 m2) with (Z.compare (Z.pos m1) (Z.pos m2)).
    apply Zmult_compare_compat_r. lia.
  - symmetry. apply Z.compare_lt_iff.
    replace (e2 + C) with ((e2 - e1 - 1) + 1 + (e1 + C)) by lia.
    rewrite (Z.pow_add_r 2 (e2 - e1 - 1 + 1) (e1 + C)),
      (Z.pow_add_r 2 (e2 - e1 - 1) 1) by lia.
    change (2 ^ 1) with 2.
    assert (0 < 2 ^ (e1 + C)) by (apply Z.pow_pos_nonneg; lia).
    assert (0 < 2 ^ (e2 - e1 - 1)) by (apply Z.pow_pos_nonneg; lia).
    rewrite Z.mul_assoc. apply Z.mul_lt_mono_pos_r; [assumption|].
    generalize dependent (2 ^ 52).
    generalize dependent (2 ^ (e2 - e1 - 1)). intros. nia.
  - symmetry. apply Z.compare_gt_iff.
    replace (e1 + C) with ((e1 - e2 - 1) + 1 + (e2 + C)) by lia.
    rewrite (Z.pow_add_r 2 (e1 - e2 - 1 + 1) (e2 + C)),
      (Z.pow_add_r 2 (e1 - e2 - 1) 1) by lia.
    change (2 ^ 1) with 2.
    assert (0 < 2 ^ (e2 + C)) by (apply Z.pow_pos_nonneg; lia).
    assert (0 < 2 ^ (e1 - e2 - 1)) by (apply Z.pow_pos_nonneg; lia).
    rewrite Z.mul_assoc. apply Z.mul_lt_mono_pos_r; [assumption|].
    generalize dependent (2 ^ 52).
    generalize dependent (2 ^ (e1 - e2 - 1)). intros. nia.
Qed.

Lemma shr_1_nonneg mrs : 0 <= shr_m mrs -> 0 <= shr_m (shr_1 mrs).
Proof.
  destruct mrs as [m r s]. destruct m as [|[p|p|]|p]; cbn; lia.
Qed.

Lemma iter_shr_nonneg (n : positive) : forall mrs,
  0 <= shr_m mrs -> 0 <= shr_m (SpecFloat.iter_pos shr_1 n mrs).
Proof.
  induction n as [n IH|n IH|]; intros mrs H; cbn [SpecFloat.iter_pos].
  - apply IH, IH, shr_1_nonneg, H.
  - apply IH, IH, H.
  - apply shr_1_nonneg, H.
Qed.

Lemma shr_fexp_nonneg m e l :
  0 <= m -> 0 <= shr_m (fst (shr_fexp 53 1024 m e l)).
Proof.
  intros Hm. unfold shr_fexp, shr.
  destruct (fexp 53 1024 (Zdigits2 m + e) - e); cbn [fst];
    try apply iter_shr_nonneg; rewrite shr_m_of_loc; assumption.
Qed.

(** A negative number is never rounded to a positive one. *)
Lemma binary_round_negative M e :
  forall x, SFltb x (binary_round 53 1024 true M e) = true ->
  match x with S754_finite false _ _ | S754_zero _ => False | _ => True end.
Proof.
  intros x. unfold binary_round.
  destruct (shl_align M e (fexp 53 1024 (Z.pos (digits2_pos M) + e))) as [mz ez].
  unfold binary_round_aux.
  pose proof (shr_fexp_nonneg (Z.pos mz) ez loc_Exact ltac:(lia)) as H1.
  destruct (shr_fexp 53 1024 (Z.pos mz) ez loc_Exact) as [mrs' e'].
  cbn [fst] in H1.
  pose proof (rne_bounds (shr_m mrs') (loc_of_shr_record mrs')) as Hrne.
  pose proof (shr_fexp_nonneg
                (round_nearest_even (shr_m mrs') (loc_of_shr_record mrs'))
                e' loc_Exact ltac:(lia)) as H2.
  destruct (shr_fexp 53 1024 _ e' loc_Exact) as [mrs'' e''].
  cbn [fst] in H2.
  destruct (shr_m mrs'') as [|m|m]; [| |lia].
  - destruct x as [s|s| |[|] m e0]; cbn; try discriminate; trivial.
  - destruct (e'' <=? 1024 - 53);
      destruct x as [s|[|]| |[|] m0 e0]; cbn; try discriminate; trivial.
Qed.

Lemma double_of_int_cases r :
  0 <= r < 2 ^ 53 ->
  double_of_int r = S754_zero false
  \/ exists m e, double_of_int r = S754_finite false m e.
Proof.
  intros Hr. destruct r as [|p|p]; [left; reflexivity| |lia].
  right. unfold double_of_int. rewrite double_of_int_pos by (apply dig_le_53_iff; lia).
  unfold canon. eauto.
Qed.

Lemma ltb_iff_lt (x y : Z) :
  match (x ?= y) with Lt => true | _ => false end = true <-> x < y.
Proof.
  destruct (Z.compare_spec x y); split; intros; try discriminate; try lia;
    reflexivity.
Qed.

Lemma canon_digits s u e :
  dig u <= 53 ->
  exists m, canon s u e = S754_finite s m (e - (53 - dig u))
            /\ dig m = 53 /\ Z.pos m = Z.pos u * 2 ^ (53 - dig u).
Proof.
  intros Hd. pose proof (dig_pos u).
  assert (0 < 2 ^ (53 - dig u)) by (apply Z.pow_pos_nonneg; lia).
  exists (Z.to_pos (Z.pos u * 2 ^ (53 - dig u))).
  assert (Hm : Z.pos (Z.to_pos (Z.pos u * 2 ^ (53 - dig u)))
               = Z.pos u * 2 ^ (53 - dig u)) by (apply Z2Pos.id; nia).
  split; [reflexivity|]. split; [|assumption].
  rewrite (dig_shift u _ (53 - dig u)); [lia | lia | assumption].
Qed.

Lemma sub_compare (r : Z) (mR : positive) (eR : Z) :
  0 <= r -> r + 10 < 2 ^ 53 -> dig mR = 53 -> -200 <= eR <= 0 ->
  SFltb (double_of_int r)
    (SFsub 53 1024 (S754_finite false mR eR) (double_of_int 10)) = true
  <-> (r + 10) * 2 ^ (- eR) < Z.pos mR.
Proof.
  intros Hr0 Hr1 HdR HeR.
  pose proof (dig_bounds mR) as HmR. rewrite HdR in HmR.
  change (2 ^ (53 - 1)) with (2 ^ 52) in HmR.
  change (double_of_int 10) with (S754_finite false 5629499534213120 (-49)).
  cbn [SFsub cond_Zopp].
  set (ez := Z.min eR (-49)).
  rewrite !shl_align_fst by (unfold ez; lia).
  set (Y := 2 ^ (- eR)). set (X := 2 ^ (eR - ez)).
  assert (HY : 0 < Y) by (apply Z.pow_pos_nonneg; lia).
  assert (HX : 0 < X) by (apply Z.pow_pos_nonneg; unfold ez; lia).
  assert (HB : 5629499534213120 * 2 ^ (-49 - ez) = 10 * Y * X).
  { unfold X, Y. change 5629499534213120 with (10 * 2 ^ 49).
    rewrite <- !Z.mul_assoc, <- !Z.pow_add_r by (unfold ez; lia).
    f_equal. f_equal. lia. }
  change (Z.pos 5629499534213120) with 5629499534213120. rewrite HB.
  destruct (double_of_int_cases r ltac:(lia)) as [Hzero|(mr & er & Hfin)].
  - (* r = 0 *)
    assert (r = 0) as ->.
    { destruct r as [|p|p]; [reflexivity| |lia].
      unfold double_of_int in Hzero.
      rewrite double_of_int_pos in Hzero by (apply dig_le_53_iff; lia).
      discriminate. }
    rewrite Hzero. clear Hzero.
    destruct (Z.pos mR * X - 10 * Y * X) as [|M|M] eqn:HD;
      cbn [binary_normalize].
    + split; [discriminate|]. intros. nia.
    + assert (Hex : -49 <= eR).
      { destruct (Z.le_gt_cases (-49) eR) as [|Hlow]; [assumption|].
        exfalso.
        assert (X = 1) as HX1
          by (unfold X, ez; rewrite Z.min_l by lia; rewrite Z.sub_diag; reflexivity).
        assert (2 ^ 50 <= Y) by (apply Z.pow_le_mono_r; lia).
        rewrite HX1 in HD. change (2 ^ 53) with (8 * 2 ^ 50) in HmR. lia. }
      assert (Hu : 0 < Z.pos mR - 10 * Y) by nia.
      assert (HXe : X = 2 ^ (eR + 49))
        by (unfold X, ez; rewrite Z.min_r by lia; f_equal; lia).
      assert (Hez : ez = -49) by (unfold ez; lia). rewrite Hez.
      rewrite (round_exact false M (-49) (Z.to_pos (Z.pos mR - 10 * Y)) (eR + 49)).
      * destruct (canon_digits false (Z.to_pos (Z.pos mR - 10 * Y))
                    (-49 + (eR + 49))) as (m & -> & _).
        { apply dig_le_53_iff. rewrite Z2Pos.id by lia. lia. }
        split; [intros _; nia | reflexivity].
      * lia.
      * rewrite Z2Pos.id by lia. rewrite <- HXe. lia.
      * apply dig_le_53_iff. rewrite Z2Pos.id by lia. lia.
      * pose proof (dig_pos (Z.to_pos (Z.pos mR - 10 * Y))).
        assert (dig (Z.to_pos (Z.pos mR - 10 * Y)) <= 53)
          by (apply dig_le_53_iff; rewrite Z2Pos.id by lia; lia).
        lia.
    + split; [|intros; nia].
      intros Hlt. apply binary_round_negative in Hlt. contradiction.
  - (* r > 0 *)
    assert (Hrpos : 0 < r).
    { destruct r as [|p|p]; [discriminate|lia|lia]. }
    destruct r as [|rp|rp]; [lia| |lia].
    unfold double_of_int in Hfin |- *.
    rewrite double_of_int_pos in Hfin |- * by (apply dig_le_53_iff; lia).
    clear Hfin mr er.
    destruct (canon_digits false rp 0 ltac:(apply dig_le_53_iff; lia))
      as (mr & -> & Hdmr & Hmr).
    pose proof (dig_pos rp) as Hdrp.
    assert (Hdrp' : dig rp <= 53) by (apply dig_le_53_iff; lia).
    destruct (Z.pos mR * X - 10 * Y * X) as [|M|M] eqn:HD;
      cbn [binary_normalize].
    + split; [discriminate|]. intros. nia.
    + assert (Hex : -49 <= eR).
      { destruct (Z.le_gt_cases (-49) eR) as [|Hlow]; [assumption|].
        exfalso.
        assert (X = 1) as HX1
          by (unfold X, ez; rewrite Z.min_l by lia; rewrite Z.sub_diag; reflexivity).
        assert (2 ^ 50 <= Y) by (apply Z.pow_le_mono_r; lia).
        rewrite HX1 in HD. change (2 ^ 53) with (8 * 2 ^ 50) in HmR. lia. }
      assert (Hu : 0 < Z.pos mR - 10 * Y) by nia.
      assert (HXe : X = 2 ^ (eR + 49))
        by (unfold X, ez; rewrite Z.min_r by lia; f_equal; lia).
      set (u := Z.to_pos (Z.pos mR - 10 * Y)).
      assert (Hup : Z.pos u = Z.pos mR - 10 * Y) by (apply Z2Pos.id; lia).
      assert (Hdu : dig u <= 53) by (apply dig_le_53_iff; lia).
      pose proof (dig_pos u) as Hdu1.
      assert (Hez : ez = -49) by (unfold ez; lia). rewrite Hez.
      rewrite (round_exact false M (-49) u (eR + 49));
        [| lia | rewrite Hup, <- HXe; lia | assumption | lia].
      destruct (canon_digits false u (-49 + (eR + 49)) Hdu)
        as (mT & -> & HdmT & HmT).
      unfold SFltb.
      rewrite (compare_canon mr _ mT _ 200) by (assumption || lia).
      rewrite ltb_iff_lt, Hmr, HmT, Hup.
      rewrite <- !Z.mul_assoc, <- !Z.pow_add_r by lia.
      replace (53 - dig rp + (0 - (53 - dig rp) + 200)) with 200 by lia.
      replace (53 - dig u + (-49 + (eR + 49) - (53 - dig u) + 200))
        with (eR + 200) by lia.
      assert (HP : 2 ^ 200 = Y * 2 ^ (eR + 200)).
      { unfold Y. rewrite <- Z.pow_add_r by lia. f_equal. lia. }
      assert (0 < 2 ^ (eR + 200)) by (apply Z.pow_pos_nonneg; lia).
      rewrite HP. generalize dependent (2 ^ (eR + 200)). intros W _ HW.
      split; intros; nia.
    + split; [|intros; nia].
      intros Hlt. apply binary_round_negative in Hlt. contradiction.
Qed.

(** The test [result < sum / count - 10] in [double] arithmetic decides the
    same as the comparison in exact arithmetic. *)
Theorem alert_condition (r c S : Z) :
  0 <= r -> r + 10 < 2 ^ 53 -> 0 < c < 2 ^ 53 -> 0 <= S < 2 ^ 52 ->
  SFltb (double_of_int r)
    (SFsub 53 1024 (SFdiv 53 1024 (double_of_int S) (double_of_int c)) (double_of_int 10)) = true
  <-> c * (r + 10) < S.
Proof.
  intros Hr0 Hr1 Hc HS.
  destruct c as [|cp|cp]; [lia| |lia].
  assert (Hdc : dig cp <= 53) by (apply dig_le_53_iff; lia).
  pose proof (dig_pos cp) as Hdc1.
  unfold double_of_int at 3. rewrite double_of_int_pos by assumption.
  destruct (canon_digits false cp 0 Hdc) as (b & -> & Hdb & Hb).
  destruct S as [|Sp|Sp]; [| |lia].
  - (* empty sum *)
    change (double_of_int 0) with (S754_zero false).
    change (double_of_int 10) with (S754_finite false 5629499534213120 (-49)).
    cbn [SFdiv SFsub xorb negb].
    split; [|intros; nia].
    destruct (double_of_int_cases r ltac:(lia)) as [->|(mr & er & ->)]; discriminate.
  - assert (HdS : dig Sp <= 52).
    { pose proof (dig_bounds Sp) as [Hlo _].
      assert (dig Sp - 1 < 52); [|lia]. apply pow2_lt_inv; lia. }
    pose proof (dig_pos Sp) as HdS1.
    unfold double_of_int at 2. rewrite double_of_int_pos by lia.
    destruct (canon_digits false Sp 0 ltac:(lia)) as (a & -> & Hda & Ha).
    destruct (div_canon a b (0 - (53 - dig Sp)) (0 - (53 - dig cp))
                Hda Hdb ltac:(lia) ltac:(lia))
      as (mR & eR & -> & HdR & HeR & Hthr).
    set (e' := 0 - (53 - dig Sp) - (0 - (53 - dig cp)) - 53) in *.
    rewrite sub_compare by (assumption || (unfold e' in HeR; lia)).
    assert (He' : e' <= -2) by (unfold e'; lia).
    set (P := 2 ^ (106 - dig Sp)).
    assert (HaP : Z.pos a * 2 ^ 53 = Z.pos Sp * P).
    { rewrite Ha. unfold P. rewrite <- Z.mul_assoc, <- Z.pow_add_r by lia.
      f_equal. f_equal. lia. }
    assert (HbP : forall k, (k * 2 ^ (- e')) * Z.pos b = (Z.pos cp * k) * P).
    { intros k. rewrite Hb. unfold P.
      replace (106 - dig Sp) with ((- e') + (53 - dig cp)) by (unfold e'; lia).
      rewrite Z.pow_add_r by (unfold e'; lia). ring. }
    assert (HbP2 : 2 * Z.pos b <= P).
    { pose proof (dig_bounds b) as [_ Hhi]. rewrite Hdb in Hhi.
      assert (2 ^ 54 <= P) by (apply Z.pow_le_mono_r; lia).
      change (2 ^ 54) with (2 * 2 ^ 53) in *. lia. }
    assert (HP : 0 < P) by (apply Z.pow_pos_nonneg; lia).
    set (V := Z.pos mR * 2 ^ (eR - e')) in *.
    assert (HW : 0 < 2 ^ (eR - e')) by (apply Z.pow_pos_nonneg; lia).
    assert (HK : forall k, k * 2 ^ (- e') = (k * 2 ^ (- eR)) * 2 ^ (eR - e')).
    { intros k. rewrite <- Z.mul_assoc, <- Z.pow_add_r by lia.
      f_equal. f_equal. lia. }
    assert (Heven : forall k, k * 2 ^ (- e') = 2 * (k * 2 ^ (- e' - 1))).
    { intros k. replace (- e') with (1 + (- e' - 1)) at 1 by lia.
      rewrite Z.pow_add_r by lia. change (2 ^ 1) with 2. ring. }
    split.
    + (* the rounded mean is above the threshold: so is the exact one *)
      intros Hlt.
      destruct (Z.lt_ge_cases (Z.pos cp * (r + 10)) (Z.pos Sp)) as [|Hge];
        [assumption|exfalso].
      destruct (Hthr ((r + 10) * 2 ^ (- e' - 1))) as [HU _].
      rewrite <- Heven in HU.
      assert (HVle : V <= (r + 10) * 2 ^ (- e')).
      { apply HU. rewrite HaP, HbP. nia. }
      rewrite HK in HVle. unfold V in HVle. nia.
    + (* the exact mean is above the threshold: so is the rounded one *)
      intros Hlt.
      destruct (Hthr ((r + 10) * 2 ^ (- e' - 1) + 1)) as [_ HL].
      replace (2 * ((r + 10) * 2 ^ (- e' - 1) + 1))
        with ((r + 10) * 2 ^ (- e') + 2) in HL by (rewrite Heven; ring).
      assert (HVge : (r + 10) * 2 ^ (- e') + 2 <= V).
      { apply HL. rewrite HaP, Z.mul_add_distr_r, HbP. nia. }
      rewrite HK in HVge. unfold V in HVge. nia.
Qed.

End DoubleFacts.

(** ** The heart-rate history and the alert rule *)

Module Telemetry.
Import TelemetrySpec.


(** [result = (result << 8) | value[i]] over two bytes. *)

Lemma land_shiftl_byte (a b : Z) : is_byte b -> Z.land (Z.shiftl a 8) b = 0.
Proof.
  intros Hb. apply Z.bits_inj'. intros n Hn.
  rewrite Z.land_spec, Z.bits_0.
  destruct (Z.lt_ge_cases n 8) as [Hlt|Hge].
  - rewrite Z.shiftl_spec_low by lia. reflexivity.
  - rewrite (Z.bits_above_log2 b n); [apply andb_false_r|apply Hb|].
    destruct (Z.eq_dec b 0) as [->|Hz]; [simpl; lia|].
    assert (Z.log2 b < 8); [|lia].
    apply Z.log2_lt_pow2; [|change (2 ^ 8) with 256]; unfold is_byte in Hb; lia.
Qed.

Lemma sample_bytes (v0 v1 : Z) :
  is_byte v0 -> is_byte v1 ->
  Z.lor (Z.shiftl (Z.lor (Z.shiftl 0 8) v0) 8) v1 = sample_of v0 v1.
Proof.
  intros H0 H1. rewrite Z.shiftl_0_l, Z.lor_0_l.
  rewrite <- Z.lxor_lor by (apply land_shiftl_byte; exact H1).
  rewrite <- Z.add_nocarry_lxor by (apply land_shiftl_byte; exact H1).
  rewrite Z.shiftl_mul_pow2 by lia. reflexivity.
Qed.

Lemma sample_range (v0 v1 : Z) :
  is_byte v0 -> is_byte v1 -> 0 <= sample_of v0 v1 < 65536.
Proof. unfold is_byte, sample_of. lia. Qed.

Lemma row_ok_inv (row : option (Z * Z)) :
  row_ok row = true -> exists t v, row = Some (t, v) /\ 0 <= v < 65536.
Proof.
  destruct row as [[t v]|]; [|discriminate]. simpl. intros H.
  exists t, v. split; [reflexivity|lia].
Qed.

Lemma total_bound (rows : list (option (Z * Z))) :
  forallb row_ok rows = true ->
  0 <= total (value_of <$> rows) <= 65535 * Z.of_nat (length rows).
Proof.
  induction rows as [|row rows IH]; [simpl; lia|].
  cbn [forallb]. intros [Hr Hrs]%andb_true_iff.
  destruct (row_ok_inv _ Hr) as (t & v & -> & Hv).
  specialize (IH Hrs). cbn [fmap list_fmap total foldr value_of from_option snd length] in *.
  fold (total (value_of <$> rows)). lia.
Qed.

Lemma sum_loop_total (hist : list (option (Z * Z))) (n : nat) :
  forall (i A : Z),
    0 <= i -> 0 <= A -> A + 65535 * Z.of_nat n < 2 ^ 53 ->
    (Z.to_nat i + n <= length hist)%nat ->
    forallb row_ok (take n (drop (Z.to_nat i) hist)) = true ->
    sum_loop n i hist (double_of_int A)
    = Some (double_of_int
              (A + total (value_of <$> take n (drop (Z.to_nat i) hist)))).
Proof.
  induction n as [|n IH]; intros i A Hi HA Hb Hl Hok.
  - simpl. rewrite Z.add_0_r. reflexivity.
  - destruct (lookup_lt_is_Some_2 hist (Z.to_nat i)) as [row Hrow]; [lia|].
    rewrite (drop_S _ _ _ Hrow) in Hok |- *.
    cbn [take forallb] in Hok. apply andb_true_iff in Hok as [Hr Hrs].
    destruct (row_ok_inv _ Hr) as (t & v & -> & Hv).
    assert (Hn : Z.to_nat (i + 1) = S (Z.to_nat i)) by lia.
    pose proof (total_bound _ Hrs) as Ht.
    cbn [sum_loop]. unfold read_row.
    destruct (Z.leb_spec 0 i) as [_|]; [|lia].
    rewrite Hrow. cbn [mjoin option_join mbind option_bind snd].
    unfold double_add. rewrite DoubleFacts.double_of_int_add by lia.
    rewrite IH; rewrite ?Hn; try lia; try assumption.
    cbn [take fmap list_fmap total foldr value_of from_option snd].
    fold (total (value_of <$> take n (drop (S (Z.to_nat i)) hist))).
    do 2 f_equal. unfold value_of, fmap. lia.
Qed.

Lemma below_mean_iff (v : Z) (values : list Z) :
  values <> [] ->
  below_mean v values <-> Z.of_nat (length values) * (v + 10) < total values.
Proof.
  intros Hne. unfold below_mean, mean.
  generalize (total values). intros T.
  destruct (Z.of_nat (length values)) as [|p|p] eqn:Hp;
    [destruct values; [congruence|discriminate]| |lia].
  unfold Qlt, Qminus, Qplus, Qopp, Qdiv, Qmult, Qinv, inject_Z.
  cbn [Qnum Qden].
  rewrite !Pos2Z.inj_mul. lia.
Qed.

Section WithRealloc.

Variable realloc_ok : Z -> bool.

Local Abbreviation grow_history := (Band.grow_history realloc_ok).
Local Abbreviation heart_rate := (Band.heart_rate realloc_ok).

(** Growing the buffer keeps the written rows and leaves room for the new
    sample. *)
Lemma grow_history_room (d : BLEDevice) :
  history_ok d = true ->
  (hrCount d + 1 = histSize d -> realloc_ok (histSize d * 2) = true) ->
  exists extra,
    grow_history (set_history d (hrHist d) (hrCount d + 1) (histSize d))
    = Some (set_history d (hrHist d ++ extra) (hrCount d + 1)
              (Z.of_nat (length (hrHist d ++ extra))), [])
    /\ hrCount d + 1 < Z.of_nat (length (hrHist d ++ extra)).
Proof.
  unfold history_ok. intros Hok Hre.
  apply andb_true_iff in Hok as [Hok _].
  apply andb_true_iff in Hok as [Hok Hsz].
  apply andb_true_iff in Hok as [H0 Hlt].
  apply Z.leb_le in H0. apply Z.ltb_lt in Hlt. apply Z.eqb_eq in Hsz.
  unfold Band.grow_history. cbn [hrCount histSize hrHist set_history].
  destruct (Z.eqb_spec (hrCount d + 1) (histSize d)) as [He|Hne].
  - rewrite (Hre He).
    exists (replicate (Z.to_nat (histSize d * 2 - histSize d * 2 / 2)) None).
    rewrite length_app, length_replicate, Z.div_mul by lia.
    split; [|lia]. do 2 f_equal. unfold set_history. f_equal. lia.
  - exists []. rewrite app_nil_r. split; [|lia].
    do 2 f_equal. unfold set_history. f_equal. lia.
Qed.

Lemma take_snoc_insert {A} (l extra : list A) (n : nat) (x : A) :
  (n < length l)%nat ->
  take (S n) (<[n := x]> (l ++ extra)) = take n l ++ [x].
Proof.
  intros Hn. rewrite insert_app_l by exact Hn.
  rewrite take_app_le by (rewrite length_insert; lia).
  rewrite insert_take_drop by exact Hn.
  rewrite take_app_ge by (rewrite length_take; lia).
  rewrite length_take, Nat.min_l by lia.
  replace (S n - n)%nat with 1%nat by lia. reflexivity.
Qed.

Lemma heart_rate_step (now : Z) (d : BLEDevice) (value : list Z) (v0 v1 : Z) :
  history_ok d = true ->
  hrCount d + 1 < 2 ^ 31 ->
  value !! 0%nat = Some v0 -> value !! 1%nat = Some v1 ->
  is_byte v0 -> is_byte v1 ->
  (hrCount d + 1 = histSize d -> realloc_ok (histSize d * 2) = true) ->
  exists d',
    heart_rate now d value
    = Some (d', Printf "Heart Rate Value"
                :: (if (60 <? hrCount d')
                       && bool_decide (hrCount d' * (sample_of v0 v1 + 10)
                                       < total (recorded d'))
                    then send_alert else []))
    /\ history_ok d' = true
    /\ hrCount d' = hrCount d + 1
    /\ recorded d' = recorded d ++ [sample_of v0 v1].
Proof.
  intros Hok Hint Hv0 Hv1 Hb0 Hb1 Hre.
  destruct (grow_history_room d Hok Hre) as (extra & Hg & Hroom).
  unfold history_ok in Hok.
  apply andb_true_iff in Hok as [Hok Hrows].
  apply andb_true_iff in Hok as [Hok Hsz].
  apply andb_true_iff in Hok as [H0 Hlt].
  apply Z.leb_le in H0. apply Z.ltb_lt in Hlt. apply Z.eqb_eq in Hsz.
  pose proof (sample_range v0 v1 Hb0 Hb1) as Hv.
  set (v := sample_of v0 v1) in *.
  set (t := int32 (now - initial_timestamp d)).
  set (n := Z.to_nat (hrCount d)) in *.
  set (hist := <[n := Some (t, v)]> (hrHist d ++ extra)).
  assert (Hn : (n < length (hrHist d))%nat) by lia.
  assert (Htake : take (S n) hist = take n (hrHist d) ++ [Some (t, v)])
    by (apply take_snoc_insert; exact Hn).
  assert (Hrows' : forallb row_ok (take (S n) hist) = true).
  { rewrite Htake, forallb_app, Hrows. simpl.
    apply andb_true_iff. split; [|reflexivity].
    apply andb_true_iff. split; [apply Z.leb_le|apply Z.ltb_lt]; lia. }
  assert (HSn : Z.to_nat (hrCount d + 1) = S n) by lia.
  exists (set_history d hist (hrCount d + 1) (Z.of_nat (length (hrHist d ++ extra)))).
  assert (Hrec : recorded (set_history d hist (hrCount d + 1)
                              (Z.of_nat (length (hrHist d ++ extra))))
                 = recorded d ++ [v]).
  { unfold recorded. cbn [hrCount hrHist set_history].
    rewrite HSn, Htake, fmap_app. reflexivity. }
  split; [|split; [|split; [reflexivity|exact Hrec]]].
  - unfold Band.heart_rate. rewrite Hg. bind_step.
    cbn [hrCount hrHist histSize initial_timestamp set_history].
    unfold read. cbn [Z.leb Z.compare Z.to_nat].
    change (Z.to_nat 0) with 0%nat. change (Z.to_nat 1) with 1%nat.
    rewrite Hv0. bind_step. rewrite Hv1. bind_step.
    rewrite (sample_bytes v0 v1 Hb0 Hb1). fold v. fold t.
    unfold write_row.
    replace (hrCount d + 1 - 1) with (hrCount d) by lia.
    destruct (Z.leb_spec 0 (hrCount d)) as [_|]; [|lia].
    destruct (Z.ltb_spec (hrCount d) (Z.of_nat (length (hrHist d ++ extra))))
      as [_|]; [|lia].
    cbn [andb]. bind_step. fold n. fold hist.
    rewrite HSn.
    rewrite (sum_loop_total hist (S n) 0 0); try lia;
      [|unfold hist; rewrite length_insert, length_app; simpl; lia
       |exact Hrows'].
    bind_step. rewrite Z.add_0_l.
    rewrite drop_0.
    assert (Htot : total (value_of <$> take (S n) hist)
                   = total (recorded d ++ [v])).
    { rewrite <- Hrec. unfold recorded. cbn [hrCount hrHist set_history].
      rewrite HSn. reflexivity. }
    pose proof (total_bound _ Hrows') as Hbound.
    rewrite length_take in Hbound.
    rewrite Hrec, <- Htot.
    set (T := total (value_of <$> take (S n) hist)) in *.
    assert (Hlt_eq : double_lt (double_of_int v)
                       (double_sub
                          (double_div (double_of_int T)
                             (double_of_int (hrCount d + 1)))
                          (double_of_int 10))
                     = bool_decide ((hrCount d + 1) * (v + 10) < T)).
    { unfold double_lt, double_sub, double_div.
      pose proof (DoubleFacts.alert_condition v (hrCount d + 1) T) as Hc.
      destruct (SFltb _ _); case_bool_decide as Hd; try reflexivity.
      - exfalso. apply Hd, Hc; [lia..|reflexivity].
      - apply Hc in Hd; [discriminate|lia..]. }
    rewrite Hlt_eq. reflexivity.
  - unfold history_ok. cbn [hrCount hrHist histSize set_history].
    rewrite HSn, Hrows'.
    destruct (Z.leb_spec 0 (hrCount d + 1)); [|lia].
    destruct (Z.ltb_spec (hrCount d + 1) (Z.of_nat (length (hrHist d ++ extra))));
      [|lia].
    unfold hist. rewrite length_insert, Z.eqb_refl. reflexivity.
Qed.

End WithRealloc.

Lemma recorded_length (d : BLEDevice) :
  history_ok d = true -> Z.of_nat (length (recorded d)) = hrCount d.
Proof.
  unfold history_ok, recorded. intros Hok.
  apply andb_true_iff in Hok as [Hok _].
  apply andb_true_iff in Hok as [Hok Hsz].
  apply andb_true_iff in Hok as [H0 Hlt].
  apply Z.leb_le in H0. apply Z.ltb_lt in Hlt. apply Z.eqb_eq in Hsz.
  rewrite length_fmap, length_take. lia.
Qed.

Lemma total_snoc (values : list Z) (v : Z) :
  total (values ++ [v]) = total values + v.
Proof.
  unfold total. induction values as [|x values IH]; simpl; [lia|].
  rewrite IH. lia.
Qed.

Lemma alert_in_events (b : bool) :
  alert ∈ Printf "Heart Rate Value" :: (if b then send_alert else [])
  <-> b = true.
Proof.
  split.
  - intros [Heq|Hin]%elem_of_cons; [discriminate Heq|].
    destruct b; [reflexivity|]. apply elem_of_nil in Hin. destruct Hin.
  - intros ->. unfold send_alert, alert.
    apply elem_of_cons. right. apply elem_of_cons. right.
    apply elem_of_cons. left. reflexivity.
Qed.

(** The rule evaluated: after 60 samples of 80 the sample 69 is answered by
    the alert, the samples 70 and 71 are not. *)
Example heart_rate_69_after_80s :
  snd <$> Band.heart_rate Sample.realloc_always 1000
            (Sample.device_with (replicate 60 80)) [0; 69]
  = Some (Printf "Heart Rate Value" :: send_alert).
Proof. vm_compute. reflexivity. Qed.

Example heart_rate_70_after_80s :
  snd <$> Band.heart_rate Sample.realloc_always 1000
            (Sample.device_with (replicate 60 80)) [0; 70]
  = Some [Printf "Heart Rate Value"].
Proof. vm_compute. reflexivity. Qed.

Example heart_rate_71_after_80s :
  snd <$> Band.heart_rate Sample.realloc_always 1000
            (Sample.device_with (replicate 60 80)) [0; 71]
  = Some [Printf "Heart Rate Value"].
Proof. vm_compute. reflexivity. Qed.

End Telemetry.

Module TelemetryTheorems.
Import TelemetrySpec Telemetry.

(** C9: a heart-rate notification whose first two bytes are [v0] and [v1],
    handled on a device whose history is well formed, records the sample
    [v0 * 256 + v1]; the alert is written if and only if the number of
    recorded samples, the new one included, exceeds 60 and the new value is
    more than 10 below the arithmetic mean of all recorded values.  In
    particular, after 60 samples of mean [m], the value [m - 11] fires the
    alert and the value [m - 9] does not. *)
Theorem C9_alert_below_mean
    (ECC_PUB_KEY_SIZE : nat)
    (ecdh_shared_secret : list Z -> list Z -> list Z -> Z * list Z)
    (AES_cbc_encrypt : list Z -> list Z -> list Z -> list Z)
    (notification_start_ret : string -> Z)
    (realloc_ok : Z -> bool)
    (now : Z) (d : BLEDevice) (value : list Z) (v0 v1 : Z) :
  history_ok d = true ->
  hrCount d + 1 < 2 ^ 31 ->
  value !! 0%nat = Some v0 -> value !! 1%nat = Some v1 ->
  is_byte v0 -> is_byte v1 ->
  (hrCount d + 1 = histSize d -> realloc_ok (histSize d * 2) = true) ->
  exists d' ev,
    Band.characteristic_value_updated ECC_PUB_KEY_SIZE ecdh_shared_secret
      AES_cbc_encrypt notification_start_ret realloc_ok now
      CHARACTERISTIC_HEART_RATE_MEASURE value d
    = Some (d', ev)
    /\ history_ok d' = true
    /\ recorded d' = recorded d ++ [sample_of v0 v1]
    /\ hrCount d' = Z.of_nat (length (recorded d'))
    /\ (alert ∈ ev
        <-> 60 < hrCount d' /\ below_mean (sample_of v0 v1) (recorded d'))
    /\ (forall m,
          length (recorded d) = 60%nat -> total (recorded d) = 60 * m ->
          (sample_of v0 v1 = m - 11 -> alert ∈ ev)
          /\ (sample_of v0 v1 = m - 9 -> alert ∉ ev)).
Proof.
  intros Hok Hint Hv0 Hv1 Hb0 Hb1 Hre.
  destruct (heart_rate_step realloc_ok now d value v0 v1
              Hok Hint Hv0 Hv1 Hb0 Hb1 Hre)
    as (d' & Hrun & Hok' & Hcount & Hrec).
  pose proof (recorded_length d' Hok') as Hlen'.
  pose proof (recorded_length d Hok) as Hlen.
  assert (Hne : recorded d' <> []).
  { rewrite Hrec. intros Hnil. apply app_eq_nil in Hnil as [_ [=]]. }
  assert (Hiff : forall ev b,
             ev = Printf "Heart Rate Value"
                  :: (if (60 <? hrCount d') && b then send_alert else []) ->
             alert ∈ ev <-> 60 < hrCount d' /\ b = true).
  { intros ev b ->. rewrite alert_in_events, andb_true_iff, Z.ltb_lt.
    reflexivity. }
  eexists d', _. split.
  { unfold Band.characteristic_value_updated.
    change (String.eqb CHARACTERISTIC_HEART_RATE_MEASURE
              CHARACTERISTIC_CHUNKED_TRANSFER_READ) with false.
    change (String.eqb CHARACTERISTIC_HEART_RATE_MEASURE
              CHARACTERISTIC_HEART_RATE_MEASURE) with true.
    bind_step. rewrite Hrun. bind_step. reflexivity. }
  cbn [app].
  split; [exact Hok'|]. split; [exact Hrec|]. split; [lia|].
  assert (Hmain : alert ∈ Printf "Heart Rate Value"
                    :: (if (60 <? hrCount d')
                           && bool_decide (hrCount d' * (sample_of v0 v1 + 10)
                                           < total (recorded d'))
                        then send_alert else [])
                  <-> 60 < hrCount d'
                      /\ hrCount d' * (sample_of v0 v1 + 10)
                         < total (recorded d')).
  { rewrite (Hiff _ _ eq_refl), bool_decide_eq_true. reflexivity. }
  split.
  - rewrite Hmain, (below_mean_iff _ _ Hne), Hlen'. reflexivity.
  - intros m H60 Htot. rewrite Hmain, Hrec, total_snoc, Htot.
    rewrite H60 in Hlen. split; intros ->; [split; lia|intros [_ Hlt]; lia].
Qed.

Lemma C9_alert_below_mean_witness :
  exists d' ev,
    Band.characteristic_value_updated 48 Sample.ecdh_copy Sample.xor_cipher
      (fun _ => 0) Sample.realloc_always 1000
      CHARACTERISTIC_HEART_RATE_MEASURE [0; 69]
      (Sample.device_with (replicate 60 80))
    = Some (d', ev)
    /\ recorded d' = replicate 60 80 ++ [69]
    /\ alert ∈ ev.
Proof.
  destruct (C9_alert_below_mean 48 Sample.ecdh_copy Sample.xor_cipher
              (fun _ => 0) Sample.realloc_always 1000
              (Sample.device_with (replicate 60 80)) [0; 69] 0 69)
    as (d' & ev & Hrun & _ & Hrec & _ & _ & Hpart);
    [reflexivity|reflexivity|reflexivity|reflexivity
    |unfold is_byte; lia|unfold is_byte; lia|reflexivity|].
  exists d', ev. split; [exact Hrun|]. split; [exact Hrec|].
  apply (Hpart 80); reflexivity.
Defined.

End TelemetryTheorems.

(** [bind_step] in a hypothesis. *)
Ltac bind_in H := cbn beta iota zeta delta [mbind option_bind] in H.

(** ** More on the chunks written by [write_chunked_value] *)

Module ChunkBounds.
Import Chunk ChunkSpec ChunkFacts ChunkStructure.

(** A pass that returns has read its bytes inside [data]. *)
Lemma chunk_of_Some type handle data data_length remaining count hs chunk c :
  chunk_of type handle data data_length remaining count hs = Some (chunk, c) ->
  c = (if remaining <? mMTU - 3 - hs then remaining else mMTU - 3 - hs)
  ∧ data_length - remaining + Z.of_nat (Z.to_nat c) <= Z.of_nat (length data).
Proof.
  unfold chunk_of.
  set (copybytes := if remaining <? mMTU - 3 - hs then remaining
                    else mMTU - 3 - hs).
  destruct (read_bytes data (data_length - remaining) (Z.to_nat copybytes))
    as [slice|] eqn:Hread.
  - destruct (count =? 0); bind_step; intros [= _ <-]; (split; [done|]);
      unfold read_bytes in Hread;
      destruct (Z.leb_spec 0 (data_length - remaining)); simpl in Hread;
        try done;
      destruct (Z.leb_spec (data_length - remaining + Z.of_nat (Z.to_nat copybytes))
                  (Z.of_nat (length data))); done.
  - destruct (count =? 0); done.
Qed.

(** With [data_length] beyond the end of [data] some pass reads past it,
    whatever the number of passes allowed. *)
Lemma write_loop_overread type handle data data_length (fuel : nat) :
  ∀ remaining count hs,
  Z.of_nat (length data) < data_length ->
  0 < remaining -> 5 <= hs <= 11 ->
  write_loop fuel type handle data data_length remaining count hs = None.
Proof.
  induction fuel as [|fuel IH]; intros remaining count hs Hlen Hrem Hhs; simpl;
    destruct (Z.ltb_spec 0 remaining); try lia; [done|].
  destruct (chunk_of type handle data data_length remaining count hs)
    as [[chunk c]|] eqn:Hchunk; [|done].
  bind_step. apply chunk_of_Some in Hchunk as [Hc Hin].
  unfold mMTU in Hc.
  destruct (Z.lt_ge_cases 0 (remaining - c)) as [Hmore|Hlast].
  - rewrite IH by lia. done.
  - exfalso. destruct (Z.ltb_spec remaining (23 - 3 - hs)); lia.
Qed.

End ChunkBounds.

Module ChunkExtras.
Import Chunk ChunkSpec ChunkFacts ChunkStructure ChunkBounds.

(** X1: [write_chunked_value] stays inside [data] exactly when [data_length]
    does: with a length beyond the buffer some pass of the loop reads past
    its end. *)
Theorem write_chunked_value_defined_iff type handle data data_length :
  0 <= data_length ->
  is_Some (write_chunked_value type handle data data_length)
  <-> data_length <= Z.of_nat (length data).
Proof.
  intros Hnonneg. split.
  - intros [chunks Hw].
    destruct (Z.le_gt_cases data_length (Z.of_nat (length data))) as [|Hgt];
      [done|].
    unfold write_chunked_value in Hw.
    rewrite write_loop_overread in Hw by lia. done.
  - intros Hlen. rewrite write_chunked_value_spec by done. by eexists.
Qed.

Lemma write_chunked_value_defined_iff_witness :
  is_Some (write_chunked_value 0x82 0 (Sample.bytes_from 0 52) 52)
  ∧ ¬ is_Some (write_chunked_value 0x82 0 (Sample.bytes_from 0 36) 52).
Proof.
  split.
  - apply (write_chunked_value_defined_iff 0x82 0 (Sample.bytes_from 0 52) 52);
      simpl; lia.
  - intros H.
    apply (write_chunked_value_defined_iff 0x82 0 (Sample.bytes_from 0 36) 52)
      in H; simpl in H; lia.
Defined.

(** X2: the frames of a payload of [data_length > 0] bytes: there are
    [1 + (data_length + 5) / 15] of them, none is longer than the 20 bytes
    that [mMTU - 3] allows, and every frame but the last has exactly 20
    bytes. *)
Theorem write_chunked_value_frames type handle data data_length :
  0 < data_length -> data_length <= Z.of_nat (length data) ->
  ∃ chunks,
    write_chunked_value type handle data data_length = Some chunks
    ∧ Z.of_nat (length chunks) = 1 + (data_length + 5) / 15
    ∧ ∀ (k : nat) chunk, chunks !! k = Some chunk ->
        Z.of_nat (length chunk) <= mMTU - 3
        ∧ ((S k < length chunks)%nat -> Z.of_nat (length chunk) = mMTU - 3).
Proof.
  intros Hpos Hlen.
  exists (chunks_spec type handle data data_length).
  split; [apply write_chunked_value_spec; [done|lia]|].
  rewrite chunks_spec_length by done.
  pose proof (Z.div_mod (data_length + 5) 15 ltac:(lia)) as Hdm.
  pose proof (Z.mod_pos_bound (data_length + 5) 15 ltac:(lia)) as Hmod.
  assert (HN : 0 <= (data_length + 5) / 15) by (apply Z.div_pos; lia).
  split; [lia|]. intros k chunk Hk. unfold mMTU.
  destruct k as [|j].
  - unfold chunks_spec in Hk.
    destruct (Z.eqb_spec data_length 0); [lia|].
    simpl in Hk. injection Hk as <-.
    rewrite first_chunk_length by lia.
    revert Hdm Hmod HN. generalize ((data_length + 5) / 15).
    generalize ((data_length + 5) mod 15). intros r N Hdm Hmod HN.
    split; lia.
  - apply chunks_spec_lookup_cont in Hk as (_ & Hj & ->).
    revert Hdm Hmod HN Hj. generalize ((data_length + 5) / 15).
    generalize ((data_length + 5) mod 15). intros r N Hdm Hmod HN Hj.
    rewrite cont_chunk_length by lia. split; lia.
Qed.

Lemma write_chunked_value_frames_witness :
  ∃ chunks,
    write_chunked_value 0x82 0 (Sample.bytes_from 0 52) 52 = Some chunks
    ∧ Z.of_nat (length chunks) = 4
    ∧ ∀ (k : nat) chunk, chunks !! k = Some chunk ->
        Z.of_nat (length chunk) <= 20
        ∧ ((S k < length chunks)%nat -> Z.of_nat (length chunk) = 20).
Proof.
  apply (write_chunked_value_frames 0x82 0 (Sample.bytes_from 0 52) 52);
    simpl; lia.
Defined.

(** X3: whatever the length and the type, the frames carry the payload in
    order: what follows the 11-byte header of frame 0 and the 5-byte headers
    of the later frames, put end to end, is the first [data_length] bytes of
    [data]. *)
Theorem write_chunked_value_partition type handle data data_length :
  0 <= data_length -> data_length <= Z.of_nat (length data) ->
  ∃ chunks,
    write_chunked_value type handle data data_length = Some chunks
    ∧ payload_slices chunks = take (Z.to_nat data_length) data.
Proof.
  intros Hnonneg Hlen.
  exists (chunks_spec type handle data data_length).
  split; [by apply write_chunked_value_spec|].
  by apply chunks_spec_slices.
Qed.

Lemma write_chunked_value_partition_witness :
  ∃ chunks,
    write_chunked_value 0x01 7 (Sample.bytes_from 0 300) 300 = Some chunks
    ∧ payload_slices chunks = take 300 (Sample.bytes_from 0 300).
Proof.
  apply (write_chunked_value_partition 0x01 7 (Sample.bytes_from 0 300) 300);
    simpl; lia.
Defined.

End ChunkExtras.

(** ** Frames that the handler ignores, and frames that it reads past *)

Module FrameBounds.
Import ChunkSpec.

Section WithPrimitives.

Variable ECC_PUB_KEY_SIZE : nat.
Variable ecdh_shared_secret : list Z -> list Z -> list Z -> Z * list Z.
Variable AES_cbc_encrypt : list Z -> list Z -> list Z -> list Z.
Variable notification_start_ret : string -> Z.
Variable realloc_ok : Z -> bool.

Local Abbreviation reassemble := (Band.reassemble notification_start_ret).
Local Abbreviation second_auth_part :=
  (Band.second_auth_part ECC_PUB_KEY_SIZE ecdh_shared_secret AES_cbc_encrypt).
Local Abbreviation chunked_transfer :=
  (Band.chunked_transfer ECC_PUB_KEY_SIZE ecdh_shared_secret AES_cbc_encrypt
     notification_start_ret).
Local Abbreviation characteristic_value_updated :=
  (Band.characteristic_value_updated ECC_PUB_KEY_SIZE ecdh_shared_secret
     AES_cbc_encrypt notification_start_ret realloc_ok).

Lemma read_Some_lt (buf : list Z) (i b : Z) :
  read buf i = Some b -> 0 <= i < Z.of_nat (length buf).
Proof.
  unfold read. destruct (Z.leb_spec 0 i) as [Hi|Hi]; [|done].
  intros Hb%lookup_lt_Some. lia.
Qed.

Lemma read_None_ge (buf : list Z) (i : Z) :
  Z.of_nat (length buf) <= i -> read buf i = None.
Proof.
  intros Hlen. unfold read. destruct (Z.leb_spec 0 i) as [Hi|Hi]; [|done].
  apply lookup_ge_None. lia.
Qed.

Lemma byte_is_None (value : list Z) (i c : Z) :
  Z.of_nat (length value) <= i -> byte_is value i c = None.
Proof. intros H. unfold byte_is. rewrite read_None_ge by lia. done. Qed.

(** Both signature tests start with [value[9]]. *)
Lemma signature_is_None (value : list Z) (sub : Z) :
  Z.of_nat (length value) < 10 -> signature_is value sub = None.
Proof.
  intros H. unfold signature_is. rewrite (byte_is_None value 9) by lia. done.
Qed.

Lemma reassemble_short now d value :
  Z.of_nat (length value) < 5
  ∨ (read value 4 = Some 0 ∧ Z.of_nat (length value) < 10) ->
  reassemble now d value = None.
Proof.
  unfold Band.reassemble. intros [Hlen|[Hseq Hlen]].
  - rewrite (read_None_ge value 4) by lia. done.
  - rewrite Hseq. bind_step. unfold and_then at 1. bind_step.
    change (0 =? 0) with true. cbv iota.
    rewrite (signature_is_None value 4) by lia. reflexivity.
Qed.

End WithPrimitives.

End FrameBounds.

Module FrameTheorems.
Import ChunkSpec FrameBounds.

(** X4: a notification that is neither on the read characteristic of the
    chunked transfer nor on the heart-rate measurement, and a
    chunked-transfer notification of fewer than two bytes or with a first
    byte other than 0x03, changes nothing and produces no output. *)
Theorem notification_ignored
    (ECC_PUB_KEY_SIZE : nat)
    (ecdh_shared_secret : list Z -> list Z -> list Z -> Z * list Z)
    (AES_cbc_encrypt : list Z -> list Z -> list Z -> list Z)
    (notification_start_ret : string -> Z)
    (realloc_ok : Z -> bool)
    (now : Z) (uuid : string) (value : list Z) (d : BLEDevice) :
  uuid ≠ CHARACTERISTIC_HEART_RATE_MEASURE ->
  (uuid = CHARACTERISTIC_CHUNKED_TRANSFER_READ ->
   (length value <= 1)%nat ∨ ∃ v0, value !! 0%nat = Some v0 ∧ v0 ≠ 0x03) ->
  Band.characteristic_value_updated ECC_PUB_KEY_SIZE ecdh_shared_secret
    AES_cbc_encrypt notification_start_ret realloc_ok now uuid value d
  = Some (d, []).
Proof.
  intros Hhr Hframe. unfold Band.characteristic_value_updated.
  destruct (String.eqb_spec uuid CHARACTERISTIC_HEART_RATE_MEASURE) as [?|_];
    [done|].
  destruct (String.eqb_spec uuid CHARACTERISTIC_CHUNKED_TRANSFER_READ)
    as [Hread|_]; [|done].
  unfold Band.chunked_transfer.
  destruct (Hframe Hread) as [Hlen|(v0 & Hv0 & Hne)].
  - destruct (Z.ltb_spec 1 (Z.of_nat (length value))); [lia|]. done.
  - unfold read. change (0 <=? 0) with true. cbv iota.
    change (Z.to_nat 0) with 0%nat. rewrite Hv0.
    destruct (1 <? Z.of_nat (length value)); [|done].
    bind_step. destruct (Z.eqb_spec v0 3); [done|]. done.
Qed.

Lemma notification_ignored_witness :
  Band.characteristic_value_updated 48 Sample.ecdh_copy Sample.xor_cipher
    (λ _, 0) Sample.realloc_always 0 CHARACTERISTIC_CHUNKED_TRANSFER_READ
    [0x02; 0x07; 0; 0; 0] Sample.device
  = Some (Sample.device, []).
Proof.
  apply (notification_ignored 48 Sample.ecdh_copy Sample.xor_cipher
           (λ _, 0) Sample.realloc_always 0
           CHARACTERISTIC_CHUNKED_TRANSFER_READ [0x02; 0x07; 0; 0; 0]
           Sample.device).
  - discriminate.
  - intros _. right. exists 2. split; [reflexivity|lia].
Defined.

(** X5: the handler reads [value[4]] of every frame of two or more bytes that
    starts with 0x03, and [value[9]] when the sequence number is 0, without
    looking at the frame's length: a frame of fewer than five bytes, and a
    frame with sequence number 0 of fewer than ten, is read past its end. *)
Theorem short_frame_is_read_past_its_end
    (ECC_PUB_KEY_SIZE : nat)
    (ecdh_shared_secret : list Z -> list Z -> list Z -> Z * list Z)
    (AES_cbc_encrypt : list Z -> list Z -> list Z -> list Z)
    (notification_start_ret : string -> Z)
    (now : Z) (d : BLEDevice) (value : list Z) :
  (1 < length value)%nat -> value !! 0%nat = Some 0x03 ->
  (length value < 5)%nat
  ∨ (value !! 4%nat = Some 0 ∧ (length value < 10)%nat) ->
  Band.chunked_transfer ECC_PUB_KEY_SIZE ecdh_shared_secret AES_cbc_encrypt
    notification_start_ret now d value
  = None.
Proof.
  intros Hlen H0 Hshort. unfold Band.chunked_transfer.
  destruct (Z.ltb_spec 1 (Z.of_nat (length value))); [|lia].
  unfold read at 1. change (0 <=? 0) with true. cbv iota.
  change (Z.to_nat 0) with 0%nat. rewrite H0. bind_step.
  change ((true && (3 =? 3))) with true. cbv iota.
  rewrite reassemble_short; [done|].
  destruct Hshort as [?|[Hseq ?]]; [left; lia|right].
  split; [|lia]. unfold read. by change (0 <=? 4) with true.
Qed.

Lemma short_frame_is_read_past_its_end_witness :
  Band.chunked_transfer 48 Sample.ecdh_copy Sample.xor_cipher (λ _, 0) 0
    Sample.device [0x03; 0x07; 0; 0; 0; 67; 0; 0; 0]
  = None.
Proof.
  apply (short_frame_is_read_past_its_end 48 Sample.ecdh_copy
           Sample.xor_cipher (λ _, 0) 0 Sample.device
           [0x03; 0x07; 0; 0; 0; 67; 0; 0; 0]).
  - simpl. lia.
  - reflexivity.
  - right. split; [reflexivity|simpl; lia].
Defined.

(** X6: when the byte count reaches [expectedBytes], the nonce and the public
    key are read behind the header of the frame at hand: if that frame has
    fewer than [header_size + 16 + ECC_PUB_KEY_SIZE] bytes, the handler
    reads past its end. *)
Theorem completion_reads_past_short_frame
    (ECC_PUB_KEY_SIZE : nat)
    (ecdh_shared_secret : list Z -> list Z -> list Z -> Z * list Z)
    (AES_cbc_encrypt : list Z -> list Z -> list Z -> list Z)
    (notification_start_ret : string -> Z)
    (now : Z) (d : BLEDevice) (value : list Z)
    (d' : BLEDevice) (header_size : Z) (ev : list event) :
  (1 < length value)%nat -> value !! 0%nat = Some 0x03 ->
  Band.reassemble notification_start_ret now d value
  = Some (d', header_size, ev) ->
  pointer d' = expectedBytes d' ->
  Z.of_nat (length value) < header_size + 16 + Z.of_nat ECC_PUB_KEY_SIZE ->
  Band.chunked_transfer ECC_PUB_KEY_SIZE ecdh_shared_secret AES_cbc_encrypt
    notification_start_ret now d value
  = None.
Proof.
  intros Hlen H0 Hre Hdone Hshort.
  assert (Hr0 : read value 0 = Some 0x03) by exact H0.
  rewrite (chunked_transfer_eq _ _ _ _ _ _ _ _ _ _ Hlen Hr0 Hre).
  rewrite Hdone, Z.eqb_refl.
  unfold Band.second_auth_part. rewrite read_bytes_None by lia. done.
Qed.

Lemma completion_reads_past_short_frame_witness :
  Band.chunked_transfer 48 Sample.ecdh_copy Sample.xor_cipher (λ _, 0) 0
    Sample.device [0x03; 0x06; 0; 0; 1]
  = None.
Proof.
  apply (completion_reads_past_short_frame 48 Sample.ecdh_copy
           Sample.xor_cipher (λ _, 0) 0 Sample.device [0x03; 0x06; 0; 0; 1]
           (set_reassembly Sample.device 1 0 0) 5 []).
  - simpl. lia.
  - reflexivity.
  - reflexivity.
  - reflexivity.
  - simpl. lia.
Defined.

End FrameTheorems.

(** ** What each branch of the handler touches *)

Module HandlerFacts.
Import HandlerSpec.

Lemma signature_4_not_5 (value : list Z) :
  signature_is value 0x04 = Some true -> signature_is value 0x05 = Some false.
Proof.
  unfold signature_is, and_then, byte_is.
  destruct (read value 9) as [b9|]; [|done]. bind_step.
  destruct (b9 =? 130); [|done].
  destruct (read value 10) as [b10|]; [|done]. bind_step.
  destruct (b10 =? 0); [|done].
  destruct (read value 11) as [b11|]; [|done]. bind_step.
  destruct (b11 =? 16); [|done].
  destruct (read value 12) as [b12|]; [|done]. bind_step.
  destruct (Z.eqb_spec b12 4) as [->|]; [|done]. done.
Qed.

Section WithPrimitives.

Variable ECC_PUB_KEY_SIZE : nat.
Variable ecdh_shared_secret : list Z -> list Z -> list Z -> Z * list Z.
Variable AES_cbc_encrypt : list Z -> list Z -> list Z -> list Z.
Variable notification_start_ret : string -> Z.
Variable realloc_ok : Z -> bool.

Local Abbreviation reassemble := (Band.reassemble notification_start_ret).
Local Abbreviation second_auth_part :=
  (Band.second_auth_part ECC_PUB_KEY_SIZE ecdh_shared_secret AES_cbc_encrypt).
Local Abbreviation chunked_transfer :=
  (Band.chunked_transfer ECC_PUB_KEY_SIZE ecdh_shared_secret AES_cbc_encrypt
     notification_start_ret).
Local Abbreviation heart_rate := (Band.heart_rate realloc_ok).
Local Abbreviation start_hr_measure :=
  (Band.start_hr_measure notification_start_ret).

Lemma reassemble_cases now d value d' hs ev :
  Forall is_byte value ->
  reassemble now d value = Some (d', hs, ev) ->
  same_keys d d' ∧ same_history d d' ∧ secretKey d' = secretKey d
  ∧ ((success_frame value
      ∧ ev = Printf "Successfully authenticated"
             :: snd (start_hr_measure now d)
      ∧ initial_timestamp d' = now)
     ∨ (¬ success_frame value ∧ only_prints ev
        ∧ initial_timestamp d' = initial_timestamp d)).
Proof.
  unfold Band.reassemble, success_frame. intros Hbytes H.
  destruct (read value 4) as [seq|] eqn:Hseq; [|done]. bind_in H.
  assert (Hrange : 0 <= seq).
  { unfold read in Hseq. simpl in Hseq.
    eapply Forall_lookup_1 in Hbytes; [|exact Hseq]. apply Hbytes. }
  unfold and_then at 1 in H. bind_in H.
  destruct (Z.eqb_spec seq 0) as [->|Hne].
  - destruct (signature_is value 4) as [[|]|] eqn:H4; [| |done].
    + bind_in H. destruct (read value 5) as [v5|]; [|done].
      bind_in H. injection H as <- <- <-.
      repeat split; try done.
      right. split; [|split; [|done]].
      * intros [_ H5]. rewrite (signature_4_not_5 _ H4) in H5. done.
      * intros e ->%list_elem_of_singleton. by eexists.
    + bind_in H. change (0 <? 0) with false in H. cbv iota in H.
      destruct (signature_is value 5) as [[|]|] eqn:H5; [| |done];
        bind_in H; injection H as <- <- <-; (repeat split; try done).
      * left. done.
      * right. split; [|split; [|done]].
        -- intros [_ [=]].
        -- intros e ->%list_elem_of_singleton. by eexists.
  - bind_in H. destruct (Z.ltb_spec 0 seq); [|lia].
    bind_in H. injection H as <- <- <-. repeat split; try done.
    right. split; [|split; [|done]].
    + intros [[= ?] _]. done.
    + intros e He. destruct (negb _).
      * apply list_elem_of_singleton in He as ->. by eexists.
      * by apply elem_of_nil in He.
Qed.

Lemma reassemble_keeps now d value d' hs ev :
  reassemble now d value = Some (d', hs, ev) ->
  same_keys d d' ∧ same_history d d' ∧ secretKey d' = secretKey d.
Proof.
  unfold Band.reassemble. intros H.
  destruct (read value 4) as [seq|]; [|done]. bind_in H.
  destruct (and_then _ _) as [[|]|]; [| |done]; bind_in H.
  - destruct (read value 5) as [v5|]; [|done]. bind_in H.
    by injection H as <- <- <-.
  - destruct (0 <? seq).
    + bind_in H. by injection H as <- <- <-.
    + destruct (signature_is value 5) as [[|]|]; [| |done]; bind_in H;
        by injection H as <- <- <-.
Qed.

Lemma second_auth_part_keeps d value hs d' ev :
  second_auth_part d value hs = Some (d', ev) ->
  same_keys d d' ∧ same_history d d'
  ∧ initial_timestamp d' = initial_timestamp d
  ∧ only_handshake ev.
Proof.
  unfold Band.second_auth_part. intros H.
  destruct (read_bytes value (hs + 16) ECC_PUB_KEY_SIZE) as [pub|]; [|done].
  bind_in H.
  destruct (ecdh_shared_secret (privateKey d) pub (secretKey d))
    as [ret secret].
  repeat (match type of H with
          | (mbind _ (Band.write_chunked _ _ _ _ _) = Some _) => fail 1
          | (mbind _ ?x = Some _) => destruct x; bind_in H; [|done]
          end).
  destruct (Band.write_chunked _ _ _ _ _) as [w|] eqn:Hw; [|done].
  bind_in H. injection H as <- <-.
  repeat split; try done.
  intros e [He|He]%elem_of_app.
  - left. destruct (ret =? 1); [by apply elem_of_nil in He|].
    apply list_elem_of_singleton in He as ->. by eexists.
  - apply elem_of_cons in He as [->|He]; [left; by eexists|].
    right. destruct (HandleByte.write_chunked_handle _ _ _ _ _ _ _ Hw He)
      as (b & -> & _). by eexists.
Qed.

Lemma grow_history_keeps d d' ev :
  Band.grow_history realloc_ok d = Some (d', ev) ->
  same_keys d d' ∧ same_transfer d d'.
Proof.
  unfold Band.grow_history. intros H.
  destruct (hrCount d =? histSize d); [|by injection H as <- <-].
  destruct (realloc_ok (histSize d * 2)); [by injection H as <- <-|].
  destruct (histSize d * 2 / 2 <? histSize d * 2); [done|].
  destruct (realloc_ok 1000); [|done]. by injection H as <- <-.
Qed.

Lemma heart_rate_keeps now d value d' ev :
  heart_rate now d value = Some (d', ev) ->
  same_keys d d' ∧ same_transfer d d'.
Proof.
  unfold Band.heart_rate. intros H.
  destruct (Band.grow_history _ _) as [[d1 ev1]|] eqn:Hg; [|done].
  bind_in H. apply grow_history_keeps in Hg.
  destruct (read value 0) as [v0|]; [|done]. bind_in H.
  destruct (read value 1) as [v1|]; [|done]. bind_in H.
  destruct (write_row _ _ _ _) as [hist|]; [|done]. bind_in H.
  destruct (sum_loop _ _ _ _) as [sum|]; [|done]. bind_in H.
  injection H as <- <-. exact Hg.
Qed.

Lemma chunked_transfer_keeps now d value d' ev :
  chunked_transfer now d value = Some (d', ev) ->
  same_keys d d' ∧ same_history d d'.
Proof.
  unfold Band.chunked_transfer. intros Hc.
  destruct (if 1 <? Z.of_nat (length value) then read value 0 else Some 0)
    as [v0|]; [|done]. bind_in Hc.
  destruct ((1 <? Z.of_nat (length value)) && (v0 =? 3));
    [|by injection Hc as <- <-].
  destruct (Band.reassemble _ _ _ _) as [[[d2 hs] ev2]|] eqn:Hre; [|done].
  bind_in Hc. apply reassemble_keeps in Hre as (Hk & Hh & _).
  destruct (pointer d2 =? expectedBytes d2); [|by injection Hc as <- <-].
  destruct (Band.second_auth_part _ _ _ _ _ _) as [[d3 ev3]|] eqn:Hs;
    [|done].
  bind_in Hc. injection Hc as <- <-.
  apply second_auth_part_keeps in Hs as (Hk' & Hh' & _).
  unfold same_keys, same_history in *. intuition congruence.
Qed.

Lemma characteristic_value_updated_keeps now uuid value d d' ev :
  Band.characteristic_value_updated ECC_PUB_KEY_SIZE ecdh_shared_secret
    AES_cbc_encrypt notification_start_ret realloc_ok now uuid value d
  = Some (d', ev) ->
  same_keys d d'
  ∧ (uuid ≠ CHARACTERISTIC_HEART_RATE_MEASURE -> same_history d d')
  ∧ (uuid ≠ CHARACTERISTIC_CHUNKED_TRANSFER_READ -> same_transfer d d').
Proof.
  unfold Band.characteristic_value_updated. intros H.
  destruct (String.eqb_spec uuid CHARACTERISTIC_CHUNKED_TRANSFER_READ)
    as [->|Hr].
  - change (String.eqb CHARACTERISTIC_CHUNKED_TRANSFER_READ
              CHARACTERISTIC_HEART_RATE_MEASURE) with false in H.
    destruct (Band.chunked_transfer _ _ _ _ _ _ _) as [[d1 ev1]|] eqn:Hc;
      [|done].
    bind_in H. injection H as <- <-.
    destruct (chunked_transfer_keeps _ _ _ _ _ Hc) as [Hk Hh].
    split; [exact Hk|]. split; [intros _; exact Hh|]. done.
  - bind_in H.
    destruct (String.eqb_spec uuid CHARACTERISTIC_HEART_RATE_MEASURE)
      as [->|Hh].
    + destruct (Band.heart_rate _ _ _ _) as [[d1 ev1]|] eqn:Hhr; [|done].
      bind_in H. injection H as <- <-.
      apply heart_rate_keeps in Hhr as (Hk & Hrest).
      split; [exact Hk|]. split; [done|]. intros _. exact Hrest.
    + bind_in H. injection H as <- <-. done.
Qed.

End WithPrimitives.

End HandlerFacts.

Module HandlerTheorems.
Import HandlerSpec HandlerFacts.

(** X7: no notification changes the pre-shared key, the key pair or the handle;
    a notification on another characteristic than the heart-rate measurement
    leaves the history as it is, and one on another characteristic than the
    read side of the chunked transfer leaves the reassembly counters, the
    shared secret and the start time as they are. *)
Theorem handler_keeps_what_it_does_not_own
    (ECC_PUB_KEY_SIZE : nat)
    (ecdh_shared_secret : list Z -> list Z -> list Z -> Z * list Z)
    (AES_cbc_encrypt : list Z -> list Z -> list Z -> list Z)
    (notification_start_ret : string -> Z)
    (realloc_ok : Z -> bool)
    (now : Z) (uuid : string) (value : list Z) (d d' : BLEDevice)
    (ev : list event) :
  Band.characteristic_value_updated ECC_PUB_KEY_SIZE ecdh_shared_secret
    AES_cbc_encrypt notification_start_ret realloc_ok now uuid value d
  = Some (d', ev) ->
  (authKey d' = authKey d ∧ privateKey d' = privateKey d
   ∧ publicKey d' = publicKey d ∧ handle d' = handle d)
  ∧ (uuid ≠ CHARACTERISTIC_HEART_RATE_MEASURE ->
     hrHist d' = hrHist d ∧ hrCount d' = hrCount d
     ∧ histSize d' = histSize d)
  ∧ (uuid ≠ CHARACTERISTIC_CHUNKED_TRANSFER_READ ->
     lastSequenceNumber d' = lastSequenceNumber d
     ∧ pointer d' = pointer d ∧ expectedBytes d' = expectedBytes d
     ∧ secretKey d' = secretKey d
     ∧ initial_timestamp d' = initial_timestamp d).
Proof.
  intros H.
  destruct (characteristic_value_updated_keeps _ _ _ _ _ _ _ _ _ _ _ H)
    as (Hkeys & Hhist & Htransfer).
  split; [exact Hkeys|]. split.
  - intros Hne. exact (Hhist Hne).
  - intros Hne. exact (Htransfer Hne).
Qed.

Lemma handler_keeps_what_it_does_not_own_witness :
  ∃ d' ev,
    Band.characteristic_value_updated 48 Sample.ecdh_copy Sample.xor_cipher
      (λ _, 0) Sample.realloc_always 0 CHARACTERISTIC_CHUNKED_TRANSFER_READ
      Sample.key_exchange_frame Sample.device
    = Some (d', ev)
    ∧ authKey d' = authKey Sample.device
    ∧ hrCount d' = hrCount Sample.device.
Proof.
  eexists _, _. split; [reflexivity|].
  destruct (handler_keeps_what_it_does_not_own 48 Sample.ecdh_copy
              Sample.xor_cipher (λ _, 0) Sample.realloc_always 0
              CHARACTERISTIC_CHUNKED_TRANSFER_READ Sample.key_exchange_frame
              Sample.device _ _ eq_refl)
    as ((Hauth & _) & Hhist & _).
  split; [exact Hauth|]. apply Hhist. discriminate.
Defined.

(** X8: the heart-rate measurement is started by the frame that reports a
    successful authentication (sequence number 0, bytes 82 00 10 05 01 at
    offset 9) and by no other frame: only then are notifications requested
    on the heart-rate characteristic, the two control commands written and
    the start time set, and they are written whatever
    [gattlib_notification_start] returns. *)
Theorem measurement_starts_on_success_frame_only
    (ECC_PUB_KEY_SIZE : nat)
    (ecdh_shared_secret : list Z -> list Z -> list Z -> Z * list Z)
    (AES_cbc_encrypt : list Z -> list Z -> list Z -> list Z)
    (notification_start_ret : string -> Z)
    (now : Z) (d : BLEDevice) (value : list Z) (d' : BLEDevice)
    (ev : list event) :
  Forall is_byte value ->
  Band.chunked_transfer ECC_PUB_KEY_SIZE ecdh_shared_secret AES_cbc_encrypt
    notification_start_ret now d value
  = Some (d', ev) ->
  let success :=
    (1 < length value)%nat ∧ value !! 0%nat = Some 0x03
    ∧ value !! 4%nat = Some 0 ∧ signature_is value 0x05 = Some true in
  ((∃ b, gattlib_write_char_by_uuid CHARACTERISTIC_HEART_RATE_CONTROL b ∈ ev)
   <-> success)
  ∧ (gattlib_notification_start CHARACTERISTIC_HEART_RATE_MEASURE ∈ ev
     <-> success)
  ∧ (success ->
     gattlib_write_char_by_uuid CHARACTERISTIC_HEART_RATE_CONTROL
       [0x15; 0x01; 0x01] ∈ ev
     ∧ gattlib_write_char_by_uuid CHARACTERISTIC_HEART_RATE_CONTROL
         [0x14; 0x00; 0x01] ∈ ev
     ∧ initial_timestamp d' = now)
  ∧ (¬ success -> initial_timestamp d' = initial_timestamp d).
Proof.
  intros Hbytes Hrun success.
  (* the events of a run that does not start the measurement *)
  assert (Hquiet : ∀ l : list event,
    (∀ e, e ∈ l ->
       (∃ msg, e = Printf msg)
       ∨ ∃ b, e = gattlib_write_char_by_uuid
                    CHARACTERISTIC_CHUNKED_TRANSFER_WRITE b) ->
    ¬ (∃ b, gattlib_write_char_by_uuid CHARACTERISTIC_HEART_RATE_CONTROL b ∈ l)
    ∧ gattlib_notification_start CHARACTERISTIC_HEART_RATE_MEASURE ∉ l).
  { intros l Hl. split.
    - intros [b Hb]. destruct (Hl _ Hb) as [[msg [=]]|[b' [=]]].
    - intros Hn. destruct (Hl _ Hn) as [[msg [=]]|[b' [=]]]. }
  unfold Band.chunked_transfer in Hrun.
  destruct (Z.ltb_spec 1 (Z.of_nat (length value))) as [Hlen|Hlen].
  2: { bind_in Hrun. injection Hrun as <- <-.
       assert (Hno : ¬ success) by (unfold success; lia).
       split; [|split; [|split]]; try tauto.
       - split; [intros [b Hb]; by apply elem_of_nil in Hb|tauto].
       - split; [intros Hb; by apply elem_of_nil in Hb|tauto]. }
  destruct (read value 0) as [v0|] eqn:Hv0; [|done]. bind_in Hrun.
  change (true && (v0 =? 3)) with (v0 =? 3) in Hrun.
  destruct (Z.eqb_spec v0 3) as [->|Hne].
  2: { injection Hrun as <- <-.
       assert (Hno : ¬ success).
       { unfold success. intros (_ & H0 & _).
         change (value !! 0%nat = Some v0) in Hv0. congruence. }
       split; [|split; [|split]]; try tauto.
       - split; [intros [b Hb]; by apply elem_of_nil in Hb|tauto].
       - split; [intros Hb; by apply elem_of_nil in Hb|tauto]. }
  destruct (Band.reassemble _ _ _ _) as [[[d1 hs] ev1]|] eqn:Hre; [|done].
  bind_in Hrun.
  destruct (reassemble_cases _ _ _ _ _ _ _ Hbytes Hre)
    as (_ & _ & _ & Hcases).
  assert (Hsucc : success <-> success_frame value).
  { unfold success, success_frame, read. simpl.
    split; [tauto|]. intros [? ?]. repeat split; try done. lia. }
  (* what the completion branch adds *)
  assert (Hrest : ∃ ev2,
    ev = ev1 ++ ev2 ∧ initial_timestamp d' = initial_timestamp d1
    ∧ ∀ e, e ∈ ev2 ->
        (∃ msg, e = Printf msg)
        ∨ ∃ b, e = gattlib_write_char_by_uuid
                     CHARACTERISTIC_CHUNKED_TRANSFER_WRITE b).
  { destruct (pointer d1 =? expectedBytes d1).
    - destruct (Band.second_auth_part _ _ _ _ _ _) as [[d2 ev2]|] eqn:Hs;
        [|done].
      bind_in Hrun. injection Hrun as <- <-.
      apply second_auth_part_keeps in Hs as (_ & _ & Ht & Hev).
      by exists ev2.
    - injection Hrun as <- <-. exists []. rewrite app_nil_r.
      split; [done|]. split; [done|]. by intros e ?%elem_of_nil. }
  destruct Hrest as (ev2 & -> & Ht & Hev2).
  destruct (Hquiet ev2 Hev2) as [Hw2 Hn2].
  destruct Hcases as [(Hs & -> & Ht1)|(Hs & Hprints & Ht1)].
  - assert (Hyes : success) by (by apply Hsucc).
    unfold Band.start_hr_measure. cbn [snd].
    split; [|split; [|split]].
    + split; [done|]. intros _. exists [0x15; 0x01; 0x01].
      apply elem_of_app. left. apply elem_of_cons. right.
      apply elem_of_app. right. apply elem_of_app. right.
      apply elem_of_cons. by left.
    + split; [done|]. intros _.
      apply elem_of_app. left. apply elem_of_cons. right.
      apply elem_of_cons. by left.
    + intros _. split; [|split; [|congruence]].
      * apply elem_of_app. left. apply elem_of_cons. right.
        apply elem_of_app. right. apply elem_of_app. right.
        apply elem_of_cons. by left.
      * apply elem_of_app. left. apply elem_of_cons. right.
        apply elem_of_app. right. apply elem_of_app. right.
        apply elem_of_cons. right. apply elem_of_cons. by left.
    + tauto.
  - assert (Hno : ¬ success) by (by rewrite Hsucc).
    assert (Hq1 : ∀ e, e ∈ ev1 ->
              (∃ msg, e = Printf msg)
              ∨ ∃ b, e = gattlib_write_char_by_uuid
                           CHARACTERISTIC_CHUNKED_TRANSFER_WRITE b)
      by (intros e He; left; by apply Hprints).
    destruct (Hquiet ev1 Hq1) as [Hw1 Hn1].
    split; [|split; [|split]].
    + split; [|tauto]. intros [b [Hb|Hb]%elem_of_app]; exfalso.
      * apply Hw1. by exists b.
      * apply Hw2. by exists b.
    + split; [|tauto]. intros [Hb|Hb]%elem_of_app; done.
    + tauto.
    + intros _. congruence.
Qed.

Lemma measurement_starts_on_success_frame_only_witness :
  ∃ d' ev,
    Band.chunked_transfer 48 Sample.ecdh_copy Sample.xor_cipher (λ _, 1) 1234
      Sample.device
      [0x03; 0x07; 0; 0; 0; 3; 0; 0; 0; 0x82; 0x00; 0x10; 0x05; 0x01]
    = Some (d', ev)
    ∧ gattlib_write_char_by_uuid CHARACTERISTIC_HEART_RATE_CONTROL
        [0x15; 0x01; 0x01] ∈ ev
    ∧ initial_timestamp d' = 1234.
Proof.
  eexists _, _. split; [reflexivity|].
  assert (Hbytes : Forall is_byte
            [0x03; 0x07; 0; 0; 0; 3; 0; 0; 0; 0x82; 0x00; 0x10; 0x05; 0x01])
    by (repeat constructor; unfold is_byte; lia).
  destruct (measurement_starts_on_success_frame_only 48 Sample.ecdh_copy
              Sample.xor_cipher (λ _, 1) 1234 Sample.device
              [0x03; 0x07; 0; 0; 0; 3; 0; 0; 0; 0x82; 0x00; 0x10; 0x05; 0x01]
              _ _ Hbytes eq_refl)
    as (_ & _ & Hyes & _).
  destruct Hyes as (Hw & _ & Ht).
  - repeat split; try reflexivity. simpl. lia.
  - split; [exact Hw | exact Ht].
Defined.

End HandlerTheorems.

(** ** The heart-rate branch: when it returns, and what it adds *)

Module HistoryFacts.
Import TelemetrySpec Telemetry.

Lemma history_ok_inv (d : BLEDevice) :
  history_ok d = true ->
  0 <= hrCount d < histSize d
  ∧ histSize d = Z.of_nat (length (hrHist d))
  ∧ forallb row_ok (take (Z.to_nat (hrCount d)) (hrHist d)) = true.
Proof.
  unfold history_ok. intros Hok.
  apply andb_true_iff in Hok as [Hok Hrows].
  apply andb_true_iff in Hok as [Hok Hsz].
  apply andb_true_iff in Hok as [H0 Hlt].
  apply Z.leb_le in H0. apply Z.ltb_lt in Hlt. apply Z.eqb_eq in Hsz.
  done.
Qed.

Lemma row_ok_written (rows : list (option (Z * Z))) :
  forallb row_ok rows = true -> Forall is_Some rows.
Proof.
  induction rows as [|row rows IH]; [constructor|].
  cbn [forallb]. intros [Hr Hrs]%andb_true_iff.
  destruct (row_ok_inv _ Hr) as (t & v & -> & _).
  constructor; [by eexists|by apply IH].
Qed.

(** The summation reads written rows only. *)
Lemma sum_loop_is_Some (hist : list (option (Z * Z))) (n : nat) :
  ∀ (i : Z) (sum : double),
    0 <= i -> (Z.to_nat i + n <= length hist)%nat ->
    Forall is_Some (take n (drop (Z.to_nat i) hist)) ->
    is_Some (sum_loop n i hist sum).
Proof.
  induction n as [|n IH]; intros i sum Hi Hl Hok; [by eexists|].
  destruct (lookup_lt_is_Some_2 hist (Z.to_nat i)) as [row Hrow]; [lia|].
  rewrite (drop_S _ _ _ Hrow) in Hok.
  cbn [take] in Hok. apply Forall_cons in Hok as [[r ->] Hrs].
  cbn [sum_loop]. unfold read_row.
  destruct (Z.leb_spec 0 i) as [_|]; [|lia].
  rewrite Hrow. cbn [mjoin option_join mbind option_bind].
  apply IH; [lia|lia|].
  by replace (Z.to_nat (i + 1)) with (S (Z.to_nat i)) by lia.
Qed.

Section WithRealloc.

Variable realloc_ok : Z -> bool.

(** Growing the buffer: nothing is done while there is room, and the
    buffer is doubled when this sample fills it. *)
Lemma grow_history_cases (d : BLEDevice) :
  history_ok d = true ->
  (hrCount d + 1 = histSize d -> realloc_ok (histSize d * 2) = true) ->
  ∃ extra,
    Band.grow_history realloc_ok
      (set_history d (hrHist d) (hrCount d + 1) (histSize d))
    = Some (set_history d (hrHist d ++ extra) (hrCount d + 1)
              (Z.of_nat (length (hrHist d ++ extra))), [])
    ∧ hrCount d + 1 < Z.of_nat (length (hrHist d ++ extra))
    ∧ Z.of_nat (length (hrHist d ++ extra))
      <= Z.max (histSize d) (2 * (hrCount d + 1)).
Proof.
  intros Hok Hre. apply history_ok_inv in Hok as (Hc & Hsz & _).
  unfold Band.grow_history. cbn [hrCount histSize hrHist set_history].
  destruct (Z.eqb_spec (hrCount d + 1) (histSize d)) as [He|Hne].
  - rewrite (Hre He).
    exists (replicate (Z.to_nat (histSize d * 2 - histSize d * 2 / 2)) None).
    rewrite length_app, length_replicate, Z.div_mul by lia.
    split; [|lia]. do 2 f_equal. unfold set_history. f_equal. lia.
  - exists []. rewrite app_nil_r. split; [|lia].
    do 2 f_equal. unfold set_history. f_equal. lia.
Qed.

(** The value read from the first two bytes of the notification. *)
Local Abbreviation result_of v0 v1 :=
  (Z.lor (Z.shiftl (Z.lor (Z.shiftl 0 8) v0) 8) v1).

(** One run of the branch, spelled out. *)
Lemma heart_rate_run now d v0 v1 rest :
  history_ok d = true ->
  (hrCount d + 1 = histSize d -> realloc_ok (histSize d * 2) = true) ->
  ∃ extra alert,
    Band.heart_rate realloc_ok now d (v0 :: v1 :: rest)
    = Some (set_history d
              (<[Z.to_nat (hrCount d) :=
                   Some (int32 (now - initial_timestamp d), result_of v0 v1)]>
                 (hrHist d ++ extra))
              (hrCount d + 1) (Z.of_nat (length (hrHist d ++ extra))),
            Printf "Heart Rate Value"
            :: (if alert : bool then send_alert else []))
    ∧ hrCount d + 1 < Z.of_nat (length (hrHist d ++ extra))
    ∧ Z.of_nat (length (hrHist d ++ extra))
      <= Z.max (histSize d) (2 * (hrCount d + 1)).
Proof.
  intros Hok Hre.
  destruct (grow_history_cases d Hok Hre) as (extra & Hg & Hroom & Hsize).
  apply history_ok_inv in Hok as (Hc & Hsz & Hrows).
  unfold Band.heart_rate. rewrite Hg. bind_step.
  cbn [hrCount hrHist histSize initial_timestamp set_history].
  change (read (v0 :: v1 :: rest) 0) with (Some v0).
  change (read (v0 :: v1 :: rest) 1) with (Some v1). bind_step.
  unfold write_row.
  replace (hrCount d + 1 - 1) with (hrCount d) by lia.
  destruct (Z.leb_spec 0 (hrCount d)) as [_|]; [|lia].
  destruct (Z.ltb_spec (hrCount d) (Z.of_nat (length (hrHist d ++ extra))))
    as [_|]; [|lia].
  cbn [andb]. bind_step.
  set (n := Z.to_nat (hrCount d)) in *.
  replace (Z.to_nat (hrCount d + 1)) with (S n) by lia.
  match goal with
  | |- context [sum_loop (S n) 0 ?h ?s] =>
      destruct (sum_loop_is_Some h (S n) 0 s) as [sum Hsum]
  end.
  - lia.
  - rewrite length_insert, length_app. simpl. lia.
  - change (Z.to_nat 0) with 0%nat. rewrite drop_0.
    rewrite take_snoc_insert by lia.
    apply Forall_app. split; [by apply row_ok_written|].
    constructor; [by eexists|constructor].
  - rewrite Hsum. bind_step. eexists extra, _. split; [reflexivity|done].
Qed.

Lemma heart_rate_is_Some now d value :
  history_ok d = true ->
  (2 <= length value)%nat ->
  (hrCount d + 1 = histSize d -> realloc_ok (histSize d * 2) = true) ->
  ∃ d' alert,
    Band.heart_rate realloc_ok now d value
    = Some (d', Printf "Heart Rate Value"
                :: (if alert : bool then send_alert else [])).
Proof.
  intros Hok Hlen Hre.
  destruct value as [|v0 [|v1 rest]]; [simpl in Hlen; lia..|].
  destruct (heart_rate_run now d v0 v1 rest Hok Hre)
    as (extra & alert & -> & _).
  by eexists _, _.
Qed.

(** What a run on a notification of bytes leaves behind. *)
Lemma heart_rate_appends now d v0 v1 rest d' ev :
  history_ok d = true -> is_byte v0 -> is_byte v1 ->
  Band.heart_rate realloc_ok now d (v0 :: v1 :: rest) = Some (d', ev) ->
  history_ok d' = true
  ∧ hrCount d' = hrCount d + 1
  ∧ take (Z.to_nat (hrCount d')) (hrHist d')
    = take (Z.to_nat (hrCount d)) (hrHist d)
      ++ [Some (int32 (now - initial_timestamp d), sample_of v0 v1)]
  ∧ histSize d' <= Z.max (histSize d) (2 * (hrCount d + 1)).
Proof.
  intros Hok Hb0 Hb1 H.
  assert (Hre : hrCount d + 1 = histSize d ->
                realloc_ok (histSize d * 2) = true).
  { intros Hfull. pose proof (history_ok_inv _ Hok) as (Hc & Hsz & _).
    unfold Band.heart_rate in H.
    destruct (Band.grow_history _ _) as [[d1 ev1]|] eqn:Hg; [|done].
    unfold Band.grow_history in Hg.
    cbn [hrCount histSize set_history] in Hg.
    rewrite Hfull, Z.eqb_refl in Hg.
    destruct (realloc_ok (histSize d * 2)); [done|].
    rewrite Z.div_mul in Hg by lia.
    destruct (Z.ltb_spec (histSize d) (histSize d * 2)); [done|lia]. }
  destruct (heart_rate_run now d v0 v1 rest Hok Hre)
    as (extra & alert & Hrun & Hroom & Hsize).
  rewrite Hrun in H. injection H as <- <-.
  pose proof (history_ok_inv _ Hok) as (Hc & Hsz & Hrows).
  rewrite (sample_bytes v0 v1 Hb0 Hb1).
  pose proof (sample_range v0 v1 Hb0 Hb1) as Hv.
  cbn [hrCount hrHist histSize set_history].
  replace (Z.to_nat (hrCount d + 1)) with (S (Z.to_nat (hrCount d))) by lia.
  rewrite take_snoc_insert by lia.
  split; [|done].
  unfold history_ok. cbn [hrCount hrHist histSize set_history].
  replace (Z.to_nat (hrCount d + 1)) with (S (Z.to_nat (hrCount d))) by lia.
  rewrite take_snoc_insert by lia.
  rewrite forallb_app, Hrows, length_insert, Z.eqb_refl.
  destruct (Z.leb_spec 0 (hrCount d + 1)); [|lia].
  destruct (Z.ltb_spec (hrCount d + 1) (Z.of_nat (length (hrHist d ++ extra))));
    [|lia].
  simpl. destruct (Z.leb_spec 0 (sample_of v0 v1)); [|lia].
  destruct (Z.ltb_spec (sample_of v0 v1) 65536); [done|lia].
Qed.

Lemma heart_rate_Some_inv now d value d' ev :
  history_ok d = true ->
  Band.heart_rate realloc_ok now d value = Some (d', ev) ->
  (2 <= length value)%nat
  ∧ (hrCount d + 1 = histSize d -> realloc_ok (histSize d * 2) = true).
Proof.
  intros Hok H. apply history_ok_inv in Hok as (Hc & Hsz & _).
  unfold Band.heart_rate in H.
  destruct (Band.grow_history _ _) as [[d1 ev1]|] eqn:Hg; [|done].
  bind_in H. split.
  - destruct (read value 0) as [v0|]; [|done]. bind_in H.
    destruct (read value 1) as [v1|] eqn:H1; [|done].
    unfold read in H1. simpl in H1. apply lookup_lt_Some in H1. lia.
  - intros Hfull. unfold Band.grow_history in Hg.
    cbn [hrCount histSize set_history] in Hg.
    rewrite Hfull, Z.eqb_refl in Hg.
    destruct (realloc_ok (histSize d * 2)); [done|].
    rewrite Z.div_mul in Hg by lia.
    destruct (Z.ltb_spec (histSize d) (histSize d * 2)); [done|lia].
Qed.

End WithRealloc.

End HistoryFacts.

Module HistoryTheorems.
Import TelemetrySpec Telemetry HistoryFacts.

(** X9: from a well-formed history the heart-rate branch returns exactly when
    the notification has at least two bytes and, if this sample fills the
    buffer, [realloc] returns a block: a shorter notification is read past
    its end, and after a failed [realloc] the null pointer is written
    through before it is tested.  So the recovery branch never runs: what a
    returning call prints and writes is "Heart Rate Value", followed by the
    alert or by nothing. *)
Theorem heart_rate_returns_iff
    (realloc_ok : Z -> bool) (now : Z) (d : BLEDevice) (value : list Z) :
  history_ok d = true -> histSize d < 2 ^ 30 ->
  (is_Some (Band.heart_rate realloc_ok now d value)
   <-> (2 <= length value)%nat
       ∧ (hrCount d + 1 = histSize d -> realloc_ok (histSize d * 2) = true))
  ∧ ∀ d' ev,
      Band.heart_rate realloc_ok now d value = Some (d', ev) ->
      ev = [Printf "Heart Rate Value"]
      ∨ ev = Printf "Heart Rate Value" :: send_alert.
Proof.
  intros Hok _. split.
  - split.
    + intros [[d' ev] H]. by eapply heart_rate_Some_inv.
    + intros [Hlen Hre].
      destruct (heart_rate_is_Some realloc_ok now d value Hok Hlen Hre)
        as (d' & alert & ->).
      by eexists.
  - intros d' ev H.
    destruct (heart_rate_Some_inv _ _ _ _ _ _ Hok H) as [Hlen Hre].
    destruct (heart_rate_is_Some realloc_ok now d value Hok Hlen Hre)
      as (d1 & alert & H1).
    rewrite H1 in H. injection H as <- <-.
    destruct alert; [by right|by left].
Qed.

Lemma heart_rate_returns_iff_witness :
  is_Some (Band.heart_rate Sample.realloc_always 1000
             (Sample.device_with (replicate 60 80)) [0; 69])
  ∧ ¬ is_Some (Band.heart_rate Sample.realloc_always 1000
                 (Sample.device_with (replicate 60 80)) [69])
  ∧ ¬ is_Some (Band.heart_rate (λ _, false) 1000
                 (Sample.device_with (replicate 999 80)) [0; 69]).
Proof.
  split; [|split].
  - apply (heart_rate_returns_iff Sample.realloc_always 1000
             (Sample.device_with (replicate 60 80)) [0; 69]);
      [reflexivity|reflexivity|].
    split; [simpl; lia|reflexivity].
  - intros H.
    apply (heart_rate_returns_iff Sample.realloc_always 1000
             (Sample.device_with (replicate 60 80)) [69]) in H;
      [|reflexivity|reflexivity].
    simpl in H. lia.
  - intros H.
    apply (heart_rate_returns_iff (λ _, false) 1000
             (Sample.device_with (replicate 999 80)) [0; 69]) in H;
      [|reflexivity|reflexivity].
    destruct H as [_ H]. specialize (H eq_refl). discriminate.
Defined.

End HistoryTheorems.

Module SumTheorems.
Import TelemetrySpec Telemetry HistoryFacts DoubleSpec.

(** X10: the [double] in which the mean's numerator is accumulated holds the
    sum of the recorded values exactly: no addition of the loop rounds, for
    any history of two-byte values that an [int] can count. *)
Theorem sum_of_history_is_exact (d : BLEDevice) :
  history_ok d = true -> hrCount d < 2 ^ 31 ->
  let sum := total (recorded d) in
  sum_loop (Z.to_nat (hrCount d)) 0 (hrHist d) (double_of_int 0)
  = Some (double_of_int sum)
  ∧ 0 <= sum <= 65535 * hrCount d
  ∧ (sum = 0 -> double_of_int sum = S754_zero false)
  ∧ (0 < sum ->
     ∃ m e, double_of_int sum = S754_finite false m e
            ∧ e <= 0 ∧ Z.pos m = sum * 2 ^ (- e)).
Proof.
  intros Hok Hint sum.
  apply history_ok_inv in Hok as (Hc & Hsz & Hrows).
  pose proof (total_bound _ Hrows) as Hbound.
  rewrite length_take in Hbound.
  assert (Hsum : 0 <= sum <= 65535 * hrCount d).
  { unfold sum, recorded. lia. }
  split.
  - rewrite (sum_loop_total (hrHist d) (Z.to_nat (hrCount d)) 0 0);
      [| lia | lia | | |].
    + rewrite Z.add_0_l. change (Z.to_nat 0) with 0%nat.
      by rewrite drop_0.
    + change (2 ^ 53) with 9007199254740992.
      change (2 ^ 31) with 2147483648 in Hint. lia.
    + lia.
    + change (Z.to_nat 0) with 0%nat. by rewrite drop_0.
  - split; [exact Hsum|]. split; [by intros ->|].
    intros Hpos. destruct sum as [|p|p] eqn:Hp; [lia| |lia].
    assert (Hdig : dig p <= 53).
    { apply DoubleFacts.dig_le_53_iff.
      change (2 ^ 53) with 9007199254740992.
      change (2 ^ 31) with 2147483648 in Hint. lia. }
    unfold double_of_int. rewrite DoubleFacts.double_of_int_pos by done.
    destruct (DoubleFacts.canon_digits false p 0 Hdig) as (m & -> & _ & Hm).
    pose proof (DoubleFacts.dig_pos p).
    exists m, (0 - (53 - dig p)). split; [done|]. split; [lia|].
    rewrite Hm. f_equal. f_equal. lia.
Qed.

Lemma sum_of_history_is_exact_witness :
  sum_loop 60 0 (hrHist (Sample.device_with (replicate 60 80)))
    (double_of_int 0)
  = Some (double_of_int 4800).
Proof.
  apply (sum_of_history_is_exact (Sample.device_with (replicate 60 80)));
    reflexivity.
Defined.

End SumTheorems.

(** ** Runs of the main loop *)

Module RunFacts.
Import TelemetrySpec Telemetry HistoryFacts HandlerSpec HandlerFacts.
Import Session SessionSpec.

(** The values of the rows do not depend on the start time. *)
Lemma sample_row_values (t0 t1 : Z) (s : source) :
  value_of <$> sample_row t0 s = value_of <$> sample_row t1 s.
Proof.
  destruct s as [|now uuid [|v0 [|v1 rest]]]; try done.
  simpl. by destruct (String.eqb uuid _).
Qed.

Lemma rows_values (t0 : Z) (sources : list source) :
  value_of <$> rows t0 sources = samples sources.
Proof.
  unfold samples, rows. induction sources as [|s sources IH]; [done|].
  cbn [mbind list_bind]. rewrite !fmap_app, IH.
  by rewrite (sample_row_values t0 0).
Qed.

Lemma rows_cons (t0 : Z) (s : source) (sources : list source) :
  rows t0 (s :: sources) = sample_row t0 s ++ rows t0 sources.
Proof. reflexivity. Qed.

Section WithPrimitives.

Variable ECC_PUB_KEY_SIZE : nat.
Variable ecdh_shared_secret : list Z -> list Z -> list Z -> Z * list Z.
Variable AES_cbc_encrypt : list Z -> list Z -> list Z -> list Z.
Variable notification_start_ret : string -> Z.
Variable realloc_ok : Z -> bool.

Local Abbreviation characteristic_value_updated :=
  (Band.characteristic_value_updated ECC_PUB_KEY_SIZE ecdh_shared_secret
     AES_cbc_encrypt notification_start_ret realloc_ok).
Local Abbreviation g_main_loop_run :=
  (g_main_loop_run ECC_PUB_KEY_SIZE ecdh_shared_secret AES_cbc_encrypt
     notification_start_ret realloc_ok).
Local Abbreviation written d := (take (Z.to_nat (hrCount d)) (hrHist d)).

Lemma history_ok_same (d d' : BLEDevice) :
  same_history d d' -> history_ok d' = history_ok d.
Proof. intros (Hh & Hc & Hs). unfold history_ok. by rewrite Hh, Hc, Hs. Qed.

(** One notification: the history grows by the row of the notification. *)
Lemma notification_row now uuid value d d1 ev :
  history_ok d = true -> Forall is_byte value ->
  characteristic_value_updated now uuid value d = Some (d1, ev) ->
  history_ok d1 = true
  ∧ written d1
    = written d ++ sample_row (initial_timestamp d) (notification now uuid value)
  ∧ histSize d1 <= Z.max (histSize d) (2 * hrCount d1)
  ∧ same_keys d d1
  ∧ (uuid = CHARACTERISTIC_HEART_RATE_MEASURE -> same_transfer d d1).
Proof.
  intros Hok Hbytes H.
  destruct (characteristic_value_updated_keeps _ _ _ _ _ _ _ _ _ _ _ H)
    as (Hkeys & Hhist & Htransfer).
  destruct (String.eqb_spec uuid CHARACTERISTIC_HEART_RATE_MEASURE)
    as [->|Hne].
  - unfold Band.characteristic_value_updated in H.
    change (String.eqb CHARACTERISTIC_HEART_RATE_MEASURE
              CHARACTERISTIC_CHUNKED_TRANSFER_READ) with false in H.
    change (String.eqb CHARACTERISTIC_HEART_RATE_MEASURE
              CHARACTERISTIC_HEART_RATE_MEASURE) with true in H.
    bind_in H.
    destruct (Band.heart_rate _ _ _ _) as [[d2 ev2]|] eqn:Hhr; [|done].
    bind_in H. injection H as <- <-.
    destruct (heart_rate_Some_inv _ _ _ _ _ _ Hok Hhr) as [Hlen _].
    destruct value as [|v0 [|v1 rest]]; [simpl in Hlen; lia..|].
    apply Forall_cons in Hbytes as [Hb0 Hbytes].
    apply Forall_cons in Hbytes as [Hb1 _].
    destruct (heart_rate_appends _ _ _ _ _ _ _ _ Hok Hb0 Hb1 Hhr)
      as (Hok2 & Hcount & Hrows & Hsize).
    split; [done|]. split; [exact Hrows|]. split; [lia|].
    split; [done|]. intros _. apply Htransfer. discriminate.
  - destruct (Hhist Hne) as (Hh & Hc & Hs).
    split; [by rewrite (history_ok_same d d1)|].
    split.
    + rewrite Hh, Hc.
      destruct value as [|v0 [|v1 rest]]; simpl; rewrite ?app_nil_r; try done.
      destruct (String.eqb_spec uuid CHARACTERISTIC_HEART_RATE_MEASURE);
        [done|]. by rewrite app_nil_r.
    + apply history_ok_inv in Hok. split; [lia|]. split; [done|]. done.
Qed.


(** A stream of heart-rate notifications and timer ticks is handled to the
    end when [realloc] does not fail. *)
Lemma run_heart_rate_stream (sources : list source) :
  (∀ size, realloc_ok size = true) ->
  ∀ d,
    history_ok d = true -> Forall heart_rate_source sources ->
    ∃ d' ev,
      g_main_loop_run sources d = Some (d', ev)
      ∧ history_ok d' = true
      ∧ written d' = written d ++ rows (initial_timestamp d) sources
      ∧ same_keys d d' ∧ same_transfer d d'.
Proof.
  intros Hre. induction sources as [|s sources IH]; intros d Hok Hsrc.
  - exists d, []. split; [done|]. split; [done|].
    split; [by rewrite app_nil_r|]. done.
  - apply Forall_cons in Hsrc as [Hs Hsrc].
    destruct s as [|now uuid value]; cbn [Session.g_main_loop_run].
    + destruct (IH d Hok Hsrc) as (d' & ev & -> & Hok' & Hrows & Hk & Ht).
      bind_step. eexists _, _. split; [done|]. done.
    + destruct Hs as (-> & Hlen & Hbytes).
      assert (Hstep : ∃ d1 ev1,
        characteristic_value_updated now CHARACTERISTIC_HEART_RATE_MEASURE
          value d = Some (d1, ev1)).
      { unfold Band.characteristic_value_updated.
        change (String.eqb CHARACTERISTIC_HEART_RATE_MEASURE
                  CHARACTERISTIC_CHUNKED_TRANSFER_READ) with false.
        change (String.eqb CHARACTERISTIC_HEART_RATE_MEASURE
                  CHARACTERISTIC_HEART_RATE_MEASURE) with true.
        bind_step.
        destruct (heart_rate_is_Some realloc_ok now d value Hok Hlen)
          as (d1 & alert & ->); [intros _; apply Hre|].
        bind_step. by eexists _, _. }
      destruct Hstep as (d1 & ev1 & Hstep). rewrite Hstep. bind_step.
      destruct (notification_row _ _ _ _ _ _ Hok Hbytes Hstep)
        as (Hok1 & Hrows1 & _ & Hk1 & Ht1).
      specialize (Ht1 eq_refl).
      destruct (IH d1 Hok1 Hsrc) as (d' & ev & -> & Hok' & Hrows & Hk & Ht).
      bind_step. eexists _, _. split; [done|]. split; [done|].
      split.
      * rewrite Hrows, Hrows1, rows_cons, app_assoc.
        destruct Ht1 as (_ & _ & _ & _ & ->). done.
      * unfold same_keys, same_transfer in *. intuition congruence.
Qed.

End WithPrimitives.

End RunFacts.

(** ** The key file *)

Module AuthKeyFacts.
Import AuthKey.

Lemma hex_digit_value (n : Z) :
  0 <= n < 16 -> hex_value (hex_digit n) = Some n.
Proof.
  intros Hn. unfold hex_digit, hex_value.
  destruct (Z.ltb_spec n 10).
  - destruct (Z.leb_spec 48 (48 + n)); [|lia].
    destruct (Z.leb_spec (48 + n) 57); [|lia]. simpl. f_equal. lia.
  - destruct (Z.leb_spec (87 + n) 57); [lia|]. rewrite andb_false_r.
    destruct (Z.leb_spec 97 (87 + n)); [|lia].
    destruct (Z.leb_spec (87 + n) 102); [|lia]. simpl. f_equal. lia.
Qed.

(** A hexadecimal digit is neither the terminator nor a newline. *)
Lemma hex_digit_plain (n : Z) :
  0 <= n < 16 -> hex_digit n ≠ NUL ∧ hex_digit n ≠ LF.
Proof.
  intros Hn. unfold hex_digit, NUL, LF. destruct (n <? 10); lia.
Qed.

Lemma hex_string_plain (key : list Z) :
  Forall is_byte key -> Forall plain (hex_string key).
Proof.
  unfold hex_string. induction 1 as [|b key Hb _ IH]; [constructor|].
  cbn [mbind list_bind]. unfold is_byte in Hb.
  assert (0 <= b / 16 < 16)
    by (split; [apply Z.div_pos; lia|apply Z.div_lt_upper_bound; lia]).
  pose proof (Z.mod_pos_bound b 16 ltac:(lia)).
  repeat constructor; try (apply hex_digit_plain; lia); done.
Qed.

Lemma hex_string_length (key : list Z) :
  length (hex_string key) = (2 * length key)%nat.
Proof.
  unfold hex_string. induction key as [|b key IH]; [done|].
  cbn [mbind list_bind]. rewrite length_app, IH. simpl. lia.
Qed.

Lemma hex_string_app (k1 k2 : list Z) :
  hex_string (k1 ++ k2) = hex_string k1 ++ hex_string k2.
Proof. unfold hex_string. apply bind_app. Qed.

Lemma fgets_chars_plain (cs rest : list Z) (n : nat) :
  Forall plain cs ->
  fgets_chars n (cs ++ rest)
  = if bool_decide (n <= length cs)%nat then take n cs
    else cs ++ fgets_chars (n - length cs) rest.
Proof.
  intros Hcs. revert n. induction Hcs as [|c cs [_ Hc] _ IH]; intros n.
  - simpl. rewrite Nat.sub_0_r. destruct n; [|done]. by destruct rest.
  - destruct n as [|n]; [done|]. cbn [fgets_chars app].
    destruct (Z.eqb_spec c LF); [done|]. rewrite IH. simpl.
    repeat case_bool_decide; try lia; done.
Qed.

Lemma c_string_plain (cs rest : list Z) :
  Forall plain cs -> c_string (cs ++ NUL :: rest) = cs.
Proof.
  induction 1 as [|c cs [Hc _] _ IH]; [done|].
  cbn [c_string app]. destruct (Z.eqb_spec c NUL); [done|]. by rewrite IH.
Qed.

Lemma strcspn_plain (cs rest : list Z) (stop : Z) :
  Forall plain cs -> stop = NUL ∨ stop = LF ->
  strcspn (cs ++ stop :: rest) LF = length cs.
Proof.
  intros Hcs Hstop. induction Hcs as [|c cs [Hc Hl] _ IH].
  - simpl. destruct Hstop as [->| ->]; done.
  - cbn [strcspn app length].
    destruct (Z.eqb_spec c NUL); [done|]. destruct (Z.eqb_spec c LF); [done|].
    simpl. by rewrite IH.
Qed.

Section Parse.

Variable sscanf_2hhx : list Z -> option Z.

(** Two hexadecimal digits are converted to the byte they spell. *)
Hypothesis sscanf_two_digits : ∀ h l x y s,
  hex_value h = Some x -> hex_value l = Some y ->
  sscanf_2hhx (h :: l :: s) = Some (16 * x + y).

Lemma sscanf_hex_byte (b : Z) (cs rest : list Z) :
  is_byte b -> Forall plain cs ->
  sscanf_2hhx (c_string ((hex_byte b ++ cs) ++ NUL :: rest)) = Some b.
Proof.
  intros Hb Hcs. unfold is_byte in Hb.
  assert (H1 : 0 <= b / 16 < 16)
    by (split; [apply Z.div_pos; lia|apply Z.div_lt_upper_bound; lia]).
  pose proof (Z.mod_pos_bound b 16 ltac:(lia)) as H2.
  rewrite c_string_plain.
  - unfold hex_byte. cbn [app].
    rewrite (sscanf_two_digits _ _ (b / 16) (b mod 16))
      by (apply hex_digit_value; lia).
    f_equal. pose proof (Z.div_mod b 16 ltac:(lia)). lia.
  - apply Forall_app. split; [|done].
    repeat constructor; try (apply hex_digit_plain; lia); done.
Qed.

(** The loop over the text of [todo], with [seen] already converted. *)
Lemma parse_loop_hex (todo : list Z) :
  ∀ (seen old : list Z) (rest : list Z),
    Forall is_byte todo -> Forall is_byte seen ->
    (length todo <= length old)%nat ->
    parse_loop sscanf_2hhx (length todo) (length seen)
      (hex_string (seen ++ todo) ++ NUL :: rest) (seen ++ old)
    = Some (seen ++ todo ++ drop (length todo) old).
Proof.
  induction todo as [|b todo IH]; intros seen old rest Htodo Hseen Hlen.
  - simpl. by rewrite drop_0.
  - apply Forall_cons in Htodo as [Hb Htodo].
    destruct old as [|o old]; [simpl in Hlen; lia|].
    cbn [parse_loop length].
    rewrite bool_decide_eq_true_2 by (rewrite length_app; simpl; lia).
    rewrite hex_string_app.
    replace (2 * length seen)%nat with (length (hex_string seen))
      by apply hex_string_length.
    rewrite <- app_assoc, drop_app_length.
    change (hex_string (b :: todo)) with (hex_byte b ++ hex_string todo).
    rewrite sscanf_hex_byte by (try done; by apply hex_string_plain).
    rewrite insert_app_r_alt, Nat.sub_diag by lia. cbn [insert list_insert].
    replace (seen ++ b :: old) with ((seen ++ [b]) ++ old)
      by (by rewrite <- app_assoc).
    replace (S (length seen)) with (length (seen ++ [b]))
      by (rewrite length_app; simpl; lia).
    replace (hex_string seen ++ (hex_byte b ++ hex_string todo) ++ NUL :: rest)
      with (hex_string ((seen ++ [b]) ++ todo) ++ NUL :: rest).
    + rewrite IH; [|done|apply Forall_app; split; [done|by constructor]
                   |simpl in Hlen; lia].
      by rewrite <- app_assoc.
    + rewrite !hex_string_app, <- !app_assoc. reflexivity.
Qed.

(** The key spelled in the first line of the file, at most 16 bytes of it:
    a shorter line ends in a newline. *)
Lemma prepare_auth_key_hex (key tail block : list Z) :
  Forall is_byte key -> length block = 16%nat ->
  (length key = 16%nat ∨ ((length key < 16)%nat ∧ ∃ rest, tail = LF :: rest)) ->
  prepare_auth_key sscanf_2hhx (Some (hex_string key ++ tail)) block
  = Some (Return (key ++ drop (length key) block) []).
Proof.
  intros Hkey Hblock Hcase.
  pose proof (hex_string_plain key Hkey) as Hplain.
  pose proof (hex_string_length key) as Hlen.
  assert (Hbuf : ∃ stop junk,
    fgets 33 (hex_string key ++ tail) = Some ((hex_string key ++ stop :: junk))
    ∧ (stop = NUL ∨ stop = LF)).
  { unfold fgets. change (33 - 1)%nat with 32%nat.
    destruct Hcase as [H16|[Hshort [rest ->]]].
    - exists NUL, []. split; [|by left].
      destruct (hex_string key ++ tail) eqn:Hfile.
      { apply (f_equal length) in Hfile. rewrite length_app in Hfile.
        simpl in Hfile. lia. }
      rewrite <- Hfile, fgets_chars_plain by done.
      rewrite bool_decide_eq_true_2 by lia.
      rewrite take_ge by lia. done.
    - exists LF, [NUL]. split; [|by right].
      destruct (hex_string key ++ LF :: rest) eqn:Hfile.
      { by destruct (hex_string key). }
      rewrite <- Hfile, fgets_chars_plain by done.
      rewrite bool_decide_eq_false_2 by lia.
      destruct (32 - length (hex_string key))%nat as [|m] eqn:Hm; [lia|].
      cbn [fgets_chars]. change (LF =? LF) with true. cbv iota.
      by rewrite <- app_assoc. }
  destruct Hbuf as (stop & junk & Hfgets & Hstop).
  unfold prepare_auth_key. rewrite Hfgets. cbv zeta.
  rewrite strcspn_plain by done.
  rewrite insert_app_r_alt, Nat.sub_diag by lia. cbn [insert list_insert].
  unfold strlen. rewrite c_string_plain by done.
  rewrite Hlen. replace (2 * length key / 2)%nat with (length key)
    by (symmetry; rewrite Nat.mul_comm; apply Nat.div_mul; lia).
  pose proof (parse_loop_hex key [] block junk Hkey ltac:(constructor)
                ltac:(destruct Hcase; lia)) as Hloop.
  simpl in Hloop. rewrite Hloop. done.
Qed.

End Parse.

End AuthKeyFacts.

Module AuthKeyBounds.
Import AuthKey.

Lemma fgets_chars_length (n : nat) : ∀ file,
  (length (fgets_chars n file) <= n)%nat.
Proof.
  induction n as [|n IH]; intros [|c file]; simpl; try lia.
  destruct (c =? LF); simpl; [lia|]. specialize (IH file). lia.
Qed.

(** A buffer that holds a terminator holds a string shorter than itself. *)
Lemma strlen_lt (buf : list Z) : NUL ∈ buf -> (strlen buf < length buf)%nat.
Proof.
  unfold strlen. induction buf as [|c buf IH]; [by intros ?%elem_of_nil|].
  intros Hin. cbn [c_string]. destruct (Z.eqb_spec c NUL); simpl; [lia|].
  apply elem_of_cons in Hin as [?|Hin]; [done|]. specialize (IH Hin). lia.
Qed.

Lemma insert_NUL (buf : list Z) (k : nat) :
  NUL ∈ buf -> NUL ∈ <[k := NUL]> buf.
Proof.
  intros Hin. destruct (decide (k < length buf)%nat) as [Hk|Hk].
  - apply list_elem_of_lookup. exists k. by apply list_lookup_insert_eq.
  - by rewrite list_insert_ge by lia.
Qed.

Lemma parse_loop_in_block sscanf_2hhx (n : nat) :
  ∀ (i : nat) (auth_key keyArray : list Z),
    (i + n <= length keyArray)%nat ->
    ∃ key, parse_loop sscanf_2hhx n i auth_key keyArray = Some key
           ∧ length key = length keyArray.
Proof.
  induction n as [|n IH]; intros i auth_key keyArray Hin; [by eexists|].
  cbn [parse_loop]. rewrite bool_decide_eq_true_2 by lia.
  destruct (sscanf_2hhx _) as [b|].
  - destruct (IH (S i) auth_key (<[i := b]> keyArray)) as (key & -> & Hlen);
      [rewrite length_insert; lia|].
    exists key. by rewrite Hlen, length_insert.
  - apply IH. lia.
Qed.

Lemma prepare_auth_key_shape
    (sscanf_2hhx : list Z -> option Z) (file : option (list Z))
    (block : list Z) :
  length block = 16%nat ->
  ∃ r,
    prepare_auth_key sscanf_2hhx file block = Some r
    ∧ match r with
      | Return key out =>
          length key = 16%nat ∧ out = []
          ∧ ∃ c contents, file = Some (c :: contents)
      | Exit status out =>
          status = 1 ∧ (file = None ∨ file = Some [])
      end.
Proof.
  intros Hblock. unfold prepare_auth_key.
  destruct file as [[|c contents]|].
  - eexists. split; [reflexivity|]. split; [done|by right].
  - cbn [fgets]. change (33 - 1)%nat with 32%nat.
    set (chars := fgets_chars 32 (c :: contents)).
    pose proof (fgets_chars_length 32 (c :: contents)) as Hchars.
    fold chars in Hchars.
    set (auth_key := <[strcspn (chars ++ [NUL]) LF := NUL]> (chars ++ [NUL])).
    assert (Hstr : (strlen auth_key < length auth_key)%nat).
    { apply strlen_lt, insert_NUL, elem_of_app. right.
      by apply list_elem_of_singleton. }
    assert (Hlen : length auth_key = S (length chars)).
    { unfold auth_key. rewrite length_insert, length_app. simpl. lia. }
    destruct (parse_loop_in_block sscanf_2hhx (strlen auth_key / 2) 0
                auth_key block) as (key & Hkey & Hklen).
    { rewrite Hblock, Nat.add_0_l.
      apply Nat.Div0.div_le_upper_bound. lia. }
    cbv zeta. fold chars. fold auth_key. rewrite Hkey. bind_step.
    eexists. split; [reflexivity|].
    split; [lia|]. split; [done|]. by eexists _, _.
  - eexists. split; [reflexivity|]. split; [done|by left].
Qed.

End AuthKeyBounds.

Module AuthKeyTheorems.
Import AuthKey AuthKeyFacts AuthKeyBounds.



(** X12: a first line that spells fewer than 16 bytes is accepted without any
    message: the bytes it spells are stored and the rest of the key is
    whatever the fresh block held. *)
Theorem auth_key_short_line
    (sscanf_2hhx : list Z -> option Z) (key rest block : list Z) :
  (∀ h l x y s,
     hex_value h = Some x -> hex_value l = Some y ->
     sscanf_2hhx (h :: l :: s) = Some (16 * x + y)) ->
  Forall is_byte key -> (length key < 16)%nat -> length block = 16%nat ->
  prepare_auth_key sscanf_2hhx (Some (hex_string key ++ LF :: rest)) block
  = Some (Return (key ++ drop (length key) block) []).
Proof.
  intros Hscan Hkey Hlen Hblock.
  apply (prepare_auth_key_hex sscanf_2hhx Hscan); try done.
  right. split; [done|]. by exists rest.
Qed.

Lemma auth_key_short_line_witness :
  prepare_auth_key Scenario.sscanf_2hhx (Some Scenario.short_key_file)
    (replicate 16 9)
  = Some (Return ([100; 101; 102] ++ replicate 13 9) []).
Proof.
  apply (auth_key_short_line Scenario.sscanf_2hhx (Sample.bytes_from 100 3)
           [] (replicate 16 9)).
  - intros h l x y s Hx Hy. simpl. by rewrite Hx, Hy.
  - repeat constructor; unfold is_byte; simpl; lia.
  - simpl. lia.
  - reflexivity.
Defined.

(** X13: whatever the file holds and whatever the conversion does, the loop
    stays inside the 16-byte block: at most 32 characters are read, so at
    most 16 bytes are stored.  The process exits, with status 1, exactly
    when the file cannot be opened or is empty. *)
Theorem prepare_auth_key_stays_in_block
    (sscanf_2hhx : list Z -> option Z) (file : option (list Z))
    (block : list Z) :
  length block = 16%nat ->
  ∃ r,
    prepare_auth_key sscanf_2hhx file block = Some r
    ∧ match r with
      | Return key out =>
          length key = 16%nat ∧ out = []
          ∧ ∃ c contents, file = Some (c :: contents)
      | Exit status out =>
          status = 1 ∧ (file = None ∨ file = Some [])
      end.
Proof.
  intros Hblock.
  destruct (prepare_auth_key_shape sscanf_2hhx file block Hblock)
    as (r & Hr & Hshape).
  exists r. split; [exact Hr|exact Hshape].
Qed.

Lemma prepare_auth_key_stays_in_block_witness :
  ∃ r,
    prepare_auth_key (λ _, Some 255) (Some (replicate 100 65))
      (replicate 16 0)
    = Some r
    ∧ match r with
      | Return key out =>
          length key = 16%nat ∧ out = []
          ∧ ∃ c contents, Some (replicate 100 65) = Some (c :: contents)
      | Exit status out =>
          status = 1
          ∧ (Some (replicate 100 65) = None ∨ Some (replicate 100 65) = Some [])
      end.
Proof.
  apply (prepare_auth_key_stays_in_block (λ _, Some 255)
           (Some (replicate 100 65)) (replicate 16 0)).
  reflexivity.
Defined.

End AuthKeyTheorems.

(** ** The session *)

Module SessionFacts.
Import Chunk ChunkSpec ChunkFacts ChunkStructure ChunkBounds.
Import TelemetrySpec Telemetry HistoryFacts HandlerSpec HandlerFacts.
Import AuthKey SessionSpec RunFacts.

(** The 52 bytes of the first part: the prefix and the first 48 bytes of
    the public key. *)
Lemma first_part_bytes (n : nat) (pub : list Z) :
  (48 <= n <= length pub)%nat ->
  take 52 ([0x04; 0x02; 0x00; 0x02] ++ take n pub)
  = [0x04; 0x02; 0x00; 0x02] ++ take 48 pub.
Proof.
  intros Hn. change 52%nat with (4 + 48)%nat.
  cbn [app take Nat.add]. do 4 f_equal.
  rewrite take_take. f_equal. lia.
Qed.

Section WithPrimitives.

Variable ECC_PUB_KEY_SIZE : nat.
Variable ecdh_generate_keys : list Z -> list Z -> Z * (list Z * list Z).
Variable RAND_bytes_ret : Z.

Local Abbreviation characteristic_enable_notifications_succeeded :=
  (Band.characteristic_enable_notifications_succeeded ECC_PUB_KEY_SIZE
     ecdh_generate_keys RAND_bytes_ret).

(** What is printed when the random bytes or the key pair cannot be
    generated. *)
Local Abbreviation key_logs ret :=
  ((if RAND_bytes_ret =? 1 then []
    else [Printf "Error generating random bytes"])
   ++ (if ret =? 1 then [] else [Printf "Error generating public key"])).

Lemma first_auth_part_eq d ret pub prv :
  ecdh_generate_keys (publicKey d) (privateKey d) = (ret, (pub, prv)) ->
  (ECC_PUB_KEY_SIZE <= length pub)%nat ->
  characteristic_enable_notifications_succeeded d
    CHARACTERISTIC_CHUNKED_TRANSFER_WRITE
  = if bool_decide (48 <= ECC_PUB_KEY_SIZE)%nat then
      Some (set_keypair d pub prv,
            Printf "Sending 1st Auth Part"
            :: key_logs ret
            ++ map (gattlib_write_char_by_uuid
                      CHARACTERISTIC_CHUNKED_TRANSFER_WRITE)
                 (chunks_spec 0x82 (handle d)
                    ([0x04; 0x02; 0x00; 0x02] ++ take ECC_PUB_KEY_SIZE pub)
                    52))
    else None.
Proof.
  intros Hgen Hpub. unfold Band.characteristic_enable_notifications_succeeded.
  change (String.eqb CHARACTERISTIC_CHUNKED_TRANSFER_WRITE
            CHARACTERISTIC_CHUNKED_TRANSFER_WRITE) with true. cbv iota.
  unfold Band.prepare_pub_key. rewrite Hgen.
  cbn [publicKey handle set_keypair].
  set (final := [4; 2; 0; 2] ++ take ECC_PUB_KEY_SIZE pub).
  assert (Hlen : length final = (4 + ECC_PUB_KEY_SIZE)%nat).
  { unfold final. rewrite length_app, length_take. simpl. lia. }
  unfold Band.write_chunked. case_bool_decide as Hsize.
  - rewrite write_chunked_value_spec by lia. bind_step. reflexivity.
  - unfold write_chunked_value. rewrite write_loop_overread by lia. done.
Qed.


End WithPrimitives.

Section Main.

Variable ECC_PUB_KEY_SIZE : nat.
Variable ecdh_generate_keys : list Z -> list Z -> Z * (list Z * list Z).
Variable ecdh_shared_secret : list Z -> list Z -> list Z -> Z * list Z.
Variable AES_cbc_encrypt : list Z -> list Z -> list Z -> list Z.
Variable notification_start_ret : string -> Z.
Variable RAND_bytes_ret : Z.
Variable realloc_ok : Z -> bool.
Variable sscanf_2hhx : list Z -> option Z.

Local Abbreviation main :=
  (Session.main ECC_PUB_KEY_SIZE ecdh_generate_keys ecdh_shared_secret
     AES_cbc_encrypt notification_start_ret RAND_bytes_ret realloc_ok
     sscanf_2hhx).


(** The ways in which [main] ends. *)
Lemma main_cases connected file block prv pub secret sources status ev :
  main connected file block prv pub secret sources = Some (status, ev) ->
  (status = 1 ∧ only_prints ev
   ∧ (connected = false ∨ file = None ∨ file = Some []))
  ∨ (status = 0 ∧ connected = true
     ∧ ∃ auth out d1 ev1 d2 ev2,
         prepare_auth_key sscanf_2hhx file block = Some (Return auth out)
         ∧ Session.enable_notifications_chunked ECC_PUB_KEY_SIZE ecdh_generate_keys
             notification_start_ret RAND_bytes_ret
             (ble_device_create auth prv pub secret) = Some (d1, ev1)
         ∧ Session.g_main_loop_run ECC_PUB_KEY_SIZE ecdh_shared_secret
             AES_cbc_encrypt notification_start_ret realloc_ok sources d1
           = Some (d2, ev2)
         ∧ ev = out ++ ev1 ++ ev2 ++ Session.handle_sigint ++ plot_heart_rate d2).
Proof.
  unfold Session.main, Session.ble_device_create. intros H.
  destruct connected.
  2: { bind_in H. injection H as <- <-. left.
       split; [done|]. split; [|by left].
       intros e He. apply elem_of_cons in He as [->|He]; [by eexists|].
       apply list_elem_of_singleton in He as ->. by eexists. }
  destruct (prepare_auth_key sscanf_2hhx file block) as [[auth out|st out]|]
    eqn:Hkey; [| |done]; bind_in H.
  - right.
    destruct (Session.enable_notifications_chunked _ _ _ _ _) as [[d1 ev1]|] eqn:He;
      [|done].
    bind_in H.
    destruct (Session.g_main_loop_run _ _ _ _ _ _ _) as [[d2 ev2]|] eqn:Hr; [|done].
    bind_in H. injection H as <- <-.
    split; [done|]. split; [done|]. by eexists _, _, _, _, _, _.
  - injection H as <- <-. left.
    unfold prepare_auth_key in Hkey.
    destruct file as [[|c contents]|].
    + injection Hkey as <- <-. split; [done|]. split; [|by right; right].
      intros e ->%list_elem_of_singleton. by eexists.
    + cbn [fgets] in Hkey. cbv zeta in Hkey.
      destruct (parse_loop _ _ _ _ _); done.
    + injection Hkey as <- <-. split; [done|]. split; [|by right; left].
      intros e ->%list_elem_of_singleton. by eexists.
Qed.

End Main.

End SessionFacts.

Module SessionTheorems.
Import Chunk ChunkSpec ChunkFacts ChunkStructure ChunkBounds.
Import TelemetrySpec Telemetry HistoryFacts HandlerSpec HandlerFacts.
Import AuthKey SessionSpec RunFacts SessionFacts.

(** X14: [Session.enable_notifications_chunked]: when notifications cannot be started
    on the read characteristic, nothing is sent and the device is left as
    it is.  Otherwise the key pair is generated from the device's own
    buffers and the first part of the handshake is written: 52 bytes, the
    prefix 04 02 00 02 and the first 48 bytes of the public key, in four
    frames that carry the device's handle; a failure to generate random
    bytes or the key pair is printed and the frames are sent all the same.
    With a public key of fewer than 48 bytes the 52 bytes are read past the
    end of the 4 + [ECC_PUB_KEY_SIZE] bytes allocated. *)
Theorem first_auth_part
    (ECC_PUB_KEY_SIZE : nat)
    (ecdh_generate_keys : list Z -> list Z -> Z * (list Z * list Z))
    (notification_start_ret : string -> Z) (RAND_bytes_ret : Z)
    (d : BLEDevice) (ret : Z) (pub prv : list Z) :
  ecdh_generate_keys (publicKey d) (privateKey d) = (ret, (pub, prv)) ->
  (ECC_PUB_KEY_SIZE <= length pub)%nat ->
  let enable :=
    Session.enable_notifications_chunked ECC_PUB_KEY_SIZE ecdh_generate_keys
      notification_start_ret RAND_bytes_ret d in
  let started :=
    notification_start_ret CHARACTERISTIC_CHUNKED_TRANSFER_READ = 0 in
  (¬ started ->
   enable
   = Some (d, [ gattlib_notification_start CHARACTERISTIC_CHUNKED_TRANSFER_READ;
                Printf "Failed to start notifications for char_chunked" ]))
  ∧ (started -> (48 <= ECC_PUB_KEY_SIZE)%nat ->
     ∃ c0 c1 c2 c3,
       enable
       = Some (set_keypair d pub prv,
               gattlib_notification_start CHARACTERISTIC_CHUNKED_TRANSFER_READ
               :: Printf "Sending 1st Auth Part"
               :: ((if RAND_bytes_ret =? 1 then []
                    else [Printf "Error generating random bytes"])
                   ++ (if ret =? 1 then []
                       else [Printf "Error generating public key"]))
               ++ map (gattlib_write_char_by_uuid
                         CHARACTERISTIC_CHUNKED_TRANSFER_WRITE)
                    [c0; c1; c2; c3])
       ∧ payload_slices [c0; c1; c2; c3]
         = [0x04; 0x02; 0x00; 0x02] ++ take 48 pub
       ∧ Forall (λ c, c !! 3%nat = Some (handle d)) [c0; c1; c2; c3])
  ∧ (started -> (ECC_PUB_KEY_SIZE < 48)%nat -> enable = None).
Proof.
  intros Hgen Hpub enable started. unfold enable, started.
  unfold Session.enable_notifications_chunked, Band.GATTLIB_SUCCESS.
  split; [|split].
  - intros Hfail. by destruct (Z.eqb_spec (notification_start_ret
                                  CHARACTERISTIC_CHUNKED_TRANSFER_READ) 0).
  - intros -> Hsize. change (0 =? 0) with true. cbv iota.
    rewrite (first_auth_part_eq _ _ _ _ _ _ _ Hgen Hpub).
    rewrite bool_decide_eq_true_2 by done. bind_step.
    set (final := [4; 2; 0; 2] ++ take ECC_PUB_KEY_SIZE pub).
    assert (Hlen : (52 <= length final)%nat).
    { unfold final. rewrite length_app, length_take. simpl. lia. }
    assert (Hslices : payload_slices (chunks_spec 130 (handle d) final 52)
                      = [4; 2; 0; 2] ++ take 48 pub).
    { rewrite chunks_spec_slices by lia. by apply first_part_bytes. }
    assert (Hhandle : Forall (λ c, c !! 3%nat = Some (handle d))
                        (chunks_spec 130 (handle d) final 52)).
    { apply Forall_forall. intros c Hc.
      by eapply Handshake.chunks_spec_handle. }
    revert Hslices Hhandle. unfold chunks_spec.
    change (52 =? 0) with false. change ((52 + 5) / 15) with 3.
    cbn [seqZ Z.to_nat Pos.to_nat Pos.iter_op seq fmap list_fmap map Nat.add].
    intros Hslices Hhandle. eexists _, _, _, _.
    split; [reflexivity|]. split; [exact Hslices|exact Hhandle].
  - intros -> Hsize. change (0 =? 0) with true. cbv iota.
    rewrite (first_auth_part_eq _ _ _ _ _ _ _ Hgen Hpub).
    rewrite bool_decide_eq_false_2 by lia. done.
Qed.

Lemma first_auth_part_witness :
  ∃ c0 c1 c2 c3,
    Session.enable_notifications_chunked 48 Sample.generate_keys (λ _, 0) 0
      Sample.device
    = Some (Sample.device,
            [ gattlib_notification_start CHARACTERISTIC_CHUNKED_TRANSFER_READ;
              Printf "Sending 1st Auth Part";
              Printf "Error generating random bytes";
              gattlib_write_char_by_uuid CHARACTERISTIC_CHUNKED_TRANSFER_WRITE c0;
              gattlib_write_char_by_uuid CHARACTERISTIC_CHUNKED_TRANSFER_WRITE c1;
              gattlib_write_char_by_uuid CHARACTERISTIC_CHUNKED_TRANSFER_WRITE c2;
              gattlib_write_char_by_uuid CHARACTERISTIC_CHUNKED_TRANSFER_WRITE c3 ])
    ∧ payload_slices [c0; c1; c2; c3] = [4; 2; 0; 2] ++ replicate 48 2.
Proof.
  destruct (first_auth_part 48 Sample.generate_keys (λ _, 0) 0 Sample.device
              1 (replicate 48 2) (replicate 24 1))
    as (_ & Hsent & _); [reflexivity|simpl; lia|].
  destruct Hsent as (c0 & c1 & c2 & c3 & Hrun & Hslices & _);
    [reflexivity|lia|].
  exists c0, c1, c2, c3. split; [exact Hrun|exact Hslices].
Defined.

(** X15: a run of the main loop over heart-rate notifications of two or more
    bytes and timer ticks, from a well-formed history and with a [realloc]
    that does not fail: every notification is handled, also across the
    doublings of the buffer, and the history ends up with one more row per
    notification, in the order of arrival, each with the time since the
    start and the 16-bit value of its first two bytes; the rows that were
    there, the keys and the reassembly counters are as before. *)
Theorem heart_rate_stream_is_recorded
    (ECC_PUB_KEY_SIZE : nat)
    (ecdh_shared_secret : list Z -> list Z -> list Z -> Z * list Z)
    (AES_cbc_encrypt : list Z -> list Z -> list Z -> list Z)
    (notification_start_ret : string -> Z)
    (realloc_ok : Z -> bool)
    (sources : list Session.source) (d : BLEDevice) :
  (∀ size, realloc_ok size = true) ->
  history_ok d = true -> histSize d < 2 ^ 30 ->
  hrCount d + Z.of_nat (length sources) < 2 ^ 29 ->
  Forall heart_rate_source sources ->
  ∃ d' ev,
    Session.g_main_loop_run ECC_PUB_KEY_SIZE ecdh_shared_secret
      AES_cbc_encrypt notification_start_ret realloc_ok sources d
    = Some (d', ev)
    ∧ history_ok d' = true
    ∧ take (Z.to_nat (hrCount d')) (hrHist d')
      = take (Z.to_nat (hrCount d)) (hrHist d)
        ++ rows (initial_timestamp d) sources
    ∧ hrCount d' = hrCount d
                   + Z.of_nat (length (rows (initial_timestamp d) sources))
    ∧ authKey d' = authKey d ∧ pointer d' = pointer d
    ∧ expectedBytes d' = expectedBytes d
    ∧ initial_timestamp d' = initial_timestamp d.
Proof.
  intros Hre Hok _ _ Hsrc.
  destruct (run_heart_rate_stream ECC_PUB_KEY_SIZE ecdh_shared_secret
              AES_cbc_encrypt notification_start_ret realloc_ok sources
              Hre d Hok Hsrc)
    as (d' & ev & Hrun & Hok' & Hrows & Hkeys & Htransfer).
  exists d', ev. split; [exact Hrun|]. split; [exact Hok'|].
  split; [exact Hrows|].
  destruct Hkeys as (Hauth & _).
  destruct Htransfer as (_ & Hptr & Hexp & _ & Ht).
  split; [|done].
  apply (f_equal length) in Hrows.
  apply history_ok_inv in Hok as (Hc & Hsz & _).
  apply history_ok_inv in Hok' as (Hc' & Hsz' & _).
  rewrite length_app, !length_take in Hrows. lia.
Qed.

Lemma heart_rate_stream_is_recorded_witness :
  ∃ d' ev,
    Session.g_main_loop_run 48 Sample.ecdh_copy Sample.xor_cipher (λ _, 0)
      Sample.realloc_always Scenario.stream (Sample.device_with [80; 81])
    = Some (d', ev)
    ∧ take (Z.to_nat (hrCount d')) (hrHist d')
      = [Some (0, 80); Some (0, 81); Some (1000, 70); Some (1010, 72)].
Proof.
  destruct (heart_rate_stream_is_recorded 48 Sample.ecdh_copy
              Sample.xor_cipher (λ _, 0) Sample.realloc_always
              Scenario.stream (Sample.device_with [80; 81]))
    as (d' & ev & Hrun & _ & Hrows & _).
  - reflexivity.
  - reflexivity.
  - reflexivity.
  - reflexivity.
  - repeat constructor; unfold is_byte; simpl; lia.
  - exists d', ev. split; [exact Hrun|exact Hrows].
Defined.

(** X16: how [main] ends.  The exit status is 1 when the connection fails or
    the key file cannot be opened or is empty, and then nothing has been
    sent to the band; in every other run that comes to its end the status
    is 0. *)
Theorem main_exit_status
    (ECC_PUB_KEY_SIZE : nat)
    (ecdh_generate_keys : list Z -> list Z -> Z * (list Z * list Z))
    (ecdh_shared_secret : list Z -> list Z -> list Z -> Z * list Z)
    (AES_cbc_encrypt : list Z -> list Z -> list Z -> list Z)
    (notification_start_ret : string -> Z) (RAND_bytes_ret : Z)
    (realloc_ok : Z -> bool) (sscanf_2hhx : list Z -> option Z)
    (connected : bool) (file : option (list Z))
    (block prv pub secret : list Z) (sources : list Session.source)
    (status : Z) (ev : list event) :
  length block = 16%nat ->
  Session.main ECC_PUB_KEY_SIZE ecdh_generate_keys ecdh_shared_secret
    AES_cbc_encrypt notification_start_ret RAND_bytes_ret realloc_ok
    sscanf_2hhx connected file block prv pub secret sources
  = Some (status, ev) ->
  (status = 0 ∨ status = 1)
  ∧ (status = 1
     <-> connected = false ∨ file = None ∨ file = Some [])
  ∧ (status = 1 -> only_prints ev)
  ∧ (status = 0 ->
     gattlib_notification_start CHARACTERISTIC_CHUNKED_TRANSFER_READ ∈ ev).
Proof.
  intros Hblock Hmain.
  destruct (main_cases _ _ _ _ _ _ _ _ _ _ _ _ _ _ _ _ _ Hmain)
    as [(-> & Hprints & Hwhy)
       |(-> & -> & auth & out & d1 & ev1 & d2 & ev2
         & Hkey & Henable & Hrun & ->)].
  - split; [by right|]. split; [done|]. split; [done|]. done.
  - split; [by left|].
    destruct (AuthKeyBounds.prepare_auth_key_shape sscanf_2hhx file block
                Hblock) as (r & Hr & Hshape).
    rewrite Hkey in Hr. injection Hr as <-.
    destruct Hshape as (_ & _ & c & contents & ->).
    split; [|split; [done|]].
    + split; [done|]. intros [?|[?|?]]; done.
    + intros _. apply elem_of_app. right. apply elem_of_app. left.
      unfold Session.enable_notifications_chunked in Henable.
      destruct (_ =? _).
      * destruct (Band.characteristic_enable_notifications_succeeded
                    _ _ _ _ _) as [[d3 ev3]|]; [|done].
        bind_in Henable. injection Henable as <- <-.
        apply elem_of_cons. by left.
      * injection Henable as <- <-. apply elem_of_cons. by left.
Qed.

Lemma main_exit_status_witness :
  ∃ ev,
    Session.main 48 Sample.generate_keys Sample.ecdh_copy Sample.xor_cipher
      (λ _, 0) 1 Sample.realloc_always Scenario.sscanf_2hhx
      true None (replicate 16 0) (replicate 24 1) (replicate 48 2)
      (replicate 48 7) Scenario.session
    = Some (1, ev)
    ∧ only_prints ev.
Proof.
  assert (Hrun : ∃ ev,
    Session.main 48 Sample.generate_keys Sample.ecdh_copy Sample.xor_cipher
      (λ _, 0) 1 Sample.realloc_always Scenario.sscanf_2hhx
      true None (replicate 16 0) (replicate 24 1) (replicate 48 2)
      (replicate 48 7) Scenario.session
    = Some (1, ev)) by (eexists; reflexivity).
  destruct Hrun as [ev Hrun]. exists ev. split; [exact Hrun|].
  destruct (main_exit_status 48 Sample.generate_keys Sample.ecdh_copy
              Sample.xor_cipher (λ _, 0) 1 Sample.realloc_always
              Scenario.sscanf_2hhx true None (replicate 16 0)
              (replicate 24 1) (replicate 48 2) (replicate 48 7)
              Scenario.session 1 ev eq_refl Hrun)
    as (_ & _ & Hprints & _).
  apply Hprints. reflexivity.
Defined.



End SessionTheorems.
